(** * Wave: a Spotify now-playing poller that publishes tracks to Telegram

    The repository holds four near-duplicate variants of one program:
    - [Print]   : prints the current song (first program of main.go);
    - [History] : downloads, uploads and deduplicates through an in-memory
                  track history persisted to data.json (second program of
                  main.go);
    - [Edit]    : sends the audio once and edits the message afterwards
                  (first program of the second Go source);
    - [Upload]  : the UPLOAD-flag variant that reloads data.json on every
                  tick (second program of the second Go source).

    Go strings are byte strings: they are modelled by [string], whose
    characters are the 8-bit [ascii].  Go maps are [gmap]s, with [None] for
    the nil map.  The network, the downloader and the file system are
    modelled by an explicit world that the functions thread through a small
    state-and-trace monad. *)

From Stdlib Require Import ZArith NArith Ascii String List Lia.
From stdpp Require Import base option list gmap strings pretty sorting.

#[local] Arguments String.append !s1 s2 /.

(** ** Byte strings *)

Module Str.

(** [strings.Join(elems, sep)] *)
Fixpoint Join (elems : list string) (sep : string) : string :=
  match elems with
  | [] => EmptyString
  | [a] => a
  | a :: rest => a +:+ sep +:+ Join rest sep
  end.



Definition bytes (s : string) : list ascii := list_ascii_of_string s.
Definition ofBytes (l : list ascii) : string := string_of_list_ascii l.

(** [s[:n]] clipped to the length of [s] *)
Definition prefix (n : nat) (s : string) : string := ofBytes (take n (bytes s)).

(** [filepath.Base] on a Unix path *)
Fixpoint stripSlashes (rev_path : list ascii) : list ascii :=
  match rev_path with
  | c :: rest => if Ascii.eqb c "/" then stripSlashes rest else rev_path
  | [] => []
  end.

Fixpoint lastElement (rev_path : list ascii) : list ascii :=
  match rev_path with
  | c :: rest => if Ascii.eqb c "/" then [] else c :: lastElement rest
  | [] => []
  end.

Definition Base (path : string) : string :=
  match path with
  | EmptyString => "."
  | _ =>
    match lastElement (stripSlashes (rev (bytes path))) with
    | [] => "/"
    | l => ofBytes (rev l)
    end
  end.

End Str.

(** ** Errors *)

(** Go [error] values.  [wrapError s e] is [fmt.Errorf(s + "%w", e)];
    [jsonError] stands for every failure of a decoder other than [io.EOF]
    and the errors of its reader. *)
Inductive error :=
| errorString (s : string)
| wrapError (s : string) (err : error)
| EOF
| ErrNotExist (op path : string)
| jsonError.

(** the method [Error()] *)
Fixpoint Error (e : error) : string :=
  match e with
  | errorString s => s
  | wrapError s err => s +:+ Error err
  | EOF => "EOF"
  | ErrNotExist op path => op +:+ " " +:+ path +:+ ": no such file or directory"
  | jsonError => "json: cannot decode"
  end.

(** [os.IsNotExist(err)] looks at the error itself, [errors.Is(err,
    os.ErrNotExist)] also at the errors it wraps. *)
Definition IsNotExist (e : error) : bool :=
  match e with ErrNotExist _ _ => true | _ => false end.

Fixpoint IsErrNotExist (e : error) : bool :=
  match e with
  | ErrNotExist _ _ => true
  | wrapError _ err => IsErrNotExist err
  | _ => false
  end.

(** ** UTF-8, as package unicode/utf8 decodes and encodes it

    Rune values are computed with sums and quotients of the byte values;
    these are the masks and shifts of the Go code on the ranges the
    preceding tests establish. *)

Module utf8.

Local Open Scope N_scope.

Definition RuneError : N := 0xFFFD.
Definition MaxRune : N := 0x10FFFF.
Definition RuneSelf : N := 0x80.

Definition byte (c : ascii) : N := N_of_ascii c.

(** The table [first] together with [acceptRanges]: the length a leading
    byte announces and the interval its second byte must lie in; [None] is
    the entry [xx] of an invalid leading byte. *)
Definition first (b0 : N) : option (nat * N * N) :=
  if b0 <? 0xC2 then None
  else if b0 <? 0xE0 then Some (2%nat, 0x80, 0xBF)
  else if b0 =? 0xE0 then Some (3%nat, 0xA0, 0xBF)
  else if b0 =? 0xED then Some (3%nat, 0x80, 0x9F)
  else if b0 <? 0xF0 then Some (3%nat, 0x80, 0xBF)
  else if b0 =? 0xF0 then Some (4%nat, 0x90, 0xBF)
  else if b0 <? 0xF4 then Some (4%nat, 0x80, 0xBF)
  else if b0 =? 0xF4 then Some (4%nat, 0x80, 0x8F)
  else None.

(** continuation byte, between [locb] and [hicb] *)
Definition cont (b : N) : bool := (0x80 <=? b) && (b <=? 0xBF).

(** [utf8.DecodeRuneInString]: the rune at the head of [p] and its width.
    A sequence cut short by the end of [p] is an error of width 1. *)
Definition DecodeRune (p : list ascii) : N * nat :=
  match p with
  | [] => (RuneError, 0%nat)
  | c0 :: p1 =>
    let b0 := byte c0 in
    if b0 <? RuneSelf then (b0, 1%nat) else
    match first b0 with
    | None => (RuneError, 1%nat)
    | Some (sz, lo, hi) =>
      match p1 with
      | [] => (RuneError, 1%nat)
      | c1 :: p2 =>
        let b1 := byte c1 in
        if (b1 <? lo) || (hi <? b1) then (RuneError, 1%nat) else
        if (sz <=? 2)%nat then ((b0 - 0xC0) * 64 + (b1 - 0x80), 2%nat) else
        match p2 with
        | [] => (RuneError, 1%nat)
        | c2 :: p3 =>
          let b2 := byte c2 in
          if negb (cont b2) then (RuneError, 1%nat) else
          if (sz <=? 3)%nat
          then ((b0 - 0xE0) * 4096 + (b1 - 0x80) * 64 + (b2 - 0x80), 3%nat) else
          match p3 with
          | [] => (RuneError, 1%nat)
          | c3 :: _ =>
            let b3 := byte c3 in
            if negb (cont b3) then (RuneError, 1%nat) else
            ((b0 - 0xF0) * 262144 + (b1 - 0x80) * 4096
               + (b2 - 0x80) * 64 + (b3 - 0x80), 4%nat)
          end
        end
      end
    end
  end.

(** [utf8.EncodeRune] *)
Definition EncodeRune (r : N) : list ascii :=
  if r <=? 0x7F then [ascii_of_N r]
  else if r <=? 0x7FF then
    [ascii_of_N (0xC0 + r / 64); ascii_of_N (0x80 + r mod 64)]
  else if (MaxRune <? r) || ((0xD800 <=? r) && (r <=? 0xDFFF)) then
    [ascii_of_N 0xEF; ascii_of_N 0xBF; ascii_of_N 0xBD]
  else if r <=? 0xFFFF then
    [ascii_of_N (0xE0 + r / 4096); ascii_of_N (0x80 + (r / 64) mod 64);
     ascii_of_N (0x80 + r mod 64)]
  else
    [ascii_of_N (0xF0 + r / 262144); ascii_of_N (0x80 + (r / 4096) mod 64);
     ascii_of_N (0x80 + (r / 64) mod 64); ascii_of_N (0x80 + r mod 64)].

(** The loop [for i < len(s) { r, size := DecodeRune(s[i:]); ...; i += size }]:
    the runes of [s] in order, each with the bytes it was read from.
    [skip] counts the bytes of the current rune still to pass over. *)
Fixpoint runesFrom (skip : nat) (p : list ascii) : list (N * list ascii) :=
  match p with
  | [] => []
  | _ :: rest =>
    match skip with
    | S k => runesFrom k rest
    | O => let '(r, size) := DecodeRune p in
           (r, take size p) :: runesFrom (size - 1) rest
    end
  end.

Definition runes (p : list ascii) : list (N * list ascii) := runesFrom 0 p.

(** an undecodable byte, as the callers test it: [r == RuneError && size == 1] *)
Definition invalid (ch : N * list ascii) : bool :=
  (ch.1 =? RuneError) && (length ch.2 =? 1)%nat.

(** [utf8.ValidString] *)
Definition ValidString (s : string) : bool :=
  forallb (fun ch => negb (invalid ch)) (runes (Str.bytes s)).

End utf8.

(** ** encoding/json on a [map[string]bool]

    The codec of the track history.  [Encode] is [Encoder.Encode] (HTML
    escaping on, keys sorted, a newline after the value); [Decode] is
    [Decoder.Decode] into a non-nil map, run on the whole content of the
    file.  The decoder tells three outcomes apart, as the callers do: a
    value was read, the input ended before any value began ([io.EOF]), or
    the decoding failed: with the error of the reader, or with [jsonError]
    for a syntax error, an unexpected end of input or a value of another
    type (which of them is not modelled, and a value of another type is
    reported where it begins; nor is the part of the map filled in before a
    type error, since the callers drop it). *)

Module json.

Local Open Scope N_scope.

Definition quote : ascii := "034"%char.
Definition backslash : ascii := "092"%char.

Definition hexDigits : list ascii := Str.bytes "0123456789abcdef".

(** [hex[n]] *)
Definition hex (n : N) : ascii := nth (N.to_nat n) hexDigits "0"%char.

(** [htmlSafeSet[b]] for [b < utf8.RuneSelf] *)
Definition htmlSafe (b : N) : bool :=
  (0x20 <=? b) && negb ((b =? 0x22) || (b =? 0x26) || (b =? 0x3C)
                        || (b =? 0x3E) || (b =? 0x5C)).

(** One turn of the loop of [appendString] with [escapeHTML] set. *)
Definition quoteRune (ch : N * list ascii) : list ascii :=
  let '(r, src) := ch in
  if r <? utf8.RuneSelf then
    if htmlSafe r then src
    else if (r =? 0x5C) || (r =? 0x22) then backslash :: src
    else if r =? 0x08 then [backslash; "b"%char]
    else if r =? 0x0C then [backslash; "f"%char]
    else if r =? 0x0A then [backslash; "n"%char]
    else if r =? 0x0D then [backslash; "r"%char]
    else if r =? 0x09 then [backslash; "t"%char]
    else [backslash; "u"%char; "0"%char; "0"%char; hex (r / 16); hex (r mod 16)]
  else if utf8.invalid ch then
    [backslash; "u"%char; "f"%char; "f"%char; "f"%char; "d"%char]
  else if (r =? 0x2028) || (r =? 0x2029) then
    [backslash; "u"%char; "2"%char; "0"%char; "2"%char; hex (r mod 16)]
  else src.

Definition quoteBody (s : list ascii) : list ascii :=
  concat (quoteRune <$> utf8.runes s).

(** [appendString(dst, src, true)] *)
Definition appendString (s : string) : list ascii :=
  quote :: quoteBody (Str.bytes s) ++ [quote].

Definition encodeBool (b : bool) : list ascii :=
  Str.bytes (if b then "true" else "false").

Definition encodeMember (kv : string * bool) : list ascii :=
  appendString kv.1 ++ ":"%char :: encodeBool kv.2.

Fixpoint encodeMembers (kvs : list (string * bool)) : list ascii :=
  match kvs with
  | [] => []
  | [kv] => encodeMember kv
  | kv :: rest => encodeMember kv ++ ","%char :: encodeMembers rest
  end.

(** the members in the order [mapEncoder] writes them: sorted by key *)
Definition sortedMembers (m : gmap string bool) : list (string * bool) :=
  merge_sort (fun a b => String.le a.1 b.1) (map_to_list m).

(** [json.NewEncoder(w).Encode(v)] for [v : map[string]bool]: the bytes
    handed to [w.Write] *)
Definition Encode (v : option (gmap string bool)) : string :=
  match v with
  | None => Str.ofBytes (Str.bytes "null" ++ ["010"%char])
  | Some m =>
    Str.ofBytes ("{"%char :: encodeMembers (sortedMembers m)
                   ++ ["}"%char; "010"%char])
  end.

(** *** Decoding *)

Definition isSpace (c : ascii) : bool :=
  Ascii.eqb c " " || Ascii.eqb c "009" || Ascii.eqb c "013" || Ascii.eqb c "010".

(** the value of a hexadecimal digit, as [getu4] reads it *)
Definition hexVal (c : ascii) : option N :=
  let b := utf8.byte c in
  if (0x30 <=? b) && (b <=? 0x39) then Some (b - 0x30)
  else if (0x61 <=? b) && (b <=? 0x66) then Some (b - 0x61 + 10)
  else if (0x41 <=? b) && (b <=? 0x46) then Some (b - 0x41 + 10)
  else None.

Definition hex4 (h1 h2 h3 h4 : ascii) : option N :=
  match hexVal h1, hexVal h2, hexVal h3, hexVal h4 with
  | Some a, Some b, Some c, Some d => Some (((a * 16 + b) * 16 + c) * 16 + d)
  | _, _, _, _ => None
  end.

(** [getu4(s)]: the rune of a leading [\uXXXX], if there is one *)
Definition getu4 (s : list ascii) : option N :=
  match s with
  | b :: u :: h1 :: h2 :: h3 :: h4 :: _ =>
    if Ascii.eqb b backslash && Ascii.eqb u "u" then hex4 h1 h2 h3 h4 else None
  | _ => None
  end.

(** [utf16.IsSurrogate] *)
Definition IsSurrogate (r : N) : bool := (0xD800 <=? r) && (r <? 0xE000).

(** [utf16.DecodeRune(r1, r2)], with [None] for a missing second half *)
Definition utf16DecodeRune (r1 : N) (r2 : option N) : N :=
  match r2 with
  | Some r2 =>
    if (0xD800 <=? r1) && (r1 <? 0xDC00) && (0xDC00 <=? r2) && (r2 <? 0xE000)
    then (r1 - 0xD800) * 1024 + (r2 - 0xDC00) + 0x10000
    else utf8.RuneError
  | None => utf8.RuneError
  end.

(** the byte a two-character escape stands for *)
Definition simpleEscape (e : ascii) : option ascii :=
  if Ascii.eqb e quote || Ascii.eqb e backslash || Ascii.eqb e "/"
     || Ascii.eqb e "'" then Some e
  else if Ascii.eqb e "b" then Some "008"%char
  else if Ascii.eqb e "f" then Some "012"%char
  else if Ascii.eqb e "n" then Some "010"%char
  else if Ascii.eqb e "r" then Some "013"%char
  else if Ascii.eqb e "t" then Some "009"%char
  else None.

(** [unquoteBytes] on the inside of a string literal: escapes are replaced
    and every other rune goes through [DecodeRune] and [EncodeRune], which
    turns undecodable bytes into U+FFFD.  [skip] counts input bytes that
    were consumed together with an earlier one. *)
Fixpoint unquoteFrom (skip : nat) (s : list ascii) : option (list ascii) :=
  match s with
  | [] => Some []
  | c :: rest =>
    match skip with
    | S k => unquoteFrom k rest
    | O =>
      if Ascii.eqb c backslash then
        match rest with
        | [] => None
        | e :: rest1 =>
          if Ascii.eqb e "u" then
            match rest1 with
            | h1 :: h2 :: h3 :: h4 :: rest2 =>
              match hex4 h1 h2 h3 h4 with
              | None => None
              | Some rr =>
                if IsSurrogate rr then
                  let dec := utf16DecodeRune rr (getu4 rest2) in
                  if negb (dec =? utf8.RuneError)
                  then (utf8.EncodeRune dec ++.) <$> unquoteFrom 6 rest2
                  else (utf8.EncodeRune utf8.RuneError ++.) <$> unquoteFrom 0 rest2
                else (utf8.EncodeRune rr ++.) <$> unquoteFrom 0 rest2
              end
            | _ => None
            end
          else
            match simpleEscape e with
            | Some b => (b ::.) <$> unquoteFrom 0 rest1
            | None => None
            end
        end
      else if Ascii.eqb c quote || (utf8.byte c <? 0x20) then None
      else if utf8.byte c <? utf8.RuneSelf then (c ::.) <$> unquoteFrom 0 rest
      else
        let '(rr, size) := utf8.DecodeRune s in
        (utf8.EncodeRune rr ++.) <$> unquoteFrom (size - 1) rest
    end
  end.

Definition unquote (s : list ascii) : option string :=
  Str.ofBytes <$> unquoteFrom 0 s.

(** Where the decoder stands in the input.  [m] is the map filled so far,
    [raw] the bytes of the key being read, last byte first. *)
Inductive state :=
| sTop
| sTopNull (expect : list ascii)
| sTopNullEnd
| sBeginKey (first : bool) (m : gmap string bool)
| sInKey (m : gmap string bool) (raw : list ascii)
| sEsc (m : gmap string bool) (raw : list ascii)
| sHex (n : nat) (m : gmap string bool) (raw : list ascii)
| sColon (m : gmap string bool) (key : string)
| sBeginValue (m : gmap string bool) (key : string)
| sLit (expect : list ascii) (m : gmap string bool) (key : string) (v : bool)
| sEndValue (m : gmap string bool).

Inductive Decoded :=
| DecOk (v : option (gmap string bool))
| DecEOF
| DecErr (e : error).

Definition escapeChar (c : ascii) : bool :=
  existsb (Ascii.eqb c) (quote :: backslash :: Str.bytes "/bfnrt").

(** The scanner and the object decoder, one input byte at a time.  The
    reader delivers [src] and then ends with [readErr]: [None] and
    [Some EOF] are [io.EOF], another [Some e] is a failing [Read].  An
    object ends with its closing brace whatever follows; the literal [null]
    ends with the byte after it or with [io.EOF].  A read error is reported
    once the bytes delivered are used up without a complete value.  [null]
    inside the object stores the zero value [false]. *)
Fixpoint scan (readErr : option error) (st : state) (src : list ascii) : Decoded :=
  match src with
  | [] =>
    match readErr with
    | None | Some EOF =>
      match st with
      | sTop => DecEOF
      | sTopNullEnd => DecOk None
      | _ => DecErr jsonError
      end
    | Some e => DecErr e
    end
  | c :: rest =>
    match st with
    | sTop =>
      if isSpace c then scan readErr sTop rest
      else if Ascii.eqb c "{" then scan readErr (sBeginKey true ∅) rest
      else if Ascii.eqb c "n" then scan readErr (sTopNull (Str.bytes "ull")) rest
      else DecErr jsonError
    | sTopNull expect =>
      match expect with
      | [] => DecErr jsonError
      | e :: es =>
        if Ascii.eqb c e
        then match es with
             | [] => scan readErr sTopNullEnd rest
             | _ => scan readErr (sTopNull es) rest
             end
        else DecErr jsonError
      end
    | sTopNullEnd => DecOk None
    | sBeginKey first m =>
      if isSpace c then scan readErr (sBeginKey first m) rest
      else if Ascii.eqb c quote then scan readErr (sInKey m []) rest
      else if first && Ascii.eqb c "}" then DecOk (Some m)
      else DecErr jsonError
    | sInKey m raw =>
      if Ascii.eqb c quote then
        match unquote (rev raw) with
        | Some key => scan readErr (sColon m key) rest
        | None => DecErr jsonError
        end
      else if Ascii.eqb c backslash then scan readErr (sEsc m (c :: raw)) rest
      else if utf8.byte c <? 0x20 then DecErr jsonError
      else scan readErr (sInKey m (c :: raw)) rest
    | sEsc m raw =>
      if Ascii.eqb c "u" then scan readErr (sHex 4 m (c :: raw)) rest
      else if escapeChar c then scan readErr (sInKey m (c :: raw)) rest
      else DecErr jsonError
    | sHex n m raw =>
      match hexVal c, n with
      | Some _, 1%nat => scan readErr (sInKey m (c :: raw)) rest
      | Some _, S k => scan readErr (sHex k m (c :: raw)) rest
      | _, _ => DecErr jsonError
      end
    | sColon m key =>
      if isSpace c then scan readErr (sColon m key) rest
      else if Ascii.eqb c ":" then scan readErr (sBeginValue m key) rest
      else DecErr jsonError
    | sBeginValue m key =>
      if isSpace c then scan readErr (sBeginValue m key) rest
      else if Ascii.eqb c "t"
      then scan readErr (sLit (Str.bytes "rue") m key true) rest
      else if Ascii.eqb c "f"
      then scan readErr (sLit (Str.bytes "alse") m key false) rest
      else if Ascii.eqb c "n"
      then scan readErr (sLit (Str.bytes "ull") m key false) rest
      else DecErr jsonError
    | sLit expect m key v =>
      match expect with
      | [] => DecErr jsonError
      | e :: es =>
        if Ascii.eqb c e
        then match es with
             | [] => scan readErr (sEndValue (<[key := v]> m)) rest
             | _ => scan readErr (sLit es m key v) rest
             end
        else DecErr jsonError
      end
    | sEndValue m =>
      if isSpace c then scan readErr (sEndValue m) rest
      else if Ascii.eqb c "," then scan readErr (sBeginKey false m) rest
      else if Ascii.eqb c "}" then DecOk (Some m)
      else DecErr jsonError
    end
  end.

(** [json.NewDecoder(r).Decode(&v)] for a map [v] that [make] has just
    created, on a reader that delivers [src] and ends with [readErr] *)
Definition DecodeFrom (readErr : option error) (src : string) : Decoded :=
  scan readErr sTop (Str.bytes src).

(** the same on a reader that delivers the whole of [src] *)
Definition Decode (src : string) : Decoded := DecodeFrom None src.

End json.

(** ** The track and its key *)

Record Track := mkTrack { Name : string; Artists : list string }.

(** [fmt.Sprintf("%s - %s", track.Name, strings.Join(track.Artists, ", "))] *)
Definition trackKey (t : Track) : string :=
  Name t +:+ " - " +:+ Str.Join (Artists t) ", ".

(** ** Results and the outside world *)

(** a Go pair [(value, error)] *)
Inductive result (A : Type) :=
| Ok (a : A)
| Err (e : error).
Arguments Ok {A} a.
Arguments Err {A} e.

(** how a call of the cycle function ends *)
Inductive Outcome :=
| Returned (err : option error)
| Panicked (msg : string).

Record Response := mkResponse { StatusCode : Z; Body : string }.

(** the two ways [httpClient.Do] ends: a transport error (a timeout
    included) or a response *)
Inductive Reply :=
| transportError (e : error)
| reply (resp : Response).

(** what running yt-dlp does: its exit status and the files it leaves,
    the audio under the output name and thumbnails under that name with an
    extension appended *)
Record Download := mkDownload {
  exit : option error;
  audio : option string;
  thumbnails : list (string * string)
}.

(** what [Telegram] answers in its JSON body *)
Record SendResult := mkSendResult {
  ok : bool;
  message_id : Z;
  description : string;
  error_code : Z
}.

(** Decoding of the JSON bodies into the structs the program declares, and
    [strconv.Atoi]: library functions the program is parametric in. *)
Record Lib := mkLib {
  decodeToken : string -> result string;
  decodePlaying : string -> result Track;
  unmarshalSong : string -> result Track;
  unmarshalToken : string -> result string;
  decodeSendResult : string -> result SendResult;
  Atoi : string -> result Z
}.

(** Everything the outside does during one tick: the answers of the three
    servers, the downloader, and the failures of the file system and of the
    request constructor that do not follow from the files present.  A read
    or a write that fails does so after a number of bytes. *)
Record Env := mkEnv {
  token : Reply;
  playing : Reply;
  ytdlp : Download;
  telegram : Reply;
  requestFault : string -> option error;
  openFault : string -> option error;
  readFault : string -> option (nat * error);
  createFault : string -> option error;
  writeFault : string -> option (nat * error);
  removeFault : string -> option error
}.

Inductive Part :=
| FormField (name value : string)
| FormFile (field filename content : string).

(** what a run does that can be observed from outside *)
Inductive Event :=
| LogLine (s : string)
| Stdout (s : string)
| TokenRequest (id secret refresh : string)
| NowPlayingRequest (bearer : string)
| Exec (name : string) (args : list string)
| TelegramRequest (url : string) (form : list Part)
| Created (path : string)
| Removed (path : string).

(** the files by name *)
Abbreviation Files := (gmap string string).

Record Out (A : Type) := mkOut {
  value : A;
  files : Files;
  events : list Event
}.
Arguments mkOut {A} value files events.
Arguments value {A} o.
Arguments files {A} o.
Arguments events {A} o.

(** a computation on the files that records its events *)
Definition M (A : Type) : Type := Files -> Out A.

Definition ret {A} (a : A) : M A := fun fs => mkOut a fs [].

Definition bind {A B} (m : M A) (k : A -> M B) : M B := fun fs =>
  let o := m fs in
  let o' := k (value o) (files o) in
  mkOut (value o') (files o') (events o ++ events o').

Notation "'let*' x := m 'in' k" := (bind m (fun x => k))
  (at level 10, x pattern, m at level 100, k at level 200).

Definition emit (e : Event) : M unit := fun fs => mkOut tt fs [e].

(** [log.Printf] and [log.Println] *)
Definition Logf (line : string) : M unit := emit (LogLine line).

(** the file named [name], which is never the empty name *)
Definition lookupFile (fs : Files) (name : string) : option string :=
  if decide (name = EmptyString) then None else fs !! name.

Module os.

(** [os.Open]: the content the handle will read *)
Definition Open (env : Env) (name : string) : M (result string) := fun fs =>
  match openFault env name with
  | Some e => mkOut (Err e) fs []
  | None =>
    match lookupFile fs name with
    | Some content => mkOut (Ok content) fs []
    | None => mkOut (Err (ErrNotExist "open" name)) fs []
    end
  end.

(** [os.Stat], of which the program only reads the error *)
Definition Stat (name : string) : M (option error) := fun fs =>
  match lookupFile fs name with
  | Some _ => mkOut None fs []
  | None => mkOut (Some (ErrNotExist "stat" name)) fs []
  end.

(** [os.Remove]: it fails on a name that is not there, and where the file
    system refuses; the file then stays *)
Definition Remove (env : Env) (name : string) : M (option error) := fun fs =>
  match lookupFile fs name with
  | Some _ =>
    match removeFault env name with
    | Some e => mkOut (Some e) fs []
    | None => mkOut None (delete name fs) [Removed name]
    end
  | None => mkOut (Some (ErrNotExist "remove" name)) fs []
  end.

(** [os.Create]: the file exists and is empty afterwards *)
Definition Create (env : Env) (name : string) : M (option error) := fun fs =>
  match createFault env name with
  | Some e => mkOut (Some e) fs []
  | None =>
    if decide (name = EmptyString)
    then mkOut (Some (ErrNotExist "open" name)) fs []
    else mkOut None (<[name := EmptyString]> fs) [Created name]
  end.

(** one [Write] of [data] to the file just created; a failing write
    leaves a prefix of the data *)
Definition Write (env : Env) (name data : string) : M (option error) := fun fs =>
  match writeFault env name with
  | Some (n, e) => mkOut (Some e) (<[name := Str.prefix n data]> fs) []
  | None => mkOut None (<[name := data]> fs) []
  end.

End os.

(** [exec.Command("yt-dlp", args...).Run()] with output name [out] *)
Definition runYtDlp (env : Env) (out : string) (args : list string)
  : M (option error) := fun fs =>
  let d := ytdlp env in
  let fs1 := match audio d with Some c => <[out := c]> fs | None => fs end in
  let fs2 := foldr (fun t acc => <[out +:+ t.1 := t.2]> acc) fs1 (thumbnails d) in
  mkOut (exit d) fs2 [Exec "yt-dlp" args].

(** [json.NewDecoder(file).Decode(&v)] on the open file [name] holding
    [content]: the decoder is given all of it, or what a failing read
    delivers *)
Definition readContent (env : Env) (name content : string) : json.Decoded :=
  match readFault env name with
  | None => json.Decode content
  | Some (n, e) => json.DecodeFrom (Some e) (Str.prefix n content)
  end.

(** [httpClient.Do(req)]: the request leaves, the outside answers *)
Definition Do (request : Event) (answer : Reply) : M Reply := fun fs =>
  mkOut answer fs [request].

(** ** The history variant (second program of main.go) *)

Module History.

Definition spotifyAPIBase : string := "https://api.spotify.com/v1".
Definition spotifyTokenURL : string := "https://accounts.spotify.com/api/token".
Definition audioFileName : string := "audio.mp3".
Definition dataFileName : string := "data.json".
Definition thumbnailExtensions : list string := [".jpg"; ".webp"].

(** [fmt.Sprintf(telegramAPIBase, botToken)] *)
Definition telegramURL (botToken : string) : string :=
  "https://api.telegram.org/bot" +:+ botToken +:+ "/sendAudio".

Record SpotifyClient := mkSpotifyClient {
  clientID : string;
  clientSecret : string;
  refreshToken : string
}.

Record TelegramClient := mkTelegramClient {
  botToken : string;
  chatID : string
}.

(** [TrackHistory], a [map[string]bool]; [None] is the nil map *)
Abbreviation TrackHistory := (option (gmap string bool)).

(** [history[key]], false for a key that is absent and on the nil map *)
Definition index (history : TrackHistory) (key : string) : bool :=
  match history with
  | Some m => default false (m !! key)
  | None => false
  end.

Section WithLib.

Variable lib : Lib.

Definition newSpotifyClient (getenv : string -> string) : result SpotifyClient :=
  let clientID := getenv "SPOTIFY_CLIENT_ID" in
  let clientSecret := getenv "SPOTIFY_CLIENT_SECRET" in
  let refreshToken := getenv "SPOTIFY_REFRESH_TOKEN" in
  if bool_decide (clientID = EmptyString) || bool_decide (clientSecret = EmptyString)
     || bool_decide (refreshToken = EmptyString)
  then Err (errorString "missing required Spotify environment variables")
  else Ok (mkSpotifyClient clientID clientSecret refreshToken).

Definition newTelegramClient (getenv : string -> string) : result TelegramClient :=
  let botToken := getenv "BOT_TOKEN" in
  let chatID := getenv "CHAT_ID" in
  if bool_decide (botToken = EmptyString) || bool_decide (chatID = EmptyString)
  then Err (errorString "missing required Telegram environment variables")
  else Ok (mkTelegramClient botToken chatID).

Definition unexpectedStatus (resp : Response) : error :=
  errorString ("unexpected status code " +:+ pretty (StatusCode resp)
               +:+ ": " +:+ Body resp).

Definition getAccessToken (env : Env) (c : SpotifyClient) : M (result string) :=
  match requestFault env spotifyTokenURL with
  | Some e => ret (Err (wrapError "error creating request: " e))
  | None =>
    let* r := Do (TokenRequest (clientID c) (clientSecret c) (refreshToken c))
                 (token env) in
    match r with
    | transportError e => ret (Err (wrapError "error sending request: " e))
    | reply resp =>
      if bool_decide (StatusCode resp ≠ 200%Z)
      then ret (Err (unexpectedStatus resp))
      else
        match decodeToken lib (Body resp) with
        | Err e => ret (Err (wrapError "error decoding response: " e))
        | Ok accessToken => ret (Ok accessToken)
        end
    end
  end.

(** The result is a pointer to a track and an error: [Ok None] is
    [nil, nil]. *)
Definition getCurrentTrack (env : Env) (c : SpotifyClient)
  : M (result (option Track)) :=
  let* t := getAccessToken env c in
  match t with
  | Err e => ret (Err (wrapError "error getting access token: " e))
  | Ok token =>
    match requestFault env (spotifyAPIBase +:+ "/me/player/currently-playing") with
    | Some e => ret (Err (wrapError "error creating request: " e))
    | None =>
      let* r := Do (NowPlayingRequest token) (playing env) in
      match r with
      | transportError e => ret (Err (wrapError "error sending request: " e))
      | reply resp =>
        if bool_decide (StatusCode resp = 204%Z) then ret (Ok None)
        else if bool_decide (StatusCode resp ≠ 200%Z)
        then ret (Err (unexpectedStatus resp))
        else
          match decodePlaying lib (Body resp) with
          | Err e => ret (Err (wrapError "error decoding response: " e))
          | Ok track => ret (Ok (Some track))
          end
      end
    end
  end.

(** The multipart writer fills a [strings.Builder], so that creating a part
    and closing the writer cannot fail; opening and reading the files can. *)
Definition sendAudio (env : Env) (t : TelegramClient)
    (filePath title performer thumbnail : string) : M (option error) :=
  let* f := os.Open env filePath in
  match f with
  | Err e => ret (Some (wrapError "error opening audio file: " e))
  | Ok content =>
    match readFault env filePath with
    | Some (_, e) => ret (Some (wrapError "error copying audio file: " e))
    | None =>
      let audioPart := [FormFile "audio" (Str.Base filePath) content] in
      let* th :=
        (if bool_decide (thumbnail ≠ EmptyString) then
           let* tf := os.Open env thumbnail in
           match tf with
           | Err e => ret (Err (wrapError "error opening thumbnail file: " e))
           | Ok tcontent =>
             match readFault env thumbnail with
             | Some (_, e) => ret (Err (wrapError "error copying thumbnail file: " e))
             | None => ret (Ok [FormFile "thumbnail" (Str.Base thumbnail) tcontent])
             end
           end
         else ret (Ok [])) in
      match th with
      | Err e => ret (Some e)
      | Ok thumbPart =>
        let form := audioPart ++ thumbPart ++
                    [FormField "chat_id" (chatID t); FormField "title" title;
                     FormField "performer" performer] in
        let url := telegramURL (botToken t) in
        match requestFault env url with
        | Some e => ret (Some (wrapError "error creating request: " e))
        | None =>
          let* r := Do (TelegramRequest url form) (telegram env) in
          match r with
          | transportError e => ret (Some (wrapError "error sending request: " e))
          | reply resp =>
            if bool_decide (StatusCode resp ≠ 200%Z)
            then ret (Some (unexpectedStatus resp))
            else ret None
          end
        end
      end
    end
  end.

Definition downloadFromYouTube (env : Env) (track : Track) : M (option error) :=
  let query := Name track +:+ " " +:+ Str.Join (Artists track) " " in
  runYtDlp env audioFileName
    ["-x"; "--audio-format"; "mp3"; "--write-thumbnail"; "-o"; audioFileName;
     "ytsearch1:" +:+ query].

Fixpoint firstThumbnail (filename : string) (exts : list string)
  : M (string * option error) :=
  match exts with
  | [] => ret (EmptyString, Some (errorString "thumbnail not found"))
  | ext :: rest =>
    let thumbnail := filename +:+ ext in
    let* err := os.Stat thumbnail in
    match err with
    | None => ret (thumbnail, None)
    | Some _ => firstThumbnail filename rest
    end
  end.

Definition getThumbnail (filename : string) : M (string * option error) :=
  firstThumbnail filename thumbnailExtensions.

Definition loadTrackHistory (env : Env) (filename : string)
  : M (result TrackHistory) :=
  let* f := os.Open env filename in
  match f with
  | Err e =>
    if IsNotExist e then ret (Ok (Some ∅))
    else ret (Err (wrapError "error opening file: " e))
  | Ok content =>
    match readContent env filename content with
    | json.DecOk history => ret (Ok history)
    | json.DecEOF => ret (Ok (Some ∅))
    | json.DecErr e => ret (Err (wrapError "error decoding JSON: " e))
    end
  end.

Definition saveTrackHistory (env : Env) (filename : string)
    (history : TrackHistory) : M (option error) :=
  let* c := os.Create env filename in
  match c with
  | Some e => ret (Some (wrapError "error creating file: " e))
  | None =>
    let* w := os.Write env filename (json.Encode history) in
    match w with
    | Some e => ret (Some (wrapError "error encoding JSON: " e))
    | None => ret None
    end
  end.

(** One cycle.  The map is shared with the caller and written in place:
    the second component is its content when the call ends. *)
Definition processCurrentTrack (env : Env) (spotifyClient : SpotifyClient)
    (telegramClient : TelegramClient) (history : TrackHistory)
  : M (Outcome * TrackHistory) :=
  let* t := getCurrentTrack env spotifyClient in
  match t with
  | Err e =>
    ret (Returned (Some (wrapError "error getting current track: " e)), history)
  | Ok None =>
    let* _ := Logf "No track currently playing" in
    ret (Returned None, history)
  | Ok (Some track) =>
    let key := trackKey track in
    let* _ := Logf ("Current track: " +:+ key) in
    if index history key then
      let* _ := Logf ("Track '" +:+ key +:+ "' already processed. Skipping.") in
      ret (Returned None, history)
    else
      let* _ := Logf ("Downloading: " +:+ key) in
      let* d := downloadFromYouTube env track in
      match d with
      | Some e =>
        ret (Returned (Some (wrapError "error downloading from YouTube: " e)),
             history)
      | None =>
        let* th := getThumbnail audioFileName in
        let thumbnail := th.1 in
        let* _ := match th.2 with
                  | Some e => Logf ("Error getting thumbnail: " +:+ Error e)
                  | None => ret tt
                  end in
        let* _ := Logf ("Uploading to Telegram: " +:+ key) in
        let* s := sendAudio env telegramClient audioFileName (Name track)
                    (Str.Join (Artists track) ", ") thumbnail in
        match s with
        | Some e =>
          ret (Returned (Some (wrapError "error uploading to Telegram: " e)),
               history)
        | None =>
          match history with
          | None => ret (Panicked "assignment to entry in nil map", history)
          | Some m =>
            let history' := Some (<[key := true]> m) in
            let* v := saveTrackHistory env dataFileName history' in
            let* _ := match v with
                      | Some e => Logf ("Error saving track history: " +:+ Error e)
                      | None => ret tt
                      end in
            let* _ := os.Remove env audioFileName in
            let* _ := (if bool_decide (thumbnail ≠ EmptyString)
                       then os.Remove env thumbnail else ret None) in
            ret (Returned None, history')
          end
        end
      end
  end.

(** The loop [for range ticker.C] of [run] over the ticks of [envs], one
    environment per tick.  A panic ends the process. *)
Fixpoint loop (envs : list Env) (spotifyClient : SpotifyClient)
    (telegramClient : TelegramClient) (history : TrackHistory)
  : M (option string * TrackHistory) :=
  match envs with
  | [] => ret (None, history)
  | env :: rest =>
    let* r := processCurrentTrack env spotifyClient telegramClient history in
    match r.1 with
    | Panicked msg => ret (Some msg, r.2)
    | Returned (Some e) =>
      let* _ := Logf ("Error processing current track: " +:+ Error e) in
      loop rest spotifyClient telegramClient r.2
    | Returned None => loop rest spotifyClient telegramClient r.2
    end
  end.

(** [run] up to the ticks of [envs]; [start] is the outside during start-up
    and [dotenv] what [godotenv.Load] returned. *)
Definition run (dotenv : option error) (getenv : string -> string)
    (start : Env) (envs : list Env) : M (result (option string * TrackHistory)) :=
  match dotenv with
  | Some e => ret (Err (wrapError "error loading .env file: " e))
  | None =>
    match newSpotifyClient getenv with
    | Err e => ret (Err (wrapError "error creating Spotify client: " e))
    | Ok spotifyClient =>
      match newTelegramClient getenv with
      | Err e => ret (Err (wrapError "error creating Telegram client: " e))
      | Ok telegramClient =>
        let* h := loadTrackHistory start dataFileName in
        match h with
        | Err e => ret (Err (wrapError "error loading track history: " e))
        | Ok history =>
          let* r := loop envs spotifyClient telegramClient history in
          ret (Ok r)
        end
      end
    end
  end.

End WithLib.

End History.

(** ** The editing variant (first program of the second source) *)

Module Edit.

Definition spotifyAPIBase : string := "https://api.spotify.com/v1".
Definition spotifyTokenURL : string := "https://accounts.spotify.com/api/token".
Definition audioFileName : string := "audio.mp3".

(** [fmt.Sprintf(telegramAPIBase, botToken, method)] *)
Definition telegramURL (botToken method : string) : string :=
  "https://api.telegram.org/bot" +:+ botToken +:+ "/" +:+ method.

Record SpotifyClient := mkSpotifyClient {
  clientID : string;
  clientSecret : string;
  refreshToken : string;
  refreshInterval : Z
}.

(** [messageID] is a pointer: [None] is nil. *)
Record TelegramClient := mkTelegramClient {
  botToken : string;
  chatID : string;
  messageID : option Z
}.

Definition quoted (s : string) : string :=
  String json.quote s +:+ String json.quote EmptyString.

(** the [media] field of an edit, a JSON text written with [Sprintf] *)
Definition mediaField (title performer : string) : string :=
  "{" +:+ quoted "type" +:+ ":" +:+ quoted "audio" +:+ ","
  +:+ quoted "media" +:+ ":" +:+ quoted "attach://audio" +:+ ", "
  +:+ quoted "thumbnail" +:+ ":" +:+ quoted "attach://thumbnail" +:+ ", "
  +:+ quoted "title" +:+ ":" +:+ quoted title +:+ ", "
  +:+ quoted "performer" +:+ ":" +:+ quoted performer +:+ "}".

Section WithLib.

Variable lib : Lib.

Definition newSpotifyClient (getenv : string -> string) : result SpotifyClient :=
  let clientID := getenv "SPOTIFY_CLIENT_ID" in
  let clientSecret := getenv "SPOTIFY_CLIENT_SECRET" in
  let refreshToken := getenv "SPOTIFY_REFRESH_TOKEN" in
  let refreshIntervalStr := getenv "REFRESH_INTERVAL" in
  if bool_decide (clientID = EmptyString) || bool_decide (clientSecret = EmptyString)
     || bool_decide (refreshToken = EmptyString)
     || bool_decide (refreshIntervalStr = EmptyString)
  then Err (errorString "missing required spotify environment variables")
  else
    match Atoi lib refreshIntervalStr with
    | Err _ => Err (errorString "invalid refresh interval value")
    | Ok refreshIntervalInt =>
      Ok (mkSpotifyClient clientID clientSecret refreshToken refreshIntervalInt)
    end.

Definition newTelegramClient (getenv : string -> string) : result TelegramClient :=
  let botToken := getenv "BOT_TOKEN" in
  let chatID := getenv "CHAT_ID" in
  if bool_decide (botToken = EmptyString) || bool_decide (chatID = EmptyString)
  then Err (errorString "missing required telegram environment variables")
  else Ok (mkTelegramClient botToken chatID None).

Definition unexpectedStatus (resp : Response) : error :=
  errorString ("unexpected status code " +:+ pretty (StatusCode resp)
               +:+ ": " +:+ Body resp).

Definition getAccessToken (env : Env) (c : SpotifyClient) : M (result string) :=
  match requestFault env spotifyTokenURL with
  | Some e => ret (Err (wrapError "error creating request: " e))
  | None =>
    let* r := Do (TokenRequest (clientID c) (clientSecret c) (refreshToken c))
                 (token env) in
    match r with
    | transportError e => ret (Err (wrapError "error sending request: " e))
    | reply resp =>
      if bool_decide (StatusCode resp ≠ 200%Z)
      then ret (Err (unexpectedStatus resp))
      else
        match decodeToken lib (Body resp) with
        | Err e => ret (Err (wrapError "error decoding response: " e))
        | Ok accessToken => ret (Ok accessToken)
        end
    end
  end.

Definition getCurrentTrack (env : Env) (c : SpotifyClient)
  : M (result (option Track)) :=
  let* t := getAccessToken env c in
  match t with
  | Err e => ret (Err (wrapError "error getting access token: " e))
  | Ok token =>
    match requestFault env (spotifyAPIBase +:+ "/me/player/currently-playing") with
    | Some e => ret (Err (wrapError "error creating request: " e))
    | None =>
      let* r := Do (NowPlayingRequest token) (playing env) in
      match r with
      | transportError e => ret (Err (wrapError "error sending request: " e))
      | reply resp =>
        if bool_decide (StatusCode resp = 204%Z) then ret (Ok None)
        else if bool_decide (StatusCode resp ≠ 200%Z)
        then ret (Err (unexpectedStatus resp))
        else
          match decodePlaying lib (Body resp) with
          | Err e => ret (Err (wrapError "error decoding response: " e))
          | Ok track => ret (Ok (Some track))
          end
      end
    end
  end.

(** The method has a pointer receiver and stores the message id in it: the
    second component is the client when the call ends. *)
Definition sendOrEditAudio (env : Env) (t : TelegramClient)
    (filePath title performer thumbnail : string)
  : M (option error * TelegramClient) :=
  let* f := os.Open env filePath in
  match f with
  | Err e => ret (Some (wrapError "error opening audio file: " e), t)
  | Ok content =>
    let head := [FormField "chat_id" (chatID t)] in
    let url := match messageID t with
               | Some _ => telegramURL (botToken t) "editMessageMedia"
               | None => telegramURL (botToken t) "sendAudio"
               end in
    let fields := match messageID t with
                  | Some id => [FormField "message_id" (pretty id);
                                FormField "media" (mediaField title performer)]
                  | None => [FormField "title" title;
                             FormField "performer" performer]
                  end in
    match readFault env filePath with
    | Some (_, e) => ret (Some (wrapError "error copying audio file: " e), t)
    | None =>
      let audioPart := [FormFile "audio" (Str.Base filePath) content] in
      let* th :=
        (if bool_decide (thumbnail ≠ EmptyString) then
           let* tf := os.Open env thumbnail in
           match tf with
           | Err e => ret (Err (wrapError "error opening thumbnail file: " e))
           | Ok tcontent =>
             match readFault env thumbnail with
             | Some (_, e) => ret (Err (wrapError "error copying thumbnail file: " e))
             | None => ret (Ok [FormFile "thumbnail" (Str.Base thumbnail) tcontent])
             end
           end
         else ret (Ok [])) in
      match th with
      | Err e => ret (Some e, t)
      | Ok thumbPart =>
        let form := head ++ fields ++ audioPart ++ thumbPart in
        match requestFault env url with
        | Some e => ret (Some (wrapError "error creating request: " e), t)
        | None =>
          let* r := Do (TelegramRequest url form) (telegram env) in
          match r with
          | transportError e => ret (Some (wrapError "error sending request: " e), t)
          | reply resp =>
            if bool_decide (StatusCode resp ≠ 200%Z)
            then ret (Some (unexpectedStatus resp), t)
            else
              match decodeSendResult lib (Body resp) with
              | Err e => ret (Some (wrapError "failed to decode message_id: " e), t)
              | Ok respData =>
                if negb (ok respData) then
                  ret (Some (errorString
                         ("request failed: " +:+ description respData
                          +:+ " (error code: " +:+ pretty (error_code respData)
                          +:+ ")")), t)
                else
                  ret (None, mkTelegramClient (botToken t) (chatID t)
                               (Some (message_id respData)))
              end
          end
        end
      end
    end
  end.

Definition downloadFromYouTube (env : Env) (track : Track) : M (option error) :=
  let query := Name track +:+ " " +:+ Str.Join (Artists track) " " in
  runYtDlp env audioFileName
    ["-x"; "--audio-format"; "mp3"; "--write-thumbnail"; "--convert-thumbnails";
     "jpg"; "-o"; audioFileName; "ytsearch1:" +:+ query].

Definition getThumbnail (filename : string) : M (string * option error) :=
  let thumbnail := filename +:+ ".jpg" in
  let* err := os.Stat thumbnail in
  match err with
  | None => ret (thumbnail, None)
  | Some _ => ret (EmptyString, Some (errorString "thumbnail not found"))
  end.

Definition processCurrentTrack (env : Env) (spotifyClient : SpotifyClient)
    (telegramClient : TelegramClient) : M (option error * TelegramClient) :=
  let* t := getCurrentTrack env spotifyClient in
  match t with
  | Err e =>
    ret (Some (wrapError "error getting current track: " e), telegramClient)
  | Ok None =>
    let* _ := Logf "No track currently playing" in
    ret (None, telegramClient)
  | Ok (Some track) =>
    let key := trackKey track in
    let* _ := Logf ("Current track: " +:+ key) in
    let* _ := Logf ("Downloading: " +:+ key) in
    let* d := downloadFromYouTube env track in
    match d with
    | Some e =>
      ret (Some (wrapError "error downloading from youtube: " e), telegramClient)
    | None =>
      let* th := getThumbnail audioFileName in
      let thumbnail := th.1 in
      let* _ := match th.2 with
                | Some e => Logf ("Error getting thumbnail: " +:+ Error e)
                | None => ret tt
                end in
      let* _ := Logf ("Uploading to Telegram: " +:+ key) in
      let* s := sendOrEditAudio env telegramClient audioFileName (Name track)
                  (Str.Join (Artists track) ", ") thumbnail in
      match s.1 with
      | Some e => ret (Some (wrapError "error uploading to telegram: " e), s.2)
      | None =>
        let* _ := os.Remove env audioFileName in
        let* _ := (if bool_decide (thumbnail ≠ EmptyString)
                   then os.Remove env thumbnail else ret None) in
        ret (None, s.2)
      end
    end
  end.

Fixpoint loop (envs : list Env) (spotifyClient : SpotifyClient)
    (telegramClient : TelegramClient) : M TelegramClient :=
  match envs with
  | [] => ret telegramClient
  | env :: rest =>
    let* r := processCurrentTrack env spotifyClient telegramClient in
    let* _ := match r.1 with
              | Some e => Logf ("Error processing current track: " +:+ Error e)
              | None => ret tt
              end in
    loop rest spotifyClient r.2
  end.

Definition run (getenv : string -> string) (envs : list Env)
  : M (result TelegramClient) :=
  match newSpotifyClient getenv with
  | Err e => ret (Err (wrapError "error creating spotify client: " e))
  | Ok spotifyClient =>
    match newTelegramClient getenv with
    | Err e => ret (Err (wrapError "error creating telegram client: " e))
    | Ok telegramClient =>
      let* r := loop envs spotifyClient telegramClient in
      ret (Ok r)
    end
  end.

End WithLib.

End Edit.

(** ** The upload-flag variant (second program of the second source)

    [Song] is read through its two used fields, the name of the item and the
    names of its artists, held in a [Track]. *)

Module Upload.

Definition audioFile : string := "audio.mp3".
Definition dataFile : string := "data.json".

(** [dataMap[key]] *)
Definition index (dataMap : option (gmap string bool)) (key : string) : bool :=
  match dataMap with
  | Some m => default false (m !! key)
  | None => false
  end.

(** [getArtists(song.Item.Artists)] *)
Definition getArtists (names : list string) : string := Str.Join names " ".

Section WithLib.

Variable lib : Lib.
Variable getenv : string -> string.

Definition loadData (env : Env) (filename : string)
  : M (result (option (gmap string bool))) :=
  let* f := os.Open env filename in
  match f with
  | Err e =>
    if IsErrNotExist e then ret (Ok (Some ∅)) else ret (Err e)
  | Ok content =>
    match readContent env filename content with
    | json.DecOk data => ret (Ok data)
    | json.DecEOF => ret (Ok (Some ∅))
    | json.DecErr e => ret (Err e)
    end
  end.

Definition saveData (env : Env) (filename : string)
    (data : option (gmap string bool)) : M (option error) :=
  let* c := os.Create env filename in
  match c with
  | Some e => ret (Some e)
  | None => os.Write env filename (json.Encode data)
  end.

Definition getAccessToken (env : Env) : M (result string) :=
  match requestFault env "https://accounts.spotify.com/api/token" with
  | Some e => ret (Err e)
  | None =>
    let* r := Do (TokenRequest (getenv "SPOTIFY_CLIENT_ID")
                    (getenv "SPOTIFY_CLIENT_SECRET")
                    (getenv "SPOTIFY_REFRESH_TOKEN")) (token env) in
    match r with
    | transportError e => ret (Err e)
    | reply resp =>
      if bool_decide (StatusCode resp ≠ 200%Z) then
        ret (Err (errorString
               ("get access token request failed with status code "
                +:+ pretty (StatusCode resp) +:+ ": " +:+ Body resp)))
      else
        match decodeToken lib (Body resp) with
        | Err e => ret (Err e)
        | Ok accessToken => ret (Ok accessToken)
        end
    end
  end.

(** The result is a [Song] value and an error; there is no nil song. *)
Definition getCurrentPlaying (env : Env) : M (result Track) :=
  let* t := getAccessToken env in
  match t with
  | Err e => ret (Err (wrapError "failed to get access token: " e))
  | Ok accessToken =>
    match requestFault env "https://api.spotify.com/v1/me/player/currently-playing" with
    | Some e => ret (Err e)
    | None =>
      let* r := Do (NowPlayingRequest accessToken) (playing env) in
      match r with
      | transportError e => ret (Err (wrapError "failed to get current playing: " e))
      | reply resp =>
        if bool_decide (StatusCode resp = 204%Z)
        then ret (Err (errorString "not listening to music"))
        else if bool_decide (StatusCode resp ≠ 200%Z) then
          ret (Err (errorString
                 ("get current playing request failed with status code "
                  +:+ pretty (StatusCode resp) +:+ ": " +:+ Body resp)))
        else
          match decodePlaying lib (Body resp) with
          | Err e => ret (Err (wrapError "failed to unmarshal response body: " e))
          | Ok song => ret (Ok song)
          end
      end
    end
  end.

Definition downloadFromYouTube (env : Env) (song artists : string)
  : M (option error) :=
  runYtDlp env audioFile
    ["-x"; "--audio-format"; "mp3"; "--write-thumbnail"; "-o"; audioFile;
     "ytsearch1:" +:+ (song +:+ " " +:+ artists)].

Fixpoint firstThumbnail (thumbnailFiles : list string)
  : M (string * option error) :=
  match thumbnailFiles with
  | [] => ret (EmptyString, Some (errorString "thumbnail not found"))
  | thumbnail :: rest =>
    let* err := os.Stat thumbnail in
    match err with
    | None => ret (thumbnail, None)
    | Some _ => firstThumbnail rest
    end
  end.

Definition getThumbnail (filename : string) : M (string * option error) :=
  firstThumbnail [filename +:+ ".jpg"; filename +:+ ".webp"].

(** [addFileToWriter]: the part added to the form, or the error *)
Definition addFileToWriter (env : Env) (fieldName filePath : string)
  : M (result Part) :=
  let* f := os.Open env filePath in
  match f with
  | Err e => ret (Err e)
  | Ok content =>
    match readFault env filePath with
    | Some (_, e) => ret (Err e)
    | None => ret (Ok (FormFile fieldName filePath content))
    end
  end.

Definition sendAudio (env : Env)
    (token chatID filePath title performer thumbnail : string)
  : M (option error) :=
  let* a := addFileToWriter env "audio" filePath in
  match a with
  | Err e => ret (Some e)
  | Ok audioPart =>
    let* th := (if bool_decide (thumbnail ≠ EmptyString) then
                  let* p := addFileToWriter env "thumbnail" thumbnail in
                  match p with
                  | Err e => ret (Err e)
                  | Ok part => ret (Ok [part])
                  end
                else ret (Ok [])) in
    match th with
    | Err e => ret (Some e)
    | Ok thumbPart =>
      let form := audioPart :: thumbPart ++
                  [FormField "chat_id" chatID; FormField "title" title;
                   FormField "performer" performer] in
      let url := "https://api.telegram.org/bot" +:+ token +:+ "/sendAudio" in
      match requestFault env url with
      | Some e => ret (Some e)
      | None =>
        let* r := Do (TelegramRequest url form) (telegram env) in
        match r with
        | transportError e => ret (Some e)
        | reply resp =>
          if bool_decide (StatusCode resp ≠ 200%Z) then
            ret (Some (errorString
                   ("telegram api request failed with status "
                    +:+ pretty (StatusCode resp) +:+ ": " +:+ Body resp)))
          else
            let* r1 := os.Remove env filePath in
            match r1 with
            | Some e => ret (Some e)
            | None =>
              let* r2 := os.Remove env thumbnail in
              match r2 with
              | Some e => ret (Some e)
              | None => ret None
              end
            end
        end
      end
    end
  end.

Definition processCurrentPlayingSong (env : Env) (botToken chatID upload : string)
  : M Outcome :=
  let* s := getCurrentPlaying env in
  match s with
  | Err e => ret (Returned (Some e))
  | Ok song =>
    let artists := getArtists (Artists song) in
    let songKey := Name song +:+ " - " +:+ artists in
    let* _ := Logf songKey in
    if bool_decide (upload = "true") then
      let* l := loadData env dataFile in
      match l with
      | Err e => ret (Returned (Some (wrapError "failed to load data: " e)))
      | Ok dataMap =>
        if index dataMap songKey then
          let* _ := Logf ("Song '" +:+ songKey
                          +:+ "' already exists in the database. Skipping download.") in
          ret (Returned None)
        else
          let* _ := Logf ("Downloading: " +:+ songKey) in
          let* d := downloadFromYouTube env (Name song) artists in
          match d with
          | Some e =>
            ret (Returned (Some (wrapError "failed to download from YouTube: " e)))
          | None =>
            let* th := getThumbnail audioFile in
            let thumbnail := th.1 in
            let* _ := match th.2 with
                      | Some e => Logf ("failed to get thumbnail: " +:+ Error e)
                      | None => ret tt
                      end in
            let* _ := Logf ("Uploading to Telegram: " +:+ songKey) in
            let* u := sendAudio env botToken chatID audioFile (Name song)
                        artists thumbnail in
            match u with
            | Some e =>
              ret (Returned (Some (wrapError "failed to upload to Telegram: " e)))
            | None =>
              match dataMap with
              | None => ret (Panicked "assignment to entry in nil map")
              | Some m =>
                let* v := saveData env dataFile (Some (<[songKey := true]> m)) in
                let* _ := match v with
                          | Some e => Logf ("failed to save data: " +:+ Error e)
                          | None => ret tt
                          end in
                ret (Returned None)
              end
            end
          end
      end
    else ret (Returned None)
  end.

(** the loop of [main] over the ticks of [envs] *)
Fixpoint loop (envs : list Env) (botToken chatID upload : string)
  : M (option string) :=
  match envs with
  | [] => ret None
  | env :: rest =>
    let* r := processCurrentPlayingSong env botToken chatID upload in
    match r with
    | Panicked msg => ret (Some msg)
    | Returned (Some e) =>
      let* _ := Logf (Error e) in loop rest botToken chatID upload
    | Returned None => loop rest botToken chatID upload
    end
  end.

(** [main]; [log.Fatal] ends the process before the first tick *)
Definition main (envs : list Env) : M (option string) :=
  let upload := getenv "UPLOAD" in
  let chatID := getenv "CHAT_ID" in
  let botToken := getenv "BOT_TOKEN" in
  if bool_decide (upload = EmptyString) || bool_decide (chatID = EmptyString)
     || bool_decide (botToken = EmptyString)
  then let* _ := Logf "required environment variables not set" in
       ret (Some "exit status 1")
  else loop envs botToken chatID upload.

End WithLib.

End Upload.

(** ** The printing variant (first program of main.go) *)

Module Print.

Section WithLib.

Variable lib : Lib.
Variable getenv : string -> string.

(** [http.NewRequest] on these constant URLs does not fail; the program
    drops its error. *)
Definition getAccessToken (env : Env) : M (result string) :=
  let* r := Do (TokenRequest (getenv "SPOTIFY_CLIENT_ID")
                  (getenv "SPOTIFY_CLIENT_SECRET")
                  (getenv "SPOTIFY_REFRESH_TOKEN")) (token env) in
  match r with
  | transportError e => ret (Err e)
  | reply resp =>
    if bool_decide (StatusCode resp ≠ 200%Z) then
      ret (Err (errorString
             ("get access token request failed with status code: "
              +:+ pretty (StatusCode resp))))
    else
      match unmarshalToken lib (Body resp) with
      | Err e => ret (Err e)
      | Ok accessToken => ret (Ok accessToken)
      end
  end.

Definition getCurrentPlaying (env : Env) : M (result Track) :=
  let* t := getAccessToken env in
  match t with
  | Err e => ret (Err (wrapError "failed to get access token with error: " e))
  | Ok accessToken =>
    let* r := Do (NowPlayingRequest accessToken) (playing env) in
    match r with
    | transportError e =>
      ret (Err (wrapError "failed to get current playing with error: " e))
    | reply resp =>
      if bool_decide (StatusCode resp = 204%Z)
      then ret (Err (errorString "not listening music"))
      else if bool_decide (StatusCode resp ≠ 200%Z) then
        ret (Err (errorString
               ("get current playing request failed with status code: "
                +:+ pretty (StatusCode resp))))
      else
        match unmarshalSong lib (Body resp) with
        | Err e =>
          ret (Err (wrapError "failed to unmarshal response body with error: " e))
        | Ok song => ret (Ok song)
        end
    end
  end.

(** the [strings.Builder] filled with every artist followed by a space *)
Fixpoint artistsLine (names : list string) : string :=
  match names with
  | [] => EmptyString
  | a :: rest => a +:+ " " +:+ artistsLine rest
  end.

(** the loop of [main] over the ticks of [envs] *)
Fixpoint main (envs : list Env) : M unit :=
  match envs with
  | [] => ret tt
  | env :: rest =>
    let* s := getCurrentPlaying env in
    match s with
    | Err e => let* _ := Logf (Error e) in main rest
    | Ok song =>
      let* _ := emit (Stdout (Name song +:+ " - " +:+ artistsLine (Artists song)
                              +:+ String "010" EmptyString)) in
      main rest
    end
  end.

End WithLib.

End Print.

(** * Vocabulary of the statements *)




(** *** Sample surroundings, for the examples

    A toy library: the token is the body itself, a playing body is the
    track name and the artists separated by bars, and Telegram answers
    [ok] or [no]. *)

Fixpoint splitBars (cur : string) (s : string) : list string :=
  match s with
  | EmptyString => [String.rev cur]
  | String c rest =>
    if Ascii.eqb c "|" then String.rev cur :: splitBars EmptyString rest
    else splitBars (String c cur) rest
  end.

Definition toyPlaying (body : string) : result Track :=
  match splitBars EmptyString body with
  | name :: artists => Ok (mkTrack name artists)
  | [] => Err jsonError
  end.

Definition toySendResult (body : string) : result SendResult :=
  if bool_decide (body = "ok") then Ok (mkSendResult true 42 EmptyString 0)
  else if bool_decide (body = "no") then Ok (mkSendResult false 0 "Bad Request" 400)
  else Err jsonError.

Definition toyLib : Lib :=
  mkLib Ok toyPlaying toyPlaying Ok toySendResult
        (fun s => if bool_decide (s = "60") then Ok 60%Z else Err jsonError).

Definition noFault : string -> option error := fun _ => None.
Definition noReadFault : string -> option (nat * error) := fun _ => None.
Definition noWriteFault : string -> option (nat * error) := fun _ => None.

(** a tick on which Spotify grants the token [tok] and reports the track
    of [body], the downloader leaves [d] and Telegram answers [tg] *)
Definition tick (playingReply : Reply) (d : Download) (tg : Reply) : Env :=
  mkEnv (reply (mkResponse 200 "tok")) playingReply d tg
        noFault noFault noReadFault noFault noWriteFault noFault.

Definition songA : Reply := reply (mkResponse 200 "Song A|Artist X").
Definition nothing : Reply := reply (mkResponse 204 EmptyString).
Definition audioOnly : Download := mkDownload None (Some "mp3 bytes") [].
Definition audioAndCover : Download :=
  mkDownload None (Some "mp3 bytes") [(".jpg", "jpg bytes")].
Definition accepted : Reply := reply (mkResponse 200 "ok").
Definition refused : Reply := reply (mkResponse 400 "no").

Definition spotify : History.SpotifyClient := History.mkSpotifyClient "id" "secret" "refresh".
Definition bot : History.TelegramClient := History.mkTelegramClient "123:abc" "@chat".

(** *** Kinds of events *)

Definition isSpotify (ev : Event) : bool :=
  match ev with TokenRequest _ _ _ | NowPlayingRequest _ => true | _ => false end.

(** a run of the downloader: audio acquisition *)
Definition isDownload (ev : Event) : bool :=
  match ev with Exec _ _ => true | _ => false end.

(** a request to Telegram: publish *)
Definition isPublish (ev : Event) : bool :=
  match ev with TelegramRequest _ _ => true | _ => false end.

(** a file created or truncated *)
Definition isCreate (ev : Event) : bool :=
  match ev with Created _ => true | _ => false end.

Definition isLog (ev : Event) : bool :=
  match ev with LogLine _ => true | _ => false end.

(** the line logged for an error that does not end the cycle *)
Definition logged (prefix : string) (err : option error) : list Event :=
  match err with
  | Some e => [LogLine (prefix +:+ Error e)]
  | None => []
  end.

(** nothing downloaded, published or created *)
Definition quiet (ev : Event) : Prop :=
  isDownload ev = false ∧ isPublish ev = false ∧ isCreate ev = false.

Definition createFails : Env :=
  mkEnv (reply (mkResponse 200 "tok")) songA audioAndCover accepted
        noFault noFault noReadFault
        (fun name => if bool_decide (name = "data.json")
                     then Some (errorString "read-only file system") else None)
        noWriteFault noFault.

Definition removeFails : Env :=
  mkEnv (reply (mkResponse 200 "tok")) songA audioAndCover accepted
        noFault noFault noReadFault noFault noWriteFault
        (fun name => if bool_decide (name = "audio.mp3")
                     then Some (errorString "operation not permitted") else None).

Definition downloadFails : Env :=
  tick songA (mkDownload (Some (errorString "exit status 1")) None []) accepted.

Definition editSpotify : Edit.SpotifyClient :=
  Edit.mkSpotifyClient "id" "secret" "refresh" 60.
Definition editBot : Edit.TelegramClient :=
  Edit.mkTelegramClient "123:abc" "@chat" None.

(** the runs of the downloader among the events *)
Definition downloads (l : list Event) : nat := length (List.filter isDownload l).

(** a tick of the upload-flag variant on which a song is playing that
    data.json, as held by [fs], does not know, and for which yt-dlp succeeds
    without leaving a thumbnail *)
Definition coverless (lib : Lib) (getenv : string -> string) (fs : Files)
    (env : Env) : Prop :=
  exit (ytdlp env) = None ∧ thumbnails (ytdlp env) = []
  ∧ ∃ song dataMap,
      value (Upload.getCurrentPlaying lib getenv env fs) = Ok song
      ∧ value (Upload.loadData env Upload.dataFile fs) = Ok dataMap
      ∧ Upload.index dataMap
          (Name song +:+ " - " +:+ Upload.getArtists (Artists song)) = false.

(** a sample environment of the process *)
Definition environ (name : string) : string :=
  if bool_decide (name = "UPLOAD") then "true" else "some " +:+ name.

(** nothing but JSON white space *)
Definition blank (s : string) : bool := forallb json.isSpace (Str.bytes s).

(** U+FFFD in UTF-8 *)
Definition replacementChar : string :=
  String "239" (String "191" (String "189" EmptyString)).



(** the environment variables the history variant reads *)
Definition settings : list string :=
  ["SPOTIFY_CLIENT_ID"; "SPOTIFY_CLIENT_SECRET"; "SPOTIFY_REFRESH_TOKEN";
   "BOT_TOKEN"; "CHAT_ID"].

(** * Properties *)

(** ** Byte strings and the track key *)












(** The other collisions: an artist list that is empty against one that
    holds the empty artist, a name that holds the separator, and a name
    that ends in a space and a hyphen. *)
Lemma trackKey_collision_empty_artist :
  Artists (mkTrack "A" []) ≠ Artists (mkTrack "A" [EmptyString])
  ∧ trackKey (mkTrack "A" []) = trackKey (mkTrack "A" [EmptyString]).
Proof. split; [discriminate | reflexivity]. Qed.

Lemma trackKey_collision_separator :
  Name (mkTrack "A - B" ["C"]) ≠ Name (mkTrack "A" ["B - C"])
  ∧ trackKey (mkTrack "A - B" ["C"]) = trackKey (mkTrack "A" ["B - C"]).
Proof. split; [discriminate | reflexivity]. Qed.

Lemma trackKey_collision_dash_end :
  Name (mkTrack "A -" ["B"]) ≠ Name (mkTrack "A" ["- B"])
  ∧ trackKey (mkTrack "A -" ["B"]) = trackKey (mkTrack "A" ["- B"]).
Proof. split; [discriminate | reflexivity]. Qed.



(** ** The now-playing query *)

Ltac monad_step := unfold bind, ret, Do, Logf, emit; cbv zeta; cbn [value files events].

Lemma History_getCurrentTrack_status lib env c fs tok resp :
  value (History.getAccessToken lib env c fs) = Ok tok →
  requestFault env (History.spotifyAPIBase +:+ "/me/player/currently-playing") = None →
  playing env = reply resp →
  (StatusCode resp = 204%Z → value (History.getCurrentTrack lib env c fs) = Ok None)
  ∧ (value (History.getCurrentTrack lib env c fs) = Err (History.unexpectedStatus resp)
     ↔ StatusCode resp ≠ 200%Z ∧ StatusCode resp ≠ 204%Z).
Proof.
  intros Ht Hf Hp. unfold History.getCurrentTrack. monad_step.
  rewrite Ht, Hf. monad_step. rewrite Hp.
  repeat case_bool_decide; try destruct (decodePlaying lib (Body resp));
    monad_step; split; try done; split; try done; try lia; intros [? ?]; lia.
Qed.

Lemma Edit_getCurrentTrack_status lib env c fs tok resp :
  value (Edit.getAccessToken lib env c fs) = Ok tok →
  requestFault env (Edit.spotifyAPIBase +:+ "/me/player/currently-playing") = None →
  playing env = reply resp →
  (StatusCode resp = 204%Z → value (Edit.getCurrentTrack lib env c fs) = Ok None)
  ∧ (value (Edit.getCurrentTrack lib env c fs) = Err (Edit.unexpectedStatus resp)
     ↔ StatusCode resp ≠ 200%Z ∧ StatusCode resp ≠ 204%Z).
Proof.
  intros Ht Hf Hp. unfold Edit.getCurrentTrack. monad_step.
  rewrite Ht, Hf. monad_step. rewrite Hp.
  repeat case_bool_decide; try destruct (decodePlaying lib (Body resp));
    monad_step; split; try done; split; try done; try lia; intros [? ?]; lia.
Qed.

Lemma Upload_getCurrentPlaying_status lib getenv env fs tok resp :
  value (Upload.getAccessToken lib getenv env fs) = Ok tok →
  requestFault env "https://api.spotify.com/v1/me/player/currently-playing" = None →
  playing env = reply resp →
  (StatusCode resp = 204%Z →
   value (Upload.getCurrentPlaying lib getenv env fs)
   = Err (errorString "not listening to music"))
  ∧ (value (Upload.getCurrentPlaying lib getenv env fs)
     = Err (errorString ("get current playing request failed with status code "
                         +:+ pretty (StatusCode resp) +:+ ": " +:+ Body resp))
     ↔ StatusCode resp ≠ 200%Z ∧ StatusCode resp ≠ 204%Z).
Proof.
  intros Ht Hf Hp. unfold Upload.getCurrentPlaying. monad_step.
  rewrite Ht, Hf. monad_step. rewrite Hp.
  repeat case_bool_decide; try destruct (decodePlaying lib (Body resp));
    monad_step; split; try done; split; try done; try lia; intros [? ?]; lia.
Qed.

Lemma Print_getCurrentPlaying_status lib getenv env fs tok resp :
  value (Print.getAccessToken lib getenv env fs) = Ok tok →
  playing env = reply resp →
  (StatusCode resp = 204%Z →
   value (Print.getCurrentPlaying lib getenv env fs)
   = Err (errorString "not listening music"))
  ∧ (value (Print.getCurrentPlaying lib getenv env fs)
     = Err (errorString ("get current playing request failed with status code: "
                         +:+ pretty (StatusCode resp)))
     ↔ StatusCode resp ≠ 200%Z ∧ StatusCode resp ≠ 204%Z).
Proof.
  intros Ht Hp. unfold Print.getCurrentPlaying. monad_step.
  rewrite Ht. monad_step. rewrite Hp.
  repeat case_bool_decide; try destruct (unmarshalSong lib (Body resp));
    monad_step; split; try done; split; try done; try lia; intros [? ?]; lia.
Qed.

(** C2, as stated, fails on [getCurrentPlaying]: a 204 is an error there. *)
Lemma getCurrentPlaying_204_is_error :
  playing (tick nothing audioOnly accepted) = reply (mkResponse 204 EmptyString)
  ∧ value (Upload.getCurrentPlaying toyLib (fun _ => "x")
             (tick nothing audioOnly accepted) ∅)
    = Err (errorString "not listening to music").
Proof. split; reflexivity. Qed.

(** C2 (amended): once the token is granted and the request is answered
    with a response, [getCurrentTrack] of the history and editing variants
    returns no track and no error on status 204, and returns the error that
    carries the status code and the body exactly on the statuses other than
    200 and 204.  [getCurrentPlaying] of the upload-flag and printing
    variants returns an error on status 204, each with its own message; on
    exactly the statuses other than 200 and 204 the upload-flag variant
    returns the error that carries the status code and the body, the
    printing variant the error that carries the status code alone. *)
Theorem now_playing_status lib env fs resp :
  playing env = reply resp →
  (∀ c tok,
     value (History.getAccessToken lib env c fs) = Ok tok →
     requestFault env (History.spotifyAPIBase +:+ "/me/player/currently-playing") = None →
     (StatusCode resp = 204%Z → value (History.getCurrentTrack lib env c fs) = Ok None)
     ∧ (value (History.getCurrentTrack lib env c fs) = Err (History.unexpectedStatus resp)
        ↔ StatusCode resp ≠ 200%Z ∧ StatusCode resp ≠ 204%Z))
  ∧ (∀ c tok,
     value (Edit.getAccessToken lib env c fs) = Ok tok →
     requestFault env (Edit.spotifyAPIBase +:+ "/me/player/currently-playing") = None →
     (StatusCode resp = 204%Z → value (Edit.getCurrentTrack lib env c fs) = Ok None)
     ∧ (value (Edit.getCurrentTrack lib env c fs) = Err (Edit.unexpectedStatus resp)
        ↔ StatusCode resp ≠ 200%Z ∧ StatusCode resp ≠ 204%Z))
  ∧ Error (History.unexpectedStatus resp)
    = "unexpected status code " +:+ pretty (StatusCode resp) +:+ ": " +:+ Body resp
  ∧ Error (Edit.unexpectedStatus resp)
    = "unexpected status code " +:+ pretty (StatusCode resp) +:+ ": " +:+ Body resp
  ∧ (∀ getenv tok,
     value (Upload.getAccessToken lib getenv env fs) = Ok tok →
     requestFault env "https://api.spotify.com/v1/me/player/currently-playing" = None →
     (StatusCode resp = 204%Z →
      value (Upload.getCurrentPlaying lib getenv env fs)
      = Err (errorString "not listening to music"))
     ∧ (value (Upload.getCurrentPlaying lib getenv env fs)
        = Err (errorString ("get current playing request failed with status code "
                            +:+ pretty (StatusCode resp) +:+ ": " +:+ Body resp))
        ↔ StatusCode resp ≠ 200%Z ∧ StatusCode resp ≠ 204%Z))
  ∧ (∀ getenv tok,
     value (Print.getAccessToken lib getenv env fs) = Ok tok →
     (StatusCode resp = 204%Z →
      value (Print.getCurrentPlaying lib getenv env fs)
      = Err (errorString "not listening music"))
     ∧ (value (Print.getCurrentPlaying lib getenv env fs)
        = Err (errorString ("get current playing request failed with status code: "
                            +:+ pretty (StatusCode resp)))
        ↔ StatusCode resp ≠ 200%Z ∧ StatusCode resp ≠ 204%Z)).
Proof.
  intros Hp. split; [|split; [|split; [|split; [|split]]]].
  - intros. by eapply History_getCurrentTrack_status.
  - intros. by eapply Edit_getCurrentTrack_status.
  - reflexivity.
  - reflexivity.
  - intros. by eapply Upload_getCurrentPlaying_status.
  - intros. by eapply Print_getCurrentPlaying_status.
Qed.

Lemma now_playing_status_witness :
  value (History.getCurrentTrack toyLib (tick nothing audioOnly accepted) spotify ∅)
  = Ok None.
Proof.
  refine (proj1 (proj1 (now_playing_status toyLib (tick nothing audioOnly accepted)
                   ∅ (mkResponse 204 EmptyString) eq_refl) spotify "tok" _ _) _);
    reflexivity.
Defined.

(** ** The publish operation *)

(** What [sendOrEditAudio] returns once its request has left: the rest is
    decided by the answer alone. *)
Lemma Edit_sendOrEditAudio_sent lib env t fs filePath title performer thumbnail url form :
  events (Edit.sendOrEditAudio lib env t filePath title performer thumbnail fs)
  = [TelegramRequest url form] →
  value (Edit.sendOrEditAudio lib env t filePath title performer thumbnail fs)
  = match telegram env with
    | transportError e => (Some (wrapError "error sending request: " e), t)
    | reply resp =>
      if bool_decide (StatusCode resp ≠ 200%Z)
      then (Some (Edit.unexpectedStatus resp), t)
      else match decodeSendResult lib (Body resp) with
           | Err e => (Some (wrapError "failed to decode message_id: " e), t)
           | Ok d =>
             if negb (ok d) then
               (Some (errorString ("request failed: " +:+ description d
                        +:+ " (error code: " +:+ pretty (error_code d) +:+ ")")), t)
             else (None, Edit.mkTelegramClient (Edit.botToken t) (Edit.chatID t)
                           (Some (message_id d)))
           end
    end
  ∧ url = Edit.telegramURL (Edit.botToken t)
            (match Edit.messageID t with
             | Some _ => "editMessageMedia" | None => "sendAudio" end)
  ∧ (∀ id, Edit.messageID t = Some id → FormField "message_id" (pretty id) ∈ form).
Proof.
  unfold Edit.sendOrEditAudio, os.Open. monad_step.
  repeat (case_match; monad_step); try discriminate; intros Hev;
    simpl in Hev; simplify_eq; (split; [done|]); (split; [done|]);
    intros id' ?; simplify_eq; set_solver.
Qed.

Lemma History_sendAudio_sent env t fs filePath title performer thumbnail url form :
  events (History.sendAudio env t filePath title performer thumbnail fs)
  = [TelegramRequest url form] →
  value (History.sendAudio env t filePath title performer thumbnail fs)
  = match telegram env with
    | transportError e => Some (wrapError "error sending request: " e)
    | reply resp =>
      if bool_decide (StatusCode resp ≠ 200%Z)
      then Some (History.unexpectedStatus resp) else None
    end.
Proof.
  unfold History.sendAudio, os.Open. monad_step.
  repeat (case_match; monad_step); try discriminate; done.
Qed.

(** C7, as stated, fails on [sendAudio] of the history variant: status 200
    with a body that says not ok is a success there. *)
Lemma sendAudio_ignores_ok_flag :
  telegram (tick songA audioOnly (reply (mkResponse 200 "no")))
  = reply (mkResponse 200 "no")
  ∧ decodeSendResult toyLib "no" = Ok (mkSendResult false 0 "Bad Request" 400)
  ∧ value (History.sendAudio (tick songA audioOnly (reply (mkResponse 200 "no")))
             bot "audio.mp3" "Song A" "Artist X" EmptyString
             {["audio.mp3" := "mp3 bytes"]})
    = None.
Proof. split; [|split]; reflexivity. Qed.

(** Once the request has left, [sendOrEditAudio] of the editing
    variant succeeds exactly when the answer has status 200 and decodes to a
    result with [ok] set; a transport error, another status and a result that
    is not ok each give the stated error and leave the client as it was; on
    success the message id is stored and the next request is an edit of that
    message.  [sendAudio] of the history variant does not decode the answer:
    it succeeds exactly when the status is 200. *)
Theorem publish_outcome lib env t fs filePath title performer thumbnail url form :
  events (Edit.sendOrEditAudio lib env t filePath title performer thumbnail fs)
  = [TelegramRequest url form] →
  ((value (Edit.sendOrEditAudio lib env t filePath title performer thumbnail fs)).1 = None
   ↔ ∃ resp d, telegram env = reply resp ∧ StatusCode resp = 200%Z
               ∧ decodeSendResult lib (Body resp) = Ok d ∧ ok d = true)
  ∧ (∀ e, telegram env = transportError e →
       value (Edit.sendOrEditAudio lib env t filePath title performer thumbnail fs)
       = (Some (wrapError "error sending request: " e), t))
  ∧ (∀ resp, telegram env = reply resp → StatusCode resp ≠ 200%Z →
       value (Edit.sendOrEditAudio lib env t filePath title performer thumbnail fs)
       = (Some (errorString ("unexpected status code " +:+ pretty (StatusCode resp)
                             +:+ ": " +:+ Body resp)), t))
  ∧ (∀ resp d, telegram env = reply resp → StatusCode resp = 200%Z →
       decodeSendResult lib (Body resp) = Ok d → ok d = false →
       value (Edit.sendOrEditAudio lib env t filePath title performer thumbnail fs)
       = (Some (errorString ("request failed: " +:+ description d
                  +:+ " (error code: " +:+ pretty (error_code d) +:+ ")")), t))
  ∧ (∀ resp d, telegram env = reply resp → StatusCode resp = 200%Z →
       decodeSendResult lib (Body resp) = Ok d → ok d = true →
       ∃ t', (value (Edit.sendOrEditAudio lib env t filePath title performer
                       thumbnail fs)).2 = t'
         ∧ Edit.messageID t' = Some (message_id d)
         ∧ ∀ env' fs' filePath' title' performer' thumbnail' url' form',
             events (Edit.sendOrEditAudio lib env' t' filePath' title' performer'
                       thumbnail' fs') = [TelegramRequest url' form'] →
             url' = Edit.telegramURL (Edit.botToken t) "editMessageMedia"
             ∧ FormField "message_id" (pretty (message_id d)) ∈ form')
  ∧ (∀ ht url' form',
       events (History.sendAudio env ht filePath title performer thumbnail fs)
       = [TelegramRequest url' form'] →
       (value (History.sendAudio env ht filePath title performer thumbnail fs) = None
        ↔ ∃ resp, telegram env = reply resp ∧ StatusCode resp = 200%Z)).
Proof.
  intros Hev.
  destruct (Edit_sendOrEditAudio_sent _ _ _ _ _ _ _ _ _ _ Hev) as (Hv & _ & _).
  rewrite Hv. clear Hv Hev.
  split; [|split; [|split; [|split; [|split]]]].
  - split.
    + destruct (telegram env) as [e|resp]; [done|].
      case_bool_decide; [done|].
      destruct (decodeSendResult lib (Body resp)) as [d|e] eqn:Hd; [|done].
      destruct (ok d) eqn:Hok; [|done].
      intros _. by exists resp, d.
    + intros (resp & d & -> & Hs & -> & ->).
      by rewrite bool_decide_eq_false_2 by lia.
  - by intros e ->.
  - intros resp -> Hs. by rewrite bool_decide_eq_true_2.
  - intros resp d -> Hs -> ->. by rewrite bool_decide_eq_false_2 by lia.
  - intros resp d -> Hs -> ->. rewrite bool_decide_eq_false_2 by lia.
    eexists; split; [done|]. split; [done|].
    intros env' fs' fp' ti' pe' th' url' form' Hev'.
    destruct (Edit_sendOrEditAudio_sent _ _ _ _ _ _ _ _ _ _ Hev') as (_ & Hu & Hm).
    split; [done|]. by apply Hm.
  - intros ht url' form' Hev'.
    rewrite (History_sendAudio_sent _ _ _ _ _ _ _ _ _ Hev').
    destruct (telegram env) as [e|resp]; [split; [done|by intros (? & ? & ?)]|].
    case_bool_decide; split; try done.
    + intros (r & ? & ?). simplify_eq.
    + intros _. by exists resp.
Qed.

Lemma publish_outcome_witness :
  (value (Edit.sendOrEditAudio toyLib (tick songA audioOnly accepted)
            (Edit.mkTelegramClient "123:abc" "@chat" None)
            "audio.mp3" "Song A" "Artist X" EmptyString
            {["audio.mp3" := "mp3 bytes"]})).1 = None.
Proof.
  unshelve eapply (proj1 (publish_outcome toyLib (tick songA audioOnly accepted)
                   (Edit.mkTelegramClient "123:abc" "@chat" None)
                   {["audio.mp3" := "mp3 bytes"]}
                   "audio.mp3" "Song A" "Artist X" EmptyString _ _ _)).
  - exact (Edit.telegramURL "123:abc" "sendAudio").
  - exact [FormField "chat_id" "@chat"; FormField "title" "Song A";
           FormField "performer" "Artist X";
           FormFile "audio" "audio.mp3" "mp3 bytes"].
  - reflexivity.
  - exists (mkResponse 200 "ok"), (mkSendResult true 42 EmptyString 0).
    repeat split.
Defined.

(** ** Running the monad, one call at a time *)

Lemma bind_unfold {A B} (m : M A) (k : A → M B) fs :
  bind m k fs
  = match m fs with
    | mkOut v f e =>
      match k v f with mkOut v' f' e' => mkOut v' f' (e ++ e') end
    end.
Proof. unfold bind. destruct (m fs) as [v f e]; simpl. by destruct (k v f). Qed.

Lemma ret_unfold {A} (a : A) fs : ret a fs = mkOut a fs [].
Proof. done. Qed.

Lemma Logf_unfold s fs : Logf s fs = mkOut tt fs [LogLine s].
Proof. done. Qed.

(** ** The calls of a cycle, history variant *)

Lemma History_getAccessToken_frame lib env c fs :
  files (History.getAccessToken lib env c fs) = fs
  ∧ Forall (fun ev => isSpotify ev = true)
           (events (History.getAccessToken lib env c fs)).
Proof.
  unfold History.getAccessToken. monad_step.
  repeat (case_match; monad_step); split; try done; repeat constructor.
Qed.

Lemma History_getCurrentTrack_frame lib env c fs :
  files (History.getCurrentTrack lib env c fs) = fs
  ∧ Forall (fun ev => isSpotify ev = true)
           (events (History.getCurrentTrack lib env c fs)).
Proof.
  unfold History.getCurrentTrack. rewrite bind_unfold.
  destruct (History_getAccessToken_frame lib env c fs) as [Hf He].
  destruct (History.getAccessToken lib env c fs) as [t f e]. simpl in *. subst f.
  destruct t as [tok|err]; monad_step; [|by rewrite app_nil_r].
  repeat (case_match; monad_step; simplify_eq/=); (split; [done|]);
    rewrite ?app_nil_r; try done; apply Forall_app; (split; [done|]);
    repeat constructor.
Qed.

Lemma thumbnails_frame (out : string) (l : list (string * string)) (fs0 : Files) p :
  (∀ ext, out +:+ ext ≠ p) →
  foldr (fun t acc => <[out +:+ t.1 := t.2]> acc) fs0 l !! p = fs0 !! p.
Proof.
  intros Hp. induction l as [|[ext c] l IH]; [done|].
  cbn [foldr]. rewrite lookup_insert_ne; [done | apply Hp].
Qed.

Lemma History_download_spec env track fs :
  value (History.downloadFromYouTube env track fs) = exit (ytdlp env)
  ∧ events (History.downloadFromYouTube env track fs)
    = [Exec "yt-dlp"
         ["-x"; "--audio-format"; "mp3"; "--write-thumbnail"; "-o";
          History.audioFileName;
          "ytsearch1:" +:+ (Name track +:+ " " +:+ Str.Join (Artists track) " ")]]
  ∧ files (History.downloadFromYouTube env track fs) !! History.dataFileName
    = fs !! History.dataFileName.
Proof.
  unfold History.downloadFromYouTube, runYtDlp. cbn [value files events].
  repeat split.
  rewrite thumbnails_frame by (intros ext; discriminate).
  destruct (audio (ytdlp env)); [|done].
  by rewrite lookup_insert_ne.
Qed.

Lemma History_getThumbnail_spec fs :
  files (History.getThumbnail History.audioFileName fs) = fs
  ∧ events (History.getThumbnail History.audioFileName fs) = []
  ∧ ((value (History.getThumbnail History.audioFileName fs)).1 = EmptyString
     ∨ (value (History.getThumbnail History.audioFileName fs)).1 = "audio.mp3.jpg"
     ∨ (value (History.getThumbnail History.audioFileName fs)).1 = "audio.mp3.webp").
Proof.
  unfold History.getThumbnail. simpl. unfold os.Stat. monad_step.
  repeat (case_match; monad_step); repeat split; auto.
Qed.

Lemma History_sendAudio_spec env t filePath title performer thumbnail fs :
  files (History.sendAudio env t filePath title performer thumbnail fs) = fs
  ∧ (events (History.sendAudio env t filePath title performer thumbnail fs) = []
     ∧ value (History.sendAudio env t filePath title performer thumbnail fs) ≠ None
     ∨ ∃ form,
         events (History.sendAudio env t filePath title performer thumbnail fs)
         = [TelegramRequest (History.telegramURL (History.botToken t)) form]
         ∧ (∀ name c, FormFile "thumbnail" name c ∈ form →
                      thumbnail ≠ EmptyString ∧ name = Str.Base thumbnail)).
Proof.
  unfold History.sendAudio, os.Open. monad_step.
  repeat (case_match; monad_step); simplify_eq/=; (split; [done|]);
    try (left; split; [done|discriminate]); right; eexists; (split; [done|]);
    intros name c; set_unfold; case_bool_decide;
    intuition (simplify_eq; eauto).
Qed.

Lemma History_saveTrackHistory_spec env filename history fs :
  (∀ p, p ≠ filename →
        files (History.saveTrackHistory env filename history fs) !! p = fs !! p)
  ∧ Forall (fun ev => ev = Created filename)
           (events (History.saveTrackHistory env filename history fs)).
Proof.
  unfold History.saveTrackHistory, os.Create, os.Write. monad_step.
  repeat (case_match; monad_step); simplify_eq/=;
    (split; [intros p Hp; by rewrite ?lookup_insert_ne | repeat constructor]).
Qed.

Ltac run :=
  repeat (first [rewrite bind_unfold | rewrite Logf_unfold | rewrite ret_unfold
                 | progress (cbv beta iota)]).

Ltac fin :=
  cbn [value files events logged]; f_equal; simpl;
  rewrite ?app_nil_r, <- ?app_assoc; simpl; done.

(** The cycle of the history variant, call by call: which calls are made,
    on which files, and what is returned. *)
Lemma History_cycle lib env sp tg h fs :
  History.processCurrentTrack lib env sp tg h fs
  = let q := History.getCurrentTrack lib env sp fs in
    match value q with
    | Err e =>
      mkOut (Returned (Some (wrapError "error getting current track: " e)), h)
            fs (events q)
    | Ok None =>
      mkOut (Returned None, h) fs
            (events q ++ [LogLine "No track currently playing"])
    | Ok (Some track) =>
      let key := trackKey track in
      if History.index h key then
        mkOut (Returned None, h) fs
              (events q ++ [LogLine ("Current track: " +:+ key);
                            LogLine ("Track '" +:+ key
                                     +:+ "' already processed. Skipping.")])
      else
        let d := History.downloadFromYouTube env track fs in
        let pre := events q ++ [LogLine ("Current track: " +:+ key);
                                LogLine ("Downloading: " +:+ key)] ++ events d in
        match value d with
        | Some e =>
          mkOut (Returned (Some (wrapError "error downloading from YouTube: " e)), h)
                (files d) pre
        | None =>
          let th := value (History.getThumbnail History.audioFileName (files d)) in
          let s := History.sendAudio env tg History.audioFileName (Name track)
                     (Str.Join (Artists track) ", ") th.1 (files d) in
          let pre2 := pre ++ logged "Error getting thumbnail: " th.2
                      ++ [LogLine ("Uploading to Telegram: " +:+ key)] ++ events s in
          match value s with
          | Some e =>
            mkOut (Returned (Some (wrapError "error uploading to Telegram: " e)), h)
                  (files d) pre2
          | None =>
            match h with
            | None =>
              mkOut (Panicked "assignment to entry in nil map", h) (files d) pre2
            | Some m =>
              let h' := Some (<[key := true]> m) in
              let v := History.saveTrackHistory env History.dataFileName h'
                         (files d) in
              let r1 := os.Remove env History.audioFileName (files v) in
              let r2 := (if bool_decide (th.1 ≠ EmptyString)
                         then os.Remove env th.1 else ret None) (files r1) in
              mkOut (Returned None, h') (files r2)
                    (pre2 ++ events v
                     ++ logged "Error saving track history: " (value v)
                     ++ events r1 ++ events r2)
            end
          end
        end
    end.
Proof.
  unfold History.processCurrentTrack. cbv zeta. run.
  destruct (History_getCurrentTrack_frame lib env sp fs) as [Hqf _].
  destruct (History.getCurrentTrack lib env sp fs) as [q f0 eq].
  cbn [value files events] in *. subst f0.
  destruct q as [[track|]|e0]; run; [| done | by rewrite app_nil_r].
  destruct (History.index h (trackKey track)); run; [done|].
  destruct (History.downloadFromYouTube env track fs) as [d f1 ed].
  cbn [value files events].
  destruct d as [e|]; run.
  { by rewrite app_nil_r. }
  destruct (History_getThumbnail_spec f1) as (Htf & Hte & _).
  destruct (History.getThumbnail History.audioFileName f1) as [th f2 et].
  cbn [value files events] in *. subst f2 et.
  destruct (History_sendAudio_spec env tg History.audioFileName (Name track)
              (Str.Join (Artists track) ", ") th.1 f1) as [Hsf _].
  destruct th as [th [terr|]]; cbn [fst snd logged] in *; run.
  all: destruct (History.sendAudio env tg History.audioFileName (Name track)
              (Str.Join (Artists track) ", ") th f1) as [s f3 es];
    cbn [value files events] in *; subst f3;
    (destruct s as [e|]; run; [fin|]);
    (destruct h as [m|]; run; [|fin]);
    destruct (History.saveTrackHistory env History.dataFileName
              (Some (<[trackKey track:=true]> m)) f1) as [v f4 ev];
    cbn [value files events];
    destruct v as [e|]; cbn [logged]; run;
    destruct (os.Remove env History.audioFileName f4) as [r1 f5 e1];
    cbn [value files events]; run;
    destruct ((if bool_decide (th ≠ EmptyString) then os.Remove env th else ret None) f5)
      as [r2 f6 e2];
    fin.
Qed.

Lemma spotify_not_create l :
  Forall (fun ev => isSpotify ev = true) l → Forall (fun ev => isCreate ev = false) l.
Proof. intros H. eapply Forall_impl; [done|]. by intros []. Qed.

Lemma logged_not_create prefix err :
  Forall (fun ev => isCreate ev = false) (logged prefix err).
Proof. destruct err; repeat constructor. Qed.

Ltac find_in := first [reflexivity | assumption | left; find_in | right; find_in].
Ltac in_events :=
  repeat (rewrite elem_of_app || rewrite elem_of_cons); find_in.

(** ** The cycle of the history variant

    A cycle whose publish step fails returns the error of the upload.  It
    leaves the map as it was and does not call [os.Create], so that
    data.json is as it was.  The files are as the downloader left them: the
    cycle returns before its removals, and the audio file and the thumbnail
    stay.  The key of the track is still unmarked, so that a later tick on
    which the same track plays downloads it again. *)
Theorem failed_publish_keeps_history lib env sp tg h fs e :
  let out := History.processCurrentTrack lib env sp tg h fs in
  (value out).1 = Returned (Some (wrapError "error uploading to Telegram: " e)) →
  (value out).2 = h
  ∧ Forall (fun ev => isCreate ev = false) (events out)
  ∧ files out !! History.dataFileName = fs !! History.dataFileName
  ∧ ∃ track,
      value (History.getCurrentTrack lib env sp fs) = Ok (Some track)
      ∧ History.index h (trackKey track) = false
      ∧ files out = files (History.downloadFromYouTube env track fs)
      ∧ ∀ env2,
          value (History.getCurrentTrack lib env2 sp (files out)) = Ok (Some track) →
          Exec "yt-dlp"
            ["-x"; "--audio-format"; "mp3"; "--write-thumbnail"; "-o";
             History.audioFileName;
             "ytsearch1:" +:+ (Name track +:+ " " +:+ Str.Join (Artists track) " ")]
          ∈ events (History.processCurrentTrack lib env2 sp tg (value out).2 (files out)).
Proof.
  intros out. subst out. rewrite History_cycle. cbv zeta.
  destruct (History_getCurrentTrack_frame lib env sp fs) as [_ Hqe].
  destruct (value (History.getCurrentTrack lib env sp fs)) as [[track|]|e0] eqn:Hq;
    try discriminate.
  destruct (History.index h (trackKey track)) eqn:Hidx; [discriminate|].
  destruct (History_download_spec env track fs) as (Hdv & Hde & Hdf).
  destruct (value (History.downloadFromYouTube env track fs)) as [e1|] eqn:Hd;
    [discriminate|].
  set (f1 := files (History.downloadFromYouTube env track fs)) in *.
  destruct (History_sendAudio_spec env tg History.audioFileName (Name track)
              (Str.Join (Artists track) ", ")
              (value (History.getThumbnail History.audioFileName f1)).1 f1)
    as [_ Hse].
  destruct (value (History.sendAudio env tg History.audioFileName (Name track)
              (Str.Join (Artists track) ", ")
              (value (History.getThumbnail History.audioFileName f1)).1 f1))
    as [e2|] eqn:Hs.
  2:{ destruct h; discriminate. }
  intros _. cbn [value files events fst snd].
  split; [done|]. split; [|split; [done|]].
  - rewrite Hde. apply spotify_not_create in Hqe.
    set (evq := events (History.getCurrentTrack lib env sp fs)) in *.
    clearbody evq.
    pose proof (logged_not_create "Error getting thumbnail: "
                  (value (History.getThumbnail History.audioFileName f1)).2) as Hl.
    set (evl := logged _ _) in *. clearbody evl.
    destruct Hse as [[-> _]|(form & -> & _)];
      repeat first [assumption | apply Forall_nil_2 | apply Forall_cons_2; [done|]
                   | apply Forall_app; split].
  - exists track. split; [done|]. split; [done|]. split; [done|].
    intros env2 Hq2. rewrite History_cycle. cbv zeta. rewrite Hq2, Hidx.
    destruct (History_download_spec env2 track f1) as (_ & Hde2 & _).
    rewrite Hde2.
    repeat case_match; cbn [events]; in_events.
Qed.

Lemma failed_publish_keeps_history_witness :
  (value (History.processCurrentTrack toyLib (tick songA audioAndCover refused)
            spotify bot (Some ∅) ∅)).2 = Some ∅.
Proof.
  refine (proj1 (failed_publish_keeps_history toyLib
                   (tick songA audioAndCover refused)
                   spotify bot (Some ∅) ∅
                   (History.unexpectedStatus (mkResponse 400 "no")) _)).
  vm_compute. reflexivity.
Defined.

(** *** Facts about file removal and event kinds *)

Lemma Remove_gone env name fs :
  removeFault env name = None →
  lookupFile (files (os.Remove env name fs)) name = None.
Proof.
  intros Hf. unfold os.Remove. rewrite Hf.
  destruct (lookupFile fs name) eqn:H; cbn [files]; [|done].
  unfold lookupFile in *. case_decide; [done|]. by rewrite lookup_delete_eq.
Qed.

Lemma Remove_keeps_gone env name p fs :
  lookupFile fs p = None → lookupFile (files (os.Remove env name fs)) p = None.
Proof.
  unfold os.Remove. destruct (lookupFile fs name) eqn:H; cbn [files]; [|done].
  destruct (removeFault env name); cbn [files]; [done|].
  unfold lookupFile. case_decide; [done|]. intros Hp.
  destruct (decide (name = p)) as [->|Hne];
    [by rewrite lookup_delete_eq | by rewrite lookup_delete_ne].
Qed.

Lemma Remove_events env name fs :
  Forall (fun ev => ev = Removed name) (events (os.Remove env name fs)).
Proof. unfold os.Remove. repeat case_match; repeat constructor. Qed.

(** a removal touches no other file *)
Lemma Remove_frame env name p fs :
  p ≠ name → files (os.Remove env name fs) !! p = fs !! p.
Proof.
  intros Hp. unfold os.Remove. repeat case_match; cbn [files]; try done.
  by rewrite lookup_delete_ne.
Qed.

Lemma spotify_quiet l :
  Forall (fun ev => isSpotify ev = true) l → Forall quiet l.
Proof. intros H. eapply Forall_impl; [done|]. by intros []. Qed.

Lemma spotify_not_publish l :
  Forall (fun ev => isSpotify ev = true) l → Forall (fun ev => isPublish ev = false) l.
Proof. intros H. eapply Forall_impl; [done|]. by intros []. Qed.

Lemma spotify_not_log l :
  Forall (fun ev => isSpotify ev = true) l → Forall (fun ev => isLog ev = false) l.
Proof. intros H. eapply Forall_impl; [done|]. by intros []. Qed.

Lemma not_in_kind (P : Event → bool) l ev :
  Forall (fun ev => P ev = false) l → P ev = true → ev ∉ l.
Proof.
  intros H Hp Hin. rewrite Forall_forall in H. apply H in Hin. congruence.
Qed.

Ltac forall_events :=
  repeat first [assumption | apply Forall_nil_2 | apply Forall_cons_2; [done|]
               | apply Forall_app; split].

(** A track whose key the history maps to true is skipped: the cycle
    returns no error right after the history check, the map and the files
    are as before, and nothing is downloaded, published or created. *)
Theorem History_known_track_skipped lib env sp tg m fs track :
  value (History.getCurrentTrack lib env sp fs) = Ok (Some track) →
  m !! trackKey track = Some true →
  value (History.processCurrentTrack lib env sp tg (Some m) fs) = (Returned None, Some m)
  ∧ files (History.processCurrentTrack lib env sp tg (Some m) fs) = fs
  ∧ Forall (fun ev => isDownload ev = false ∧ isPublish ev = false
                      ∧ isCreate ev = false)
           (events (History.processCurrentTrack lib env sp tg (Some m) fs)).
Proof.
  intros Hq Hm. rewrite History_cycle. cbv zeta. rewrite Hq.
  unfold History.index. rewrite Hm. cbn [default value files events].
  split; [done|]. split; [done|].
  destruct (History_getCurrentTrack_frame lib env sp fs) as [_ Hqe].
  apply spotify_quiet in Hqe. unfold quiet in Hqe.
  set (evq := events _) in *. clearbody evq. forall_events.
Qed.

(** When nothing is playing the cycle ends at once: no error, the map and
    the files as before, and nothing downloaded, published or created. *)
Theorem History_nothing_playing lib env sp tg h fs :
  value (History.getCurrentTrack lib env sp fs) = Ok None →
  value (History.processCurrentTrack lib env sp tg h fs) = (Returned None, h)
  ∧ files (History.processCurrentTrack lib env sp tg h fs) = fs
  ∧ Forall (fun ev => isDownload ev = false ∧ isPublish ev = false
                      ∧ isCreate ev = false)
           (events (History.processCurrentTrack lib env sp tg h fs)).
Proof.
  intros Hq. rewrite History_cycle. cbv zeta. rewrite Hq.
  cbn [value files events].
  split; [done|]. split; [done|].
  destruct (History_getCurrentTrack_frame lib env sp fs) as [_ Hqe].
  apply spotify_quiet in Hqe. unfold quiet in Hqe.
  set (evq := events _) in *. clearbody evq. forall_events.
Qed.

Lemma logged_quiet prefix err : Forall quiet (logged prefix err).
Proof. destruct err; repeat constructor. Qed.

Lemma logged_not_publish prefix err :
  Forall (fun ev => isPublish ev = false) (logged prefix err).
Proof. destruct err; repeat constructor. Qed.

Lemma created_not_publish name l :
  Forall (fun ev => ev = Created name) l → Forall (fun ev => isPublish ev = false) l.
Proof. intros H. eapply Forall_impl; [done|]. by intros ? ->. Qed.

Lemma removed_not_publish name l :
  Forall (fun ev => ev = Removed name) l → Forall (fun ev => isPublish ev = false) l.
Proof. intros H. eapply Forall_impl; [done|]. by intros ? ->. Qed.

Lemma maybe_Remove_events env (b : bool) name fs :
  Forall (fun ev => isPublish ev = false)
         (events ((if b then os.Remove env name else ret None) fs)).
Proof.
  destruct b; [|constructor].
  eapply removed_not_publish, Remove_events.
Qed.

Lemma thumbnail_Base th :
  th = "audio.mp3.jpg" ∨ th = "audio.mp3.webp" → Str.Base th = th.
Proof. by intros [-> | ->]. Qed.

(** After a cycle that published and returned no error the audio file
    does not exist unless its removal failed, whether or not a thumbnail was
    found, and neither does the thumbnail that was attached to the upload,
    if one was, unless its removal failed. *)
Theorem History_cleanup lib env sp tg h fs url form :
  (value (History.processCurrentTrack lib env sp tg h fs)).1 = Returned None →
  TelegramRequest url form ∈ events (History.processCurrentTrack lib env sp tg h fs) →
  (removeFault env History.audioFileName = None →
   lookupFile (files (History.processCurrentTrack lib env sp tg h fs))
              History.audioFileName = None)
  ∧ ∀ name c, FormFile "thumbnail" name c ∈ form →
      removeFault env name = None →
      lookupFile (files (History.processCurrentTrack lib env sp tg h fs)) name = None.
Proof.
  rewrite History_cycle. cbv zeta.
  destruct (History_getCurrentTrack_frame lib env sp fs) as [_ Hqe].
  apply spotify_not_publish in Hqe.
  set (evq := events (History.getCurrentTrack lib env sp fs)) in *. clearbody evq.
  assert (Hno : ∀ l, Forall (fun ev => isPublish ev = false) l →
                     TelegramRequest url form ∉ l).
  { intros l Hl. by eapply not_in_kind. }
  destruct (value (History.getCurrentTrack lib env sp fs)) as [[track|]|e0];
    cbn [value files events fst snd]; [| |discriminate].
  2:{ intros _ Hin. exfalso. revert Hin. apply Hno. forall_events. }
  destruct (History.index h (trackKey track)); cbn [value files events fst snd].
  { intros _ Hin. exfalso. revert Hin. apply Hno. forall_events. }
  destruct (History_download_spec env track fs) as (_ & Hde & _).
  rewrite Hde.
  destruct (value (History.downloadFromYouTube env track fs)); [discriminate|].
  set (f1 := files (History.downloadFromYouTube env track fs)) in *. clearbody f1.
  destruct (History_getThumbnail_spec f1) as (_ & _ & Hth).
  set (th := value (History.getThumbnail History.audioFileName f1)) in *.
  clearbody th.
  destruct (History_sendAudio_spec env tg History.audioFileName (Name track)
              (Str.Join (Artists track) ", ") th.1 f1) as [_ Hse].
  destruct (value (History.sendAudio env tg History.audioFileName (Name track)
              (Str.Join (Artists track) ", ") th.1 f1)) as [e2|] eqn:Hs;
    [discriminate|].
  destruct h as [m|]; [|discriminate].
  cbn [value files events fst snd]. intros _ Hin.
  destruct (History_saveTrackHistory_spec env History.dataFileName
              (Some (<[trackKey track:=true]> m)) f1) as [_ Hve].
  apply created_not_publish in Hve.
  set (v := History.saveTrackHistory env History.dataFileName _ f1) in *.
  clearbody v.
  pose proof (Remove_events env History.audioFileName (files v)) as Hr1.
  apply removed_not_publish in Hr1.
  pose proof (Remove_gone env History.audioFileName (files v)) as Hgone.
  set (r1 := os.Remove env History.audioFileName (files v)) in *. clearbody r1.
  pose proof (maybe_Remove_events env (bool_decide (th.1 ≠ EmptyString)) th.1
                (files r1)) as Hr2.
  pose proof (logged_not_publish "Error getting thumbnail: " th.2) as Hl1.
  pose proof (logged_not_publish "Error saving track history: " (value v)) as Hl2.
  destruct Hse as [[_ Hne]|(form' & Hes & Hform)]; [done|].
  rewrite Hes in Hin.
  assert (form = form') as ->.
  { repeat (rewrite elem_of_app in Hin || rewrite elem_of_cons in Hin).
    set (e2 := events _) in *. clearbody e2.
    set (l1 := logged _ th.2) in *. set (l2 := logged _ (value v)) in *.
    clearbody l1 l2.
    destruct_or!; try discriminate; try (by simplify_eq);
      try (exfalso;
           match goal with
           | H : _ ∈ ?l, F : Forall _ ?l |- _ => exact (Hno l F H)
           end);
      by apply elem_of_nil in Hin. }
  split.
  - intros Hf. case_bool_decide; [apply Remove_keeps_gone|]; by apply Hgone.
  - intros name c Hc. apply Hform in Hc as [Hne ->].
    rewrite bool_decide_eq_true_2 by done.
    rewrite thumbnail_Base by (destruct Hth as [?|?]; [done | done]).
    apply Remove_gone.
Qed.

(** *** The history only grows *)

Lemma History_cycle_history lib env sp tg h fs :
  (value (History.processCurrentTrack lib env sp tg h fs)).2 = h
  ∨ ∃ m track, h = Some m
      ∧ value (History.getCurrentTrack lib env sp fs) = Ok (Some track)
      ∧ (value (History.processCurrentTrack lib env sp tg h fs)).1 = Returned None
      ∧ (value (History.processCurrentTrack lib env sp tg h fs)).2
        = Some (<[trackKey track := true]> m).
Proof.
  rewrite History_cycle. cbv zeta.
  destruct (value (History.getCurrentTrack lib env sp fs)) as [[track|]|e0];
    [|by left..].
  repeat case_match; cbn [value fst snd]; try (by left); right; by eexists _, _.
Qed.

Lemma History_cycle_monotone lib env sp tg h fs k :
  History.index h k = true →
  History.index (value (History.processCurrentTrack lib env sp tg h fs)).2 k = true.
Proof.
  intros Hk.
  destruct (History_cycle_history lib env sp tg h fs)
    as [-> | (m & track & -> & _ & _ & ->)]; [done|].
  unfold History.index in *.
  destruct (decide (trackKey track = k)) as [->|Hne].
  - by rewrite lookup_insert_eq.
  - by rewrite lookup_insert_ne.
Qed.

Lemma History_loop_monotone lib envs sp tg h fs k :
  History.index h k = true →
  History.index (value (History.loop lib envs sp tg h fs)).2 k = true.
Proof.
  revert h fs. induction envs as [|env envs IH]; intros h fs Hk; [done|].
  cbn [History.loop]. rewrite bind_unfold.
  pose proof (History_cycle_monotone lib env sp tg h fs k Hk) as Hc.
  destruct (History.processCurrentTrack lib env sp tg h fs) as [[o h'] f e].
  cbn [value fst snd] in *.
  destruct o as [[err|]|msg].
  - rewrite bind_unfold, Logf_unfold.
    specialize (IH h' f Hc).
    destruct (History.loop lib envs sp tg h' f) as [[? ?] ? ?]. done.
  - specialize (IH h' f Hc).
    destruct (History.loop lib envs sp tg h' f) as [[? ?] ? ?]. done.
  - done.
Qed.

Ltac not_this_line :=
  match goal with
  | H : LogLine _ = LogLine _ |- _ => simpl in H; discriminate H
  | H : _ = LogLine _ |- _ => discriminate H
  | H : LogLine _ = _ |- _ => discriminate H
  end.

Ltac absurd_line Hno :=
  first
    [ not_this_line
    | discriminate
    | match goal with H : _ ∈ [] |- _ => by apply elem_of_nil in H end
    | match goal with H : ?x ∈ ?l, N : ?x ∉ ?l |- _ => exact (N H) end
    | match goal with
      | H : _ ∈ ?l, F : Forall _ ?l |- _ => exact (Hno l _ F H)
      end ].

(** A cycle that logs a failing save of the history still returns no
    error; the map holds the key of the track, and still holds it after any
    number of later ticks. *)
Theorem History_failed_save_not_fatal lib env sp tg h fs msg :
  LogLine ("Error saving track history: " +:+ msg)
    ∈ events (History.processCurrentTrack lib env sp tg h fs) →
  (value (History.processCurrentTrack lib env sp tg h fs)).1 = Returned None
  ∧ ∃ track m,
      h = Some m
      ∧ value (History.getCurrentTrack lib env sp fs) = Ok (Some track)
      ∧ (value (History.processCurrentTrack lib env sp tg h fs)).2
        = Some (<[trackKey track := true]> m)
      ∧ ∀ envs fs',
          History.index
            (value (History.loop lib envs sp tg
                      (value (History.processCurrentTrack lib env sp tg h fs)).2 fs')).2
            (trackKey track) = true.
Proof.
  rewrite History_cycle. cbv zeta.
  destruct (History_getCurrentTrack_frame lib env sp fs) as [_ Hqe].
  apply spotify_not_log in Hqe.
  set (evq := events (History.getCurrentTrack lib env sp fs)) in *. clearbody evq.
  assert (Hno : ∀ l x, Forall (fun ev => isLog ev = false) l → LogLine x ∉ l).
  { intros l x Hl. by eapply not_in_kind. }
  assert (Hthumb : ∀ o, LogLine ("Error saving track history: " +:+ msg)
                        ∉ logged "Error getting thumbnail: " o).
  { intros [e|]; cbn [logged]; [|apply not_elem_of_nil].
    intros Hx. apply list_elem_of_singleton in Hx. simpl in Hx. discriminate. }
  destruct (value (History.getCurrentTrack lib env sp fs)) as [[track|]|e0];
    cbn [value files events fst snd].
  3:{ intros Hin. exfalso. by eapply Hno. }
  2:{ intros Hin. exfalso. apply elem_of_app in Hin as [Hin|Hin]; [by eapply Hno|].
      apply list_elem_of_singleton in Hin. discriminate. }
  destruct (History.index h (trackKey track)); cbn [value files events fst snd].
  { intros Hin. exfalso.
    repeat (rewrite elem_of_app in Hin || rewrite elem_of_cons in Hin).
    destruct_or!; absurd_line Hno. }
  destruct (History_download_spec env track fs) as (_ & Hde & _).
  rewrite Hde.
  set (f1 := files (History.downloadFromYouTube env track fs)) in *. clearbody f1.
  set (th := value (History.getThumbnail History.audioFileName f1)) in *.
  clearbody th.
  destruct (History_sendAudio_spec env tg History.audioFileName (Name track)
              (Str.Join (Artists track) ", ") th.1 f1) as [_ Hse].
  assert (Hes : LogLine ("Error saving track history: " +:+ msg)
                ∉ events (History.sendAudio env tg History.audioFileName
                            (Name track) (Str.Join (Artists track) ", ") th.1 f1)).
  { destruct Hse as [[-> _]|(form & -> & _)]; [apply not_elem_of_nil|].
    intros Hx. apply list_elem_of_singleton in Hx. discriminate. }
  set (es := events (History.sendAudio _ _ _ _ _ _ _)) in *.
  specialize (Hthumb th.2). set (l1 := logged _ th.2) in *.
  destruct (value (History.downloadFromYouTube env track fs));
    cbn [value files events fst snd].
  { intros Hin. exfalso.
    repeat (rewrite elem_of_app in Hin || rewrite elem_of_cons in Hin).
    destruct_or!; absurd_line Hno. }
  destruct (value (History.sendAudio _ _ _ _ _ _ _));
    cbn [value files events fst snd].
  { intros Hin. exfalso. clearbody es l1.
    repeat (rewrite elem_of_app in Hin || rewrite elem_of_cons in Hin).
    destruct_or!; absurd_line Hno. }
  destruct h as [m|]; cbn [value files events fst snd].
  2:{ intros Hin. exfalso. clearbody es l1.
    repeat (rewrite elem_of_app in Hin || rewrite elem_of_cons in Hin).
    destruct_or!; absurd_line Hno. }
  intros _. split; [done|]. exists track, m. repeat split.
  intros envs fs'. apply History_loop_monotone.
  unfold History.index. by rewrite lookup_insert_eq.
Qed.

(** Whatever error a cycle returns, the map is as before, [os.Create] was
    not called, and data.json is as before. *)
Theorem History_error_keeps_history lib env sp tg h fs e :
  (value (History.processCurrentTrack lib env sp tg h fs)).1 = Returned (Some e) →
  (value (History.processCurrentTrack lib env sp tg h fs)).2 = h
  ∧ Forall (fun ev => isCreate ev = false)
           (events (History.processCurrentTrack lib env sp tg h fs))
  ∧ files (History.processCurrentTrack lib env sp tg h fs) !! History.dataFileName
    = fs !! History.dataFileName.
Proof.
  rewrite History_cycle. cbv zeta.
  destruct (History_getCurrentTrack_frame lib env sp fs) as [_ Hqe].
  apply spotify_not_create in Hqe.
  set (evq := events (History.getCurrentTrack lib env sp fs)) in *. clearbody evq.
  destruct (value (History.getCurrentTrack lib env sp fs)) as [[track|]|e0];
    cbn [value files events fst snd]; [|discriminate|by intros _].
  destruct (History.index h (trackKey track)); [discriminate|].
  destruct (History_download_spec env track fs) as (_ & Hde & Hdf).
  rewrite Hde.
  set (f1 := files (History.downloadFromYouTube env track fs)) in *. clearbody f1.
  set (th := value (History.getThumbnail History.audioFileName f1)) in *.
  clearbody th.
  destruct (History_sendAudio_spec env tg History.audioFileName (Name track)
              (Str.Join (Artists track) ", ") th.1 f1) as [_ Hse].
  pose proof (logged_not_create "Error getting thumbnail: " th.2) as Hl.
  set (l1 := logged _ th.2) in *. clearbody l1.
  destruct (value (History.downloadFromYouTube env track fs));
    cbn [value files events fst snd].
  { intros _. split; [done|]. split; [forall_events | done]. }
  destruct (value (History.sendAudio _ _ _ _ _ _ _));
    cbn [value files events fst snd].
  2:{ destruct h; discriminate. }
  intros _. split; [done|]. split; [|done].
  destruct Hse as [[-> _]|(form & -> & _)]; forall_events.
Qed.

(** A cycle that returns the error of the downloader got that error from
    its exit status and has sent nothing to Telegram. *)
Theorem History_failed_download_aborts lib env sp tg h fs e :
  (value (History.processCurrentTrack lib env sp tg h fs)).1
  = Returned (Some (wrapError "error downloading from YouTube: " e)) →
  exit (ytdlp env) = Some e
  ∧ Forall (fun ev => isPublish ev = false)
           (events (History.processCurrentTrack lib env sp tg h fs)).
Proof.
  rewrite History_cycle. cbv zeta.
  destruct (History_getCurrentTrack_frame lib env sp fs) as [_ Hqe].
  apply spotify_not_publish in Hqe.
  set (evq := events (History.getCurrentTrack lib env sp fs)) in *. clearbody evq.
  destruct (value (History.getCurrentTrack lib env sp fs)) as [[track|]|e0];
    cbn [value files events fst snd]; try discriminate.
  destruct (History.index h (trackKey track)); [discriminate|].
  destruct (History_download_spec env track fs) as (Hdv & Hde & _).
  rewrite Hde, Hdv.
  destruct (exit (ytdlp env)) as [e1|]; cbn [value files events fst snd].
  { intros [= ->]. split; [done|]. forall_events. }
  destruct (value (History.sendAudio _ _ _ _ _ _ _)); [discriminate|].
  destruct h; discriminate.
Qed.

Lemma History_load_null env fs :
  openFault env History.dataFileName = None →
  readFault env History.dataFileName = None →
  lookupFile fs History.dataFileName = Some "null" →
  value (History.loadTrackHistory env History.dataFileName fs) = Ok None.
Proof.
  intros Ho Hr Hl. unfold History.loadTrackHistory. rewrite bind_unfold.
  unfold os.Open, readContent. rewrite Ho, Hl, Hr. done.
Qed.

(** When data.json holds the JSON text null, loading, where opening and
    reading the file do not fail, gives the nil map without error; a cycle
    on the nil map whose upload Telegram answers with status 200 then ends
    in the panic of an assignment to a nil map. *)
Theorem History_nil_history_panics lib start env sp tg fs fs' url form resp :
  openFault start History.dataFileName = None →
  readFault start History.dataFileName = None →
  lookupFile fs History.dataFileName = Some "null" →
  TelegramRequest url form
    ∈ events (History.processCurrentTrack lib env sp tg None fs') →
  telegram env = reply resp → StatusCode resp = 200%Z →
  value (History.loadTrackHistory start History.dataFileName fs) = Ok None
  ∧ value (History.processCurrentTrack lib env sp tg None fs')
    = (Panicked "assignment to entry in nil map", None).
Proof.
  intros Ho Hr Hl Hin Htg Hst. split; [by apply History_load_null|].
  revert Hin. rewrite History_cycle. cbv zeta.
  destruct (History_getCurrentTrack_frame lib env sp fs') as [_ Hqe].
  apply spotify_not_publish in Hqe.
  set (evq := events (History.getCurrentTrack lib env sp fs')) in *. clearbody evq.
  assert (Hno : ∀ l x, Forall (fun ev => isPublish ev = false) l →
                       TelegramRequest url x ∉ l).
  { intros l x Hl'. by eapply not_in_kind. }
  destruct (value (History.getCurrentTrack lib env sp fs')) as [[track|]|e0];
    cbn [value files events fst snd History.index].
  3:{ intros Hin. exfalso. by eapply Hno. }
  2:{ intros Hin. exfalso.
      repeat (rewrite elem_of_app in Hin || rewrite elem_of_cons in Hin).
      destruct_or!; absurd_line Hno. }
  destruct (History_download_spec env track fs') as (_ & Hde & _).
  rewrite Hde.
  set (f1 := files (History.downloadFromYouTube env track fs')) in *. clearbody f1.
  set (th := value (History.getThumbnail History.audioFileName f1)) in *.
  clearbody th.
  pose proof (logged_not_publish "Error getting thumbnail: " th.2) as Hl1.
  set (l1 := logged _ th.2) in *. clearbody l1.
  destruct (value (History.downloadFromYouTube env track fs'));
    cbn [value files events fst snd].
  { intros Hin. exfalso.
    repeat (rewrite elem_of_app in Hin || rewrite elem_of_cons in Hin).
    destruct_or!; absurd_line Hno. }
  destruct (History_sendAudio_spec env tg History.audioFileName (Name track)
              (Str.Join (Artists track) ", ") th.1 f1) as [_ Hse].
  destruct Hse as [[Hes _]|(form' & Hes & _)].
  { rewrite Hes. intros Hin. exfalso.
    destruct (value (History.sendAudio _ _ _ _ _ _ _));
      cbn [value files events fst snd] in Hin;
      repeat (rewrite elem_of_app in Hin || rewrite elem_of_cons in Hin);
      destruct_or!; absurd_line Hno. }
  rewrite (History_sendAudio_sent _ _ _ _ _ _ _ _ _ Hes), Htg.
  rewrite bool_decide_eq_false_2 by (intros ?; done). done.
Qed.

(** *** Examples *)

Lemma History_known_track_skipped_witness :
  value (History.processCurrentTrack toyLib (tick songA audioOnly accepted)
           spotify bot (Some {["Song A - Artist X" := true]}) ∅)
  = (Returned None, Some {["Song A - Artist X" := true]}).
Proof.
  refine (proj1 (History_known_track_skipped toyLib (tick songA audioOnly accepted)
                   spotify bot {["Song A - Artist X" := true]} ∅
                   (mkTrack "Song A" ["Artist X"]) _ _)); reflexivity.
Defined.

Lemma History_nothing_playing_witness :
  value (History.processCurrentTrack toyLib (tick nothing audioOnly accepted)
           spotify bot (Some ∅) ∅)
  = (Returned None, Some ∅).
Proof.
  refine (proj1 (History_nothing_playing toyLib (tick nothing audioOnly accepted)
                   spotify bot (Some ∅) ∅ _)); reflexivity.
Defined.

Lemma History_cleanup_witness :
  lookupFile (files (History.processCurrentTrack toyLib
                       (tick songA audioAndCover accepted) spotify bot (Some ∅) ∅))
             History.audioFileName = None.
Proof.
  refine (proj1 (History_cleanup toyLib (tick songA audioAndCover accepted)
                   spotify bot (Some ∅) ∅
                   (History.telegramURL "123:abc")
                   [FormFile "audio" "audio.mp3" "mp3 bytes";
                    FormFile "thumbnail" "audio.mp3.jpg" "jpg bytes";
                    FormField "chat_id" "@chat"; FormField "title" "Song A";
                    FormField "performer" "Artist X"] _ _) _).
  - vm_compute. reflexivity.
  - vm_compute. repeat first [apply list_elem_of_here | apply list_elem_of_further].
  - reflexivity.
Defined.

(** A removal that fails is dropped: the cycle returns no error and the
    audio file stays. *)
Lemma History_failed_removal_dropped :
  (value (History.processCurrentTrack toyLib removeFails spotify bot (Some ∅) ∅)).1
  = Returned None
  ∧ lookupFile (files (History.processCurrentTrack toyLib removeFails spotify bot
                         (Some ∅) ∅)) History.audioFileName
    = Some "mp3 bytes".
Proof. split; vm_compute; reflexivity. Qed.

Lemma History_failed_save_not_fatal_witness :
  (value (History.processCurrentTrack toyLib createFails spotify bot (Some ∅) ∅)).1
  = Returned None.
Proof.
  refine (proj1 (History_failed_save_not_fatal toyLib createFails spotify bot
                   (Some ∅) ∅ "error creating file: read-only file system" _)).
  vm_compute. repeat first [apply list_elem_of_here | apply list_elem_of_further].
Defined.

Lemma History_error_keeps_history_witness :
  (value (History.processCurrentTrack toyLib (tick songA audioAndCover refused)
            spotify bot (Some ∅) ∅)).2
  = Some ∅.
Proof.
  refine (proj1 (History_error_keeps_history toyLib
                   (tick songA audioAndCover refused) spotify bot (Some ∅) ∅
                   (wrapError "error uploading to Telegram: "
                      (History.unexpectedStatus (mkResponse 400 "no"))) _)).
  vm_compute. reflexivity.
Defined.

Lemma History_failed_download_aborts_witness :
  Forall (fun ev => isPublish ev = false)
         (events (History.processCurrentTrack toyLib downloadFails spotify bot
                    (Some ∅) ∅)).
Proof.
  refine (proj2 (History_failed_download_aborts toyLib downloadFails spotify bot
                   (Some ∅) ∅ (errorString "exit status 1") _)).
  vm_compute. reflexivity.
Defined.

Lemma History_nil_history_panics_witness :
  value (History.processCurrentTrack toyLib (tick songA audioOnly accepted)
           spotify bot None {["data.json" := "null"]})
  = (Panicked "assignment to entry in nil map", None).
Proof.
  refine (proj2 (History_nil_history_panics toyLib (tick songA audioOnly accepted)
                   (tick songA audioOnly accepted) spotify bot
                   {["data.json" := "null"]} {["data.json" := "null"]}
                   (History.telegramURL "123:abc")
                   [FormFile "audio" "audio.mp3" "mp3 bytes";
                    FormField "chat_id" "@chat"; FormField "title" "Song A";
                    FormField "performer" "Artist X"]
                   (mkResponse 200 "ok") _ _ _ _ _ _)); try reflexivity.
  vm_compute. repeat first [apply list_elem_of_here | apply list_elem_of_further].
Defined.

(** ** The cycle of the editing variant *)

Lemma Edit_getAccessToken_frame lib env c fs :
  files (Edit.getAccessToken lib env c fs) = fs
  ∧ Forall (fun ev => isSpotify ev = true)
           (events (Edit.getAccessToken lib env c fs)).
Proof.
  unfold Edit.getAccessToken. monad_step.
  repeat (case_match; monad_step); split; try done; repeat constructor.
Qed.

Lemma Edit_getCurrentTrack_frame lib env c fs :
  files (Edit.getCurrentTrack lib env c fs) = fs
  ∧ Forall (fun ev => isSpotify ev = true)
           (events (Edit.getCurrentTrack lib env c fs)).
Proof.
  unfold Edit.getCurrentTrack. rewrite bind_unfold.
  destruct (Edit_getAccessToken_frame lib env c fs) as [Hf He].
  destruct (Edit.getAccessToken lib env c fs) as [t f e]. simpl in *. subst f.
  destruct t as [tok|err]; monad_step; [|by rewrite app_nil_r].
  repeat (case_match; monad_step; simplify_eq/=); (split; [done|]);
    rewrite ?app_nil_r; try done; apply Forall_app; (split; [done|]);
    repeat constructor.
Qed.

Lemma Edit_download_spec env track fs :
  value (Edit.downloadFromYouTube env track fs) = exit (ytdlp env)
  ∧ events (Edit.downloadFromYouTube env track fs)
    = [Exec "yt-dlp"
         ["-x"; "--audio-format"; "mp3"; "--write-thumbnail";
          "--convert-thumbnails"; "jpg"; "-o"; Edit.audioFileName;
          "ytsearch1:" +:+ (Name track +:+ " " +:+ Str.Join (Artists track) " ")]].
Proof. done. Qed.

Lemma Edit_getThumbnail_spec fs :
  files (Edit.getThumbnail Edit.audioFileName fs) = fs
  ∧ events (Edit.getThumbnail Edit.audioFileName fs) = []
  ∧ ((value (Edit.getThumbnail Edit.audioFileName fs)).1 = EmptyString
     ∨ (value (Edit.getThumbnail Edit.audioFileName fs)).1 = "audio.mp3.jpg").
Proof.
  unfold Edit.getThumbnail, os.Stat. monad_step.
  repeat (case_match; monad_step); repeat split; auto.
Qed.

Lemma Edit_sendOrEditAudio_spec lib env t filePath title performer thumbnail fs :
  files (Edit.sendOrEditAudio lib env t filePath title performer thumbnail fs) = fs
  ∧ (events (Edit.sendOrEditAudio lib env t filePath title performer thumbnail fs) = []
     ∧ (value (Edit.sendOrEditAudio lib env t filePath title performer thumbnail fs)).1
       ≠ None
     ∧ (value (Edit.sendOrEditAudio lib env t filePath title performer thumbnail fs)).2
       = t
     ∨ ∃ url form,
         events (Edit.sendOrEditAudio lib env t filePath title performer thumbnail fs)
         = [TelegramRequest url form]
         ∧ (∀ name c, FormFile "thumbnail" name c ∈ form →
                      thumbnail ≠ EmptyString ∧ name = Str.Base thumbnail)).
Proof.
  unfold Edit.sendOrEditAudio, os.Open. monad_step.
  repeat (case_match; monad_step); simplify_eq/=; (split; [done|]);
    try (left; split; [done|split; [discriminate|done]]);
    right; eexists _, _; (split; [done|]);
    intros name c; set_unfold; case_bool_decide;
    intuition (simplify_eq; eauto).
Qed.

(** The cycle of the editing variant, call by call. *)
Lemma Edit_cycle lib env sp tg fs :
  Edit.processCurrentTrack lib env sp tg fs
  = let q := Edit.getCurrentTrack lib env sp fs in
    match value q with
    | Err e =>
      mkOut (Some (wrapError "error getting current track: " e), tg) fs (events q)
    | Ok None =>
      mkOut (None, tg) fs (events q ++ [LogLine "No track currently playing"])
    | Ok (Some track) =>
      let key := trackKey track in
      let d := Edit.downloadFromYouTube env track fs in
      let pre := events q ++ [LogLine ("Current track: " +:+ key);
                              LogLine ("Downloading: " +:+ key)] ++ events d in
      match value d with
      | Some e =>
        mkOut (Some (wrapError "error downloading from youtube: " e), tg)
              (files d) pre
      | None =>
        let th := value (Edit.getThumbnail Edit.audioFileName (files d)) in
        let s := Edit.sendOrEditAudio lib env tg Edit.audioFileName (Name track)
                   (Str.Join (Artists track) ", ") th.1 (files d) in
        let pre2 := pre ++ logged "Error getting thumbnail: " th.2
                    ++ [LogLine ("Uploading to Telegram: " +:+ key)] ++ events s in
        match (value s).1 with
        | Some e =>
          mkOut (Some (wrapError "error uploading to telegram: " e), (value s).2)
                (files d) pre2
        | None =>
          let r1 := os.Remove env Edit.audioFileName (files d) in
          let r2 := (if bool_decide (th.1 ≠ EmptyString)
                     then os.Remove env th.1 else ret None) (files r1) in
          mkOut (None, (value s).2) (files r2) (pre2 ++ events r1 ++ events r2)
        end
      end
    end.
Proof.
  unfold Edit.processCurrentTrack. cbv zeta. run.
  destruct (Edit_getCurrentTrack_frame lib env sp fs) as [Hqf _].
  destruct (Edit.getCurrentTrack lib env sp fs) as [q f0 eq].
  cbn [value files events] in *. subst f0.
  destruct q as [[track|]|e0]; run; [| done | by rewrite app_nil_r].
  destruct (Edit.downloadFromYouTube env track fs) as [d f1 ed].
  cbn [value files events].
  destruct d as [e|]; run.
  { by rewrite app_nil_r. }
  destruct (Edit_getThumbnail_spec f1) as (Htf & Hte & _).
  destruct (Edit.getThumbnail Edit.audioFileName f1) as [th f2 et].
  cbn [value files events] in *. subst f2 et.
  destruct (Edit_sendOrEditAudio_spec lib env tg Edit.audioFileName (Name track)
              (Str.Join (Artists track) ", ") th.1 f1) as [Hsf _].
  destruct th as [th [terr|]]; cbn [fst snd logged] in *; run.
  all: destruct (Edit.sendOrEditAudio lib env tg Edit.audioFileName (Name track)
              (Str.Join (Artists track) ", ") th f1) as [[s t'] f3 es];
    cbn [value files events fst snd] in *; subst f3;
    (destruct s as [e|]; run; [fin|]);
    destruct (os.Remove env Edit.audioFileName f1) as [r1 f5 e1];
    cbn [value files events]; run;
    destruct ((if bool_decide (th ≠ EmptyString) then os.Remove env th else ret None) f5)
      as [r2 f6 e2];
    fin.
Qed.

(** After a cycle of the editing variant that published and returned no
    error the audio file does not exist unless its removal failed, and
    neither does the thumbnail that was attached to the request, if one
    was, unless its removal failed. *)
Theorem Edit_cleanup lib env sp tg fs url form :
  (value (Edit.processCurrentTrack lib env sp tg fs)).1 = None →
  TelegramRequest url form ∈ events (Edit.processCurrentTrack lib env sp tg fs) →
  (removeFault env Edit.audioFileName = None →
   lookupFile (files (Edit.processCurrentTrack lib env sp tg fs))
              Edit.audioFileName = None)
  ∧ ∀ name c, FormFile "thumbnail" name c ∈ form →
      removeFault env name = None →
      lookupFile (files (Edit.processCurrentTrack lib env sp tg fs)) name = None.
Proof.
  rewrite Edit_cycle. cbv zeta.
  destruct (Edit_getCurrentTrack_frame lib env sp fs) as [_ Hqe].
  apply spotify_not_publish in Hqe.
  set (evq := events (Edit.getCurrentTrack lib env sp fs)) in *. clearbody evq.
  assert (Hno : ∀ l x, Forall (fun ev => isPublish ev = false) l →
                       TelegramRequest url x ∉ l).
  { intros l x Hl. by eapply not_in_kind. }
  destruct (value (Edit.getCurrentTrack lib env sp fs)) as [[track|]|e0];
    cbn [value files events fst snd]; [| |discriminate].
  2:{ intros _ Hin. exfalso.
      repeat (rewrite elem_of_app in Hin || rewrite elem_of_cons in Hin).
      destruct_or!; absurd_line Hno. }
  destruct (Edit_download_spec env track fs) as (_ & Hde).
  rewrite Hde.
  destruct (value (Edit.downloadFromYouTube env track fs)); [discriminate|].
  set (f1 := files (Edit.downloadFromYouTube env track fs)) in *. clearbody f1.
  destruct (Edit_getThumbnail_spec f1) as (_ & _ & Hth).
  set (th := value (Edit.getThumbnail Edit.audioFileName f1)) in *.
  clearbody th.
  destruct (Edit_sendOrEditAudio_spec lib env tg Edit.audioFileName (Name track)
              (Str.Join (Artists track) ", ") th.1 f1) as [_ Hse].
  destruct ((value (Edit.sendOrEditAudio lib env tg Edit.audioFileName (Name track)
              (Str.Join (Artists track) ", ") th.1 f1)).1) as [e2|] eqn:Hs;
    [discriminate|].
  cbn [value files events fst snd]. intros _ Hin.
  pose proof (Remove_events env Edit.audioFileName f1) as Hr1.
  apply removed_not_publish in Hr1.
  pose proof (Remove_gone env Edit.audioFileName f1) as Hgone.
  set (r1 := os.Remove env Edit.audioFileName f1) in *. clearbody r1.
  pose proof (maybe_Remove_events env (bool_decide (th.1 ≠ EmptyString)) th.1
                (files r1)) as Hr2.
  pose proof (logged_not_publish "Error getting thumbnail: " th.2) as Hl1.
  destruct Hse as [(_ & Hne & _)|(url' & form' & Hes & Hform)]; [done|].
  rewrite Hes in Hin.
  assert (form = form') as ->.
  { repeat (rewrite elem_of_app in Hin || rewrite elem_of_cons in Hin).
    set (e2 := events _) in *. clearbody e2.
    set (l1 := logged _ th.2) in *. clearbody l1.
    destruct_or!; try (by simplify_eq); exfalso; absurd_line Hno. }
  split.
  - intros Hf. case_bool_decide; [apply Remove_keeps_gone|]; by apply Hgone.
  - intros name c Hc. apply Hform in Hc as [Hne ->].
    rewrite bool_decide_eq_true_2 by done.
    destruct Hth as [Hth|Hth]; [done|]. rewrite Hth.
    apply Remove_gone.
Qed.

(** *** The message id *)

Lemma Edit_send_client lib env t filePath title performer thumbnail fs :
  Edit.botToken (value (Edit.sendOrEditAudio lib env t filePath title performer
                          thumbnail fs)).2 = Edit.botToken t
  ∧ ((value (Edit.sendOrEditAudio lib env t filePath title performer
               thumbnail fs)).1 ≠ None →
     (value (Edit.sendOrEditAudio lib env t filePath title performer
               thumbnail fs)).2 = t)
  ∧ ((value (Edit.sendOrEditAudio lib env t filePath title performer
               thumbnail fs)).1 = None →
     is_Some (Edit.messageID (value (Edit.sendOrEditAudio lib env t filePath title
                                       performer thumbnail fs)).2)).
Proof.
  destruct (Edit_sendOrEditAudio_spec lib env t filePath title performer thumbnail fs)
    as [_ [(_ & Hne & Ht)|(url & form & Hes & _)]].
  { rewrite Ht. repeat split; done. }
  destruct (Edit_sendOrEditAudio_sent _ _ _ _ _ _ _ _ _ _ Hes) as (Hv & _ & _).
  rewrite Hv. repeat case_match; cbn [fst snd Edit.botToken Edit.messageID];
    repeat split; try done; by eexists.
Qed.

Lemma Edit_cycle_client lib env sp tg fs :
  Edit.botToken (value (Edit.processCurrentTrack lib env sp tg fs)).2
  = Edit.botToken tg
  ∧ (is_Some (Edit.messageID tg) →
     is_Some (Edit.messageID (value (Edit.processCurrentTrack lib env sp tg fs)).2))
  ∧ ((value (Edit.processCurrentTrack lib env sp tg fs)).1 ≠ None →
     (value (Edit.processCurrentTrack lib env sp tg fs)).2 = tg).
Proof.
  rewrite Edit_cycle. cbv zeta.
  destruct (value (Edit.getCurrentTrack lib env sp fs)) as [[track|]|e0];
    cbn [value fst snd]; [|done..].
  destruct (value (Edit.downloadFromYouTube env track fs)); cbn [value fst snd];
    [done|].
  set (f1 := files (Edit.downloadFromYouTube env track fs)).
  set (th := value (Edit.getThumbnail Edit.audioFileName f1)).
  destruct (Edit_send_client lib env tg Edit.audioFileName (Name track)
              (Str.Join (Artists track) ", ") th.1 f1) as (Hb & Hfail & Hok).
  destruct ((value (Edit.sendOrEditAudio lib env tg Edit.audioFileName (Name track)
              (Str.Join (Artists track) ", ") th.1 f1)).1) eqn:Hs;
    cbn [value fst snd].
  - rewrite Hfail by done. done.
  - split; [done|]. split; [|done]. intros _. by apply Hok.
Qed.

Lemma Edit_cycle_request_url lib env sp tg fs url form :
  TelegramRequest url form ∈ events (Edit.processCurrentTrack lib env sp tg fs) →
  url = Edit.telegramURL (Edit.botToken tg)
          (match Edit.messageID tg with
           | Some _ => "editMessageMedia" | None => "sendAudio" end)
  ∧ ((value (Edit.processCurrentTrack lib env sp tg fs)).1 = None →
     is_Some (Edit.messageID (value (Edit.processCurrentTrack lib env sp tg fs)).2)).
Proof.
  rewrite Edit_cycle. cbv zeta.
  destruct (Edit_getCurrentTrack_frame lib env sp fs) as [_ Hqe].
  apply spotify_not_publish in Hqe.
  set (evq := events (Edit.getCurrentTrack lib env sp fs)) in *. clearbody evq.
  assert (Hno : ∀ l x, Forall (fun ev => isPublish ev = false) l →
                       TelegramRequest url x ∉ l).
  { intros l x Hl. by eapply not_in_kind. }
  destruct (value (Edit.getCurrentTrack lib env sp fs)) as [[track|]|e0];
    cbn [value files events fst snd].
  3:{ intros Hin. exfalso. by eapply Hno. }
  2:{ intros Hin. exfalso.
      repeat (rewrite elem_of_app in Hin || rewrite elem_of_cons in Hin).
      destruct_or!; absurd_line Hno. }
  destruct (Edit_download_spec env track fs) as (_ & Hde).
  rewrite Hde.
  set (f1 := files (Edit.downloadFromYouTube env track fs)) in *. clearbody f1.
  set (th := value (Edit.getThumbnail Edit.audioFileName f1)) in *.
  clearbody th.
  pose proof (logged_not_publish "Error getting thumbnail: " th.2) as Hl1.
  set (l1 := logged _ th.2) in *. clearbody l1.
  destruct (value (Edit.downloadFromYouTube env track fs));
    cbn [value files events fst snd].
  { intros Hin. exfalso.
    repeat (rewrite elem_of_app in Hin || rewrite elem_of_cons in Hin).
    destruct_or!; absurd_line Hno. }
  destruct (Edit_send_client lib env tg Edit.audioFileName (Name track)
              (Str.Join (Artists track) ", ") th.1 f1) as (_ & _ & Hok).
  destruct (Edit_sendOrEditAudio_spec lib env tg Edit.audioFileName (Name track)
              (Str.Join (Artists track) ", ") th.1 f1) as [_ Hse].
  pose proof (Remove_events env Edit.audioFileName f1) as Hr1.
  apply removed_not_publish in Hr1.
  set (r1 := os.Remove env Edit.audioFileName f1) in *. clearbody r1.
  pose proof (maybe_Remove_events env (bool_decide (th.1 ≠ EmptyString)) th.1
                (files r1)) as Hr2.
  set (e2 := events ((if bool_decide (th.1 ≠ EmptyString)
                      then os.Remove env th.1 else ret None) (files r1))) in *.
  clearbody e2.
  destruct Hse as [(Hes & _ & _)|(url' & form' & Hes & _)].
  { rewrite Hes. intros Hin. exfalso.
    destruct ((value (Edit.sendOrEditAudio _ _ _ _ _ _ _ _)).1);
      cbn [value files events fst snd] in Hin;
      repeat (rewrite elem_of_app in Hin || rewrite elem_of_cons in Hin);
      destruct_or!; absurd_line Hno. }
  destruct (Edit_sendOrEditAudio_sent _ _ _ _ _ _ _ _ _ _ Hes) as (_ & Hurl & _).
  rewrite Hes.
  destruct ((value (Edit.sendOrEditAudio _ _ _ _ _ _ _ _)).1) eqn:Hs1;
    cbn [value files events fst snd]; intros Hin;
    (split; [|first [done | intros _; by apply Hok]]);
    repeat (rewrite elem_of_app in Hin || rewrite elem_of_cons in Hin);
    destruct_or!; try (by simplify_eq); exfalso; absurd_line Hno.
Qed.

(** Once a message id is stored, every request of every later tick is an
    edit of a message: no second audio message is sent. *)
Theorem Edit_only_edits_once_sent lib envs sp tg fs id url form :
  Edit.messageID tg = Some id →
  TelegramRequest url form ∈ events (Edit.loop lib envs sp tg fs) →
  url = Edit.telegramURL (Edit.botToken tg) "editMessageMedia".
Proof.
  intros Hid. assert (Hsome : is_Some (Edit.messageID tg)) by by eexists.
  clear Hid. revert tg fs Hsome.
  induction envs as [|env envs IH]; intros tg fs Hsome Hin.
  { by apply elem_of_nil in Hin. }
  revert Hin. cbn [Edit.loop]. rewrite bind_unfold.
  destruct (Edit_cycle_client lib env sp tg fs) as (Hb & Hm & _).
  pose proof (Edit_cycle_request_url lib env sp tg fs url form) as Hreq.
  destruct (Edit.processCurrentTrack lib env sp tg fs) as [[o tg'] f e].
  cbn [value files events fst snd] in *.
  rewrite bind_unfold.
  assert (Hlog : ∀ f0, (match o with
                        | Some e0 => Logf ("Error processing current track: "
                                           +:+ Error e0)
                        | None => ret ()
                        end) f0
                       = mkOut tt f0 (logged "Error processing current track: " o)).
  { intros f0. by destruct o. }
  rewrite Hlog.
  specialize (IH tg' f (Hm Hsome)).
  destruct (Edit.loop lib envs sp tg' f) as [t'' f'' e''].
  cbn [value files events] in *.
  intros Hin.
  repeat (rewrite elem_of_app in Hin || rewrite elem_of_cons in Hin).
  destruct Hin as [Hin|[Hin|Hin]].
  - destruct (Hreq Hin) as [-> _]. destruct Hsome as [? ->]. done.
  - destruct o; cbn [logged] in Hin;
      [apply list_elem_of_singleton in Hin; discriminate
      | by apply elem_of_nil in Hin].
  - rewrite <- Hb. by apply IH.
Qed.

(** A cycle of the editing variant that returns an error leaves the client,
    and with it the remembered message id, as it was. *)
Theorem Edit_failed_cycle_keeps_message_id lib env sp tg fs e :
  (value (Edit.processCurrentTrack lib env sp tg fs)).1 = Some e →
  (value (Edit.processCurrentTrack lib env sp tg fs)).2 = tg.
Proof.
  intros He. destruct (Edit_cycle_client lib env sp tg fs) as (_ & _ & H).
  apply H. by rewrite He.
Qed.

Lemma Edit_cleanup_witness :
  lookupFile (files (Edit.processCurrentTrack toyLib
                       (tick songA audioAndCover accepted) editSpotify editBot ∅))
             Edit.audioFileName = None.
Proof.
  refine (proj1 (Edit_cleanup toyLib (tick songA audioAndCover accepted)
                   editSpotify editBot ∅
                   (Edit.telegramURL "123:abc" "sendAudio")
                   [FormField "chat_id" "@chat"; FormField "title" "Song A";
                    FormField "performer" "Artist X";
                    FormFile "audio" "audio.mp3" "mp3 bytes";
                    FormFile "thumbnail" "audio.mp3.jpg" "jpg bytes"] _ _) _).
  - vm_compute. reflexivity.
  - vm_compute. repeat first [apply list_elem_of_here | apply list_elem_of_further].
  - reflexivity.
Defined.

Lemma Edit_only_edits_once_sent_witness :
  Edit.telegramURL "123:abc" "editMessageMedia"
  = Edit.telegramURL (Edit.botToken (Edit.mkTelegramClient "123:abc" "@chat" (Some 42%Z)))
      "editMessageMedia".
Proof.
  refine (Edit_only_edits_once_sent toyLib [tick songA audioOnly accepted]
            editSpotify (Edit.mkTelegramClient "123:abc" "@chat" (Some 42%Z)) ∅ 42%Z
            (Edit.telegramURL "123:abc" "editMessageMedia")
            [FormField "chat_id" "@chat"; FormField "message_id" "42";
             FormField "media" (Edit.mediaField "Song A" "Artist X");
             FormFile "audio" "audio.mp3" "mp3 bytes"] eq_refl _).
  vm_compute. repeat first [apply list_elem_of_here | apply list_elem_of_further].
Defined.

Lemma Edit_failed_cycle_keeps_message_id_witness :
  (value (Edit.processCurrentTrack toyLib (tick songA audioOnly refused)
            editSpotify editBot ∅)).2 = editBot.
Proof.
  refine (Edit_failed_cycle_keeps_message_id toyLib (tick songA audioOnly refused)
            editSpotify editBot ∅
            (wrapError "error uploading to telegram: "
               (Edit.unexpectedStatus (mkResponse 400 "no"))) _).
  vm_compute. reflexivity.
Defined.

(** ** The cycle of the upload-flag variant *)

Lemma Upload_getAccessToken_frame lib getenv env fs :
  files (Upload.getAccessToken lib getenv env fs) = fs
  ∧ Forall (fun ev => isSpotify ev = true)
           (events (Upload.getAccessToken lib getenv env fs)).
Proof.
  unfold Upload.getAccessToken. monad_step.
  repeat (case_match; monad_step); split; try done; repeat constructor.
Qed.

Lemma Upload_getCurrentPlaying_frame lib getenv env fs :
  files (Upload.getCurrentPlaying lib getenv env fs) = fs
  ∧ Forall (fun ev => isSpotify ev = true)
           (events (Upload.getCurrentPlaying lib getenv env fs)).
Proof.
  unfold Upload.getCurrentPlaying. rewrite bind_unfold.
  destruct (Upload_getAccessToken_frame lib getenv env fs) as [Hf He].
  destruct (Upload.getAccessToken lib getenv env fs) as [t f e]. simpl in *. subst f.
  destruct t as [tok|err]; monad_step; [|by rewrite app_nil_r].
  repeat (case_match; monad_step; simplify_eq/=); (split; [done|]);
    rewrite ?app_nil_r; try done; apply Forall_app; (split; [done|]);
    repeat constructor.
Qed.

Lemma Upload_loadData_frame env filename fs :
  files (Upload.loadData env filename fs) = fs
  ∧ events (Upload.loadData env filename fs) = [].
Proof.
  unfold Upload.loadData, os.Open. monad_step.
  repeat (case_match; monad_step); done.
Qed.

Lemma Upload_download_spec env song artists fs :
  value (Upload.downloadFromYouTube env song artists fs) = exit (ytdlp env)
  ∧ events (Upload.downloadFromYouTube env song artists fs)
    = [Exec "yt-dlp"
         ["-x"; "--audio-format"; "mp3"; "--write-thumbnail"; "-o";
          Upload.audioFile; "ytsearch1:" +:+ (song +:+ " " +:+ artists)]]
  ∧ files (Upload.downloadFromYouTube env song artists fs) !! Upload.dataFile
    = fs !! Upload.dataFile.
Proof.
  unfold Upload.downloadFromYouTube, runYtDlp. cbn [value files events].
  repeat split.
  rewrite thumbnails_frame by (intros ext; discriminate).
  destruct (audio (ytdlp env)); [|done].
  by rewrite lookup_insert_ne.
Qed.

Lemma Upload_getThumbnail_spec fs :
  files (Upload.getThumbnail Upload.audioFile fs) = fs
  ∧ events (Upload.getThumbnail Upload.audioFile fs) = []
  ∧ ((value (Upload.getThumbnail Upload.audioFile fs)).1 = EmptyString
     ∧ (value (Upload.getThumbnail Upload.audioFile fs)).2
       = Some (errorString "thumbnail not found")
     ∧ lookupFile fs "audio.mp3.jpg" = None
     ∧ lookupFile fs "audio.mp3.webp" = None
     ∨ (value (Upload.getThumbnail Upload.audioFile fs)).2 = None
       ∧ ((value (Upload.getThumbnail Upload.audioFile fs)).1 = "audio.mp3.jpg"
          ∨ (value (Upload.getThumbnail Upload.audioFile fs)).1 = "audio.mp3.webp")).
Proof.
  unfold Upload.getThumbnail. simpl. unfold os.Stat. monad_step.
  repeat (case_match; monad_step); (split; [done|]); (split; [done|]);
    first [left; by repeat split | right; split; [done|]; auto].
Qed.

Lemma Upload_saveData_spec env filename data fs :
  (∀ p, p ≠ filename →
        files (Upload.saveData env filename data fs) !! p = fs !! p)
  ∧ Forall (fun ev => ev = Created filename)
           (events (Upload.saveData env filename data fs)).
Proof.
  unfold Upload.saveData, os.Create, os.Write. monad_step.
  repeat (case_match; monad_step); simplify_eq/=;
    (split; [intros p Hp; by rewrite ?lookup_insert_ne | repeat constructor]).
Qed.

Lemma Do_unfold request answer fs :
  Do request answer fs = mkOut answer fs [request].
Proof. done. Qed.

Lemma Upload_addFileToWriter_eq env fieldName filePath fs :
  Upload.addFileToWriter env fieldName filePath fs
  = mkOut (match openFault env filePath with
           | Some e => Err e
           | None =>
             match lookupFile fs filePath with
             | None => Err (ErrNotExist "open" filePath)
             | Some c =>
               match readFault env filePath with
               | Some (_, e) => Err e
               | None => Ok (FormFile fieldName filePath c)
               end
             end
           end) fs [].
Proof.
  unfold Upload.addFileToWriter, os.Open. monad_step.
  destruct (openFault env filePath); [done|].
  destruct (lookupFile fs filePath); [|done].
  cbn [value files events]. by destruct (readFault env filePath) as [[n e]|].
Qed.

Lemma Remove_fails env name fs c e :
  lookupFile fs name = Some c → removeFault env name = Some e →
  os.Remove env name fs = mkOut (Some e) fs [].
Proof. intros Hl Hf. unfold os.Remove. by rewrite Hl, Hf. Qed.

Lemma Remove_ok env name fs c :
  lookupFile fs name = Some c → removeFault env name = None →
  os.Remove env name fs = mkOut None (delete name fs) [Removed name].
Proof. intros Hl Hf. unfold os.Remove. by rewrite Hl, Hf. Qed.

(** What [sendAudio] of the upload-flag variant does: it fails before the
    request, or after a request that Telegram did not answer with status 200,
    or it fails to remove the audio file, or it removes the audio file and
    then tries to remove the thumbnail. *)
Lemma Upload_sendAudio_spec env token chatID filePath title performer thumbnail fs :
  (events (Upload.sendAudio env token chatID filePath title performer thumbnail fs) = []
   ∧ files (Upload.sendAudio env token chatID filePath title performer thumbnail fs) = fs
   ∧ value (Upload.sendAudio env token chatID filePath title performer thumbnail fs)
     ≠ None)
  ∨ ∃ form,
      (∀ name c, FormFile "thumbnail" name c ∈ form →
                 thumbnail ≠ EmptyString ∧ name = thumbnail)
      ∧ ((events (Upload.sendAudio env token chatID filePath title performer
                    thumbnail fs)
          = [TelegramRequest ("https://api.telegram.org/bot" +:+ token
                              +:+ "/sendAudio") form]
          ∧ files (Upload.sendAudio env token chatID filePath title performer
                     thumbnail fs) = fs
          ∧ value (Upload.sendAudio env token chatID filePath title performer
                     thumbnail fs) ≠ None
          ∧ ∀ resp, telegram env = reply resp → StatusCode resp = 200%Z →
              removeFault env filePath ≠ None)
         ∨ (∃ resp c,
              telegram env = reply resp ∧ StatusCode resp = 200%Z
              ∧ lookupFile fs filePath = Some c
              ∧ removeFault env filePath = None
              ∧ Upload.sendAudio env token chatID filePath title performer thumbnail fs
                = mkOut (value (os.Remove env thumbnail (delete filePath fs)))
                        (files (os.Remove env thumbnail (delete filePath fs)))
                        (TelegramRequest ("https://api.telegram.org/bot" +:+ token
                                          +:+ "/sendAudio") form
                         :: Removed filePath
                         :: events (os.Remove env thumbnail (delete filePath fs))))).
Proof.
  unfold Upload.sendAudio. rewrite bind_unfold, Upload_addFileToWriter_eq.
  cbv beta iota.
  destruct (openFault env filePath) eqn:Hof; run; [by left|].
  destruct (lookupFile fs filePath) as [c|] eqn:Hlf; run; [|by left].
  destruct (readFault env filePath) as [[n0 e0]|] eqn:Hrf; run; [by left|].
  assert (Hth : ∃ r : result (list Part),
            (if bool_decide (thumbnail ≠ EmptyString)
             then let* p := Upload.addFileToWriter env "thumbnail" thumbnail
                  in match p with
                     | Ok part => ret (Ok [part])
                     | Err e => ret (Err e)
                     end
             else ret (Ok [])) fs = mkOut r fs []
            ∧ ∀ l, r = Ok l → ∀ name c', FormFile "thumbnail" name c' ∈ l →
                thumbnail ≠ EmptyString ∧ name = thumbnail).
  { case_bool_decide.
    - rewrite bind_unfold, Upload_addFileToWriter_eq. cbv beta iota.
      repeat case_match; run; eexists; (split; [done|]);
        intros l [= <-] name c' Hin; try done;
        apply list_elem_of_singleton in Hin; by simplify_eq.
    - eexists. split; [done|]. intros l [= <-] name c' Hin.
      by apply elem_of_nil in Hin. }
  destruct Hth as (r & -> & Hr). cbv beta iota.
  destruct r as [thumbPart|e]; run; [|by left].
  specialize (Hr thumbPart eq_refl).
  destruct (requestFault env _) eqn:Hrq; run; [by left|].
  right.
  exists (FormFile "audio" filePath c :: thumbPart
          ++ [FormField "chat_id" chatID; FormField "title" title;
              FormField "performer" performer]).
  split.
  { intros name c' Hin. apply elem_of_cons in Hin as [Hin|Hin]; [discriminate|].
    apply elem_of_app in Hin as [Hin|Hin]; [by eapply Hr|].
    repeat (rewrite elem_of_cons in Hin). destruct_or!; try discriminate.
    by apply elem_of_nil in Hin. }
  destruct (telegram env) as [e|resp] eqn:Htg; rewrite Do_unfold; run.
  { left. repeat split; try done. }
  case_bool_decide as Hst; run.
  { left. repeat split; try done. intros resp' [= <-]. done. }
  destruct (removeFault env filePath) as [e|] eqn:Hrm.
  { rewrite (Remove_fails env filePath fs c e) by done. run.
    left. repeat split; try done. }
  rewrite (Remove_ok env filePath fs c) by done. run.
  right. exists resp, c. split; [done|]. split; [first [done | by apply dec_stable]|].
  split; [done|]. split; [done|].
  destruct (os.Remove env thumbnail (delete filePath fs)) as [[e|] f ev]; run;
    cbn [value files events]; simpl; by rewrite app_nil_r.
Qed.

(** The cycle of the upload-flag variant, call by call. *)
Lemma Upload_cycle lib getenv env botToken chatID upload fs :
  Upload.processCurrentPlayingSong lib getenv env botToken chatID upload fs
  = let q := Upload.getCurrentPlaying lib getenv env fs in
    match value q with
    | Err e => mkOut (Returned (Some e)) fs (events q)
    | Ok song =>
      let artists := Upload.getArtists (Artists song) in
      let key := Name song +:+ " - " +:+ artists in
      let pre0 := events q ++ [LogLine key] in
      if bool_decide (upload = "true") then
        match value (Upload.loadData env Upload.dataFile fs) with
        | Err e =>
          mkOut (Returned (Some (wrapError "failed to load data: " e))) fs pre0
        | Ok dataMap =>
          if Upload.index dataMap key then
            mkOut (Returned None) fs
                  (pre0 ++ [LogLine ("Song '" +:+ key +:+
                       "' already exists in the database. Skipping download.")])
          else
            let d := Upload.downloadFromYouTube env (Name song) artists fs in
            let pre := pre0 ++ [LogLine ("Downloading: " +:+ key)] ++ events d in
            match value d with
            | Some e =>
              mkOut (Returned (Some (wrapError "failed to download from YouTube: " e)))
                    (files d) pre
            | None =>
              let th := value (Upload.getThumbnail Upload.audioFile (files d)) in
              let s := Upload.sendAudio env botToken chatID Upload.audioFile
                         (Name song) artists th.1 (files d) in
              let pre2 := pre ++ logged "failed to get thumbnail: " th.2
                          ++ [LogLine ("Uploading to Telegram: " +:+ key)]
                          ++ events s in
              match value s with
              | Some e =>
                mkOut (Returned (Some (wrapError "failed to upload to Telegram: " e)))
                      (files s) pre2
              | None =>
                match dataMap with
                | None =>
                  mkOut (Panicked "assignment to entry in nil map") (files s) pre2
                | Some m =>
                  let v := Upload.saveData env Upload.dataFile
                             (Some (<[key := true]> m)) (files s) in
                  mkOut (Returned None) (files v)
                        (pre2 ++ events v
                         ++ logged "failed to save data: " (value v))
                end
              end
            end
        end
      else mkOut (Returned None) fs pre0
    end.
Proof.
  unfold Upload.processCurrentPlayingSong. cbv zeta. run.
  destruct (Upload_getCurrentPlaying_frame lib getenv env fs) as [Hqf _].
  destruct (Upload.getCurrentPlaying lib getenv env fs) as [q f0 eq].
  cbn [value files events] in *. subst f0.
  destruct q as [song|e0]; run; [|by rewrite app_nil_r].
  case_bool_decide; run; [|fin].
  destruct (Upload_loadData_frame env Upload.dataFile fs) as [Hlf Hle].
  destruct (Upload.loadData env Upload.dataFile fs) as [l f0 el].
  cbn [value files events] in *. subst f0 el.
  destruct l as [dataMap|e]; run; [|fin].
  destruct (Upload.index dataMap _); run; [fin|].
  destruct (Upload.downloadFromYouTube env (Name song)
              (Upload.getArtists (Artists song)) fs) as [d f1 ed].
  cbn [value files events].
  destruct d as [e|]; run; [fin|].
  destruct (Upload_getThumbnail_spec f1) as (Htf & Hte & _).
  destruct (Upload.getThumbnail Upload.audioFile f1) as [th f2 et].
  cbn [value files events] in *. subst f2 et.
  destruct th as [th [terr|]]; cbn [fst snd logged] in *; run.
  all: destruct (Upload.sendAudio env botToken chatID Upload.audioFile (Name song)
              (Upload.getArtists (Artists song)) th f1) as [s f3 es];
    cbn [value files events] in *;
    (destruct s as [e|]; run; [fin|]);
    (destruct dataMap as [m|]; run; [|fin]);
    destruct (Upload.saveData env Upload.dataFile _ f3) as [v f4 ev];
    cbn [value files events];
    destruct v as [e|]; cbn [logged]; run; fin.
Qed.

(** With the upload flag set, a song whose key data.json maps to true is
    skipped: no error, the files as before, and nothing downloaded,
    published or created. *)
Theorem Upload_known_song_skipped lib getenv env botToken chatID fs song dataMap :
  value (Upload.getCurrentPlaying lib getenv env fs) = Ok song →
  value (Upload.loadData env Upload.dataFile fs) = Ok dataMap →
  Upload.index dataMap (Name song +:+ " - " +:+ Upload.getArtists (Artists song))
  = true →
  value (Upload.processCurrentPlayingSong lib getenv env botToken chatID "true" fs)
  = Returned None
  ∧ files (Upload.processCurrentPlayingSong lib getenv env botToken chatID "true" fs)
    = fs
  ∧ Forall (fun ev => isDownload ev = false ∧ isPublish ev = false
                      ∧ isCreate ev = false)
           (events (Upload.processCurrentPlayingSong lib getenv env botToken chatID
                      "true" fs)).
Proof.
  intros Hq Hl Hi. rewrite Upload_cycle. cbv zeta. rewrite Hq.
  rewrite bool_decide_eq_true_2 by done. rewrite Hl, Hi.
  cbn [value files events]. split; [done|]. split; [done|].
  destruct (Upload_getCurrentPlaying_frame lib getenv env fs) as [_ Hqe].
  apply spotify_quiet in Hqe. unfold quiet in Hqe.
  set (evq := events _) in *. clearbody evq. forall_events.
Qed.

(** Without the value true in the upload flag a cycle only logs the key:
    nothing is loaded, downloaded, published or saved. *)
Theorem Upload_flag_off lib getenv env botToken chatID upload fs song :
  upload ≠ "true" →
  value (Upload.getCurrentPlaying lib getenv env fs) = Ok song →
  Upload.processCurrentPlayingSong lib getenv env botToken chatID upload fs
  = mkOut (Returned None) fs
          (events (Upload.getCurrentPlaying lib getenv env fs)
           ++ [LogLine (Name song +:+ " - " +:+ Str.Join (Artists song) " ")]).
Proof.
  intros Hu Hq. rewrite Upload_cycle. cbv zeta. rewrite Hq.
  by rewrite bool_decide_eq_false_2 by done.
Qed.

Lemma lookupFile_frame (fs fs' : Files) p :
  fs' !! p = fs !! p → lookupFile fs' p = lookupFile fs p.
Proof. unfold lookupFile. intros ->. done. Qed.

(** What is left after a request that Telegram answered with status 200 *)
Lemma Upload_sendAudio_200 env token chatID filePath title performer thumbnail fs
    url form resp :
  TelegramRequest url form
    ∈ events (Upload.sendAudio env token chatID filePath title performer thumbnail fs) →
  telegram env = reply resp → StatusCode resp = 200%Z →
  removeFault env filePath = None →
  lookupFile (files (Upload.sendAudio env token chatID filePath title performer
                       thumbnail fs)) filePath = None
  ∧ (∀ name c, FormFile "thumbnail" name c ∈ form →
       removeFault env name = None →
       lookupFile (files (Upload.sendAudio env token chatID filePath title performer
                            thumbnail fs)) name = None).
Proof.
  intros Hin Htg Hst Hrm.
  destruct (Upload_sendAudio_spec env token chatID filePath title performer
              thumbnail fs)
    as [(He & _ & _)|(form' & Hform
                      & [(He & _ & _ & Hne)|(r & c & Hr & _ & Hl & _ & Heq)])].
  - rewrite He in Hin. by apply elem_of_nil in Hin.
  - by destruct (Hne resp Htg Hst).
  - rewrite Heq in *. cbn [value files events] in *.
    pose proof (Remove_events env thumbnail (delete filePath fs)) as Hre.
    apply removed_not_publish in Hre.
    assert (form = form') as ->.
    { repeat (rewrite elem_of_cons in Hin).
      destruct Hin as [Hin|[Hin|Hin]]; [by simplify_eq | discriminate|].
      exfalso. revert Hin. by eapply not_in_kind. }
    split.
    + apply Remove_keeps_gone. unfold lookupFile. case_decide; [done|].
      by rewrite lookup_delete_eq.
    + intros name c' Hc Hf. apply Hform in Hc as [_ ->]. by apply Remove_gone.
Qed.

(** After a cycle of the upload-flag variant whose upload request Telegram
    answered with status 200, the audio file does not exist unless its
    removal failed; where that removal did not fail, the thumbnail attached
    to the request does not exist either unless its own removal failed. *)
Theorem Upload_cleanup lib getenv env botToken chatID upload fs url form resp :
  TelegramRequest url form
    ∈ events (Upload.processCurrentPlayingSong lib getenv env botToken chatID
                upload fs) →
  telegram env = reply resp → StatusCode resp = 200%Z →
  removeFault env Upload.audioFile = None →
  lookupFile (files (Upload.processCurrentPlayingSong lib getenv env botToken chatID
                       upload fs)) Upload.audioFile = None
  ∧ ∀ name c, FormFile "thumbnail" name c ∈ form →
      removeFault env name = None →
      lookupFile (files (Upload.processCurrentPlayingSong lib getenv env botToken
                           chatID upload fs)) name = None.
Proof.
  intros Hin Htg Hst Hrm. revert Hin. rewrite Upload_cycle. cbv zeta.
  destruct (Upload_getCurrentPlaying_frame lib getenv env fs) as [_ Hqe].
  apply spotify_not_publish in Hqe.
  set (evq := events (Upload.getCurrentPlaying lib getenv env fs)) in *.
  clearbody evq.
  assert (Hno : ∀ l x, Forall (fun ev => isPublish ev = false) l →
                       TelegramRequest url x ∉ l).
  { intros l x Hl. by eapply not_in_kind. }
  destruct (value (Upload.getCurrentPlaying lib getenv env fs)) as [song|e0];
    cbn [value files events].
  2:{ intros Hin. exfalso. by eapply Hno. }
  set (artists := Upload.getArtists (Artists song)).
  set (key := Name song +:+ " - " +:+ artists).
  case_bool_decide; cbn [value files events].
  2:{ intros Hin. exfalso.
      repeat (rewrite elem_of_app in Hin || rewrite elem_of_cons in Hin).
      destruct_or!; absurd_line Hno. }
  destruct (value (Upload.loadData env Upload.dataFile fs)) as [dataMap|e];
    cbn [value files events].
  2:{ intros Hin. exfalso.
      repeat (rewrite elem_of_app in Hin || rewrite elem_of_cons in Hin).
      destruct_or!; absurd_line Hno. }
  destruct (Upload.index dataMap key); cbn [value files events].
  { intros Hin. exfalso.
    repeat (rewrite elem_of_app in Hin || rewrite elem_of_cons in Hin).
    destruct_or!; absurd_line Hno. }
  destruct (Upload_download_spec env (Name song) artists fs) as (_ & Hde & _).
  rewrite Hde.
  set (f1 := files (Upload.downloadFromYouTube env (Name song) artists fs)) in *.
  clearbody f1.
  destruct (Upload_getThumbnail_spec f1) as (_ & _ & Hth).
  set (th := value (Upload.getThumbnail Upload.audioFile f1)) in *. clearbody th.
  pose proof (logged_not_publish "failed to get thumbnail: " th.2) as Hl1.
  set (l1 := logged _ th.2) in *. clearbody l1.
  destruct (value (Upload.downloadFromYouTube env (Name song) artists fs));
    cbn [value files events].
  { intros Hin. exfalso.
    repeat (rewrite elem_of_app in Hin || rewrite elem_of_cons in Hin).
    destruct_or!; absurd_line Hno. }
  pose proof (Upload_sendAudio_200 env botToken chatID Upload.audioFile (Name song)
                artists th.1 f1 url form resp) as H200.
  set (s := Upload.sendAudio env botToken chatID Upload.audioFile (Name song)
              artists th.1 f1) in *.
  assert (Hthumb : ∀ name c, FormFile "thumbnail" name c ∈ form →
            TelegramRequest url form ∈ events s → name ≠ Upload.dataFile).
  { intros name c Hc Hin.
    destruct (Upload_sendAudio_spec env botToken chatID Upload.audioFile (Name song)
                artists th.1 f1)
      as [(He & _ & _)|(form' & Hform & Hcases)].
    { fold s in He. rewrite He in Hin. by apply elem_of_nil in Hin. }
    assert (form = form') as ->.
    { fold s in Hcases.
      destruct Hcases as [(He & _)|(r & c0 & _ & _ & _ & _ & Heq)].
      - rewrite He in Hin. apply list_elem_of_singleton in Hin. by simplify_eq.
      - rewrite Heq in Hin. cbn [events] in Hin.
        pose proof (Remove_events env th.1 (delete Upload.audioFile f1)) as Hre.
        apply removed_not_publish in Hre.
        repeat (rewrite elem_of_cons in Hin).
        destruct Hin as [Hin|[Hin|Hin]]; [by simplify_eq | discriminate|].
        exfalso. revert Hin. by eapply not_in_kind. }
    apply Hform in Hc as [Hne ->].
    destruct Hth as [(Hth & _)|(_ & [Hth|Hth])]; rewrite Hth in *; done. }
  assert (Hs : TelegramRequest url form ∈ events s →
               lookupFile (files s) Upload.audioFile = None
               ∧ ∀ name c, FormFile "thumbnail" name c ∈ form →
                   removeFault env name = None →
                   lookupFile (files s) name = None).
  { intros Hin. by apply H200. }
  clearbody s.
  destruct (value s); cbn [value files events].
  { intros Hin. apply Hs.
    repeat (rewrite elem_of_app in Hin || rewrite elem_of_cons in Hin).
    destruct_or!; try done; exfalso; absurd_line Hno. }
  destruct dataMap as [m|]; cbn [value files events].
  2:{ intros Hin. apply Hs.
    repeat (rewrite elem_of_app in Hin || rewrite elem_of_cons in Hin).
    destruct_or!; try done; exfalso; absurd_line Hno. }
  destruct (Upload_saveData_spec env Upload.dataFile (Some (<[key:=true]> m))
              (files s)) as [Hvf Hve].
  apply created_not_publish in Hve.
  set (v := Upload.saveData env Upload.dataFile _ (files s)) in *. clearbody v.
  pose proof (logged_not_publish "failed to save data: " (value v)) as Hl2.
  set (l2 := logged _ (value v)) in *. clearbody l2.
  intros Hin.
  assert (Hin' : TelegramRequest url form ∈ events s).
  { repeat (rewrite elem_of_app in Hin || rewrite elem_of_cons in Hin).
    destruct_or!; try done; exfalso; absurd_line Hno. }
  destruct (Hs Hin') as [Ha Ht]. split.
  - rewrite (lookupFile_frame (files s)); [done|]. by apply Hvf.
  - intros name c Hc Hf. rewrite (lookupFile_frame (files s)); [by eapply Ht|].
    apply Hvf. by eapply Hthumb.
Qed.

Lemma Remove_empty env fs :
  os.Remove env EmptyString fs = mkOut (Some (ErrNotExist "remove" EmptyString)) fs [].
Proof. done. Qed.

(** Without a thumbnail [sendAudio] of the upload-flag variant never returns
    nil: where every earlier step succeeds, the removal of the file with the
    empty name fails. *)
Theorem Upload_sendAudio_without_thumbnail env token chatID filePath title performer fs :
  ∃ e, value (Upload.sendAudio env token chatID filePath title performer
                EmptyString fs) = Some e.
Proof.
  destruct (Upload_sendAudio_spec env token chatID filePath title performer
              EmptyString fs)
    as [(_ & _ & Hv)|(form & _ & [(_ & _ & Hv & _)|(r & c & _ & _ & _ & _ & Heq)])].
  - destruct (value _); [by eexists|done].
  - destruct (value _); [by eexists|done].
  - rewrite Heq, Remove_empty. by eexists.
Qed.

Lemma Upload_sendAudio_frame env token chatID filePath title performer thumbnail fs p :
  p ≠ filePath → p ≠ thumbnail ∨ thumbnail = EmptyString →
  files (Upload.sendAudio env token chatID filePath title performer thumbnail fs) !! p
  = fs !! p.
Proof.
  intros Hp Ht.
  destruct (Upload_sendAudio_spec env token chatID filePath title performer
              thumbnail fs)
    as [(_ & -> & _)|(form & _ & [(_ & -> & _)|(r & c & _ & _ & _ & _ & Heq)])];
    [done..|].
  rewrite Heq. cbn [files]. destruct Ht as [Ht| ->].
  - rewrite Remove_frame by done. by rewrite lookup_delete_ne.
  - rewrite Remove_empty. cbn [files]. by rewrite lookup_delete_ne.
Qed.

Lemma Upload_sendAudio_events env token chatID filePath title performer thumbnail fs :
  Forall (fun ev => isDownload ev = false ∧ isCreate ev = false)
         (events (Upload.sendAudio env token chatID filePath title performer
                    thumbnail fs)).
Proof.
  destruct (Upload_sendAudio_spec env token chatID filePath title performer
              thumbnail fs)
    as [(-> & _)|(form & _ & [(-> & _)|(r & c & _ & _ & _ & _ & Heq)])].
  - constructor.
  - by repeat constructor.
  - rewrite Heq. cbn [events]. repeat (constructor; [done|]).
    unfold os.Remove. repeat case_match; by repeat constructor.
Qed.

Lemma Upload_download_coverless env song artists fs :
  thumbnails (ytdlp env) = [] →
  ∀ p, p ≠ Upload.audioFile →
    files (Upload.downloadFromYouTube env song artists fs) !! p = fs !! p.
Proof.
  intros Ht p Hp. unfold Upload.downloadFromYouTube, runYtDlp. cbn [files].
  rewrite Ht. simpl. destruct (audio (ytdlp env)); by rewrite ?lookup_insert_ne.
Qed.

Lemma Upload_getThumbnail_none fs :
  lookupFile fs "audio.mp3.jpg" = None → lookupFile fs "audio.mp3.webp" = None →
  value (Upload.getThumbnail Upload.audioFile fs)
  = (EmptyString, Some (errorString "thumbnail not found")).
Proof.
  intros Hj Hw. unfold Upload.getThumbnail, Upload.firstThumbnail, bind, os.Stat.
  change (Upload.audioFile +:+ ".jpg") with "audio.mp3.jpg".
  change (Upload.audioFile +:+ ".webp") with "audio.mp3.webp".
  rewrite Hj. cbn [value files events]. by rewrite Hw.
Qed.



Lemma Upload_getAccessToken_value lib getenv env fs fs' :
  value (Upload.getAccessToken lib getenv env fs)
  = value (Upload.getAccessToken lib getenv env fs').
Proof.
  unfold Upload.getAccessToken. monad_step.
  repeat (case_match; monad_step); done.
Qed.

Lemma Upload_getCurrentPlaying_value lib getenv env fs fs' :
  value (Upload.getCurrentPlaying lib getenv env fs)
  = value (Upload.getCurrentPlaying lib getenv env fs').
Proof.
  unfold Upload.getCurrentPlaying, bind. cbn [value].
  rewrite (Upload_getAccessToken_value lib getenv env fs fs').
  destruct (value (Upload.getAccessToken lib getenv env fs')); [|done].
  monad_step. repeat (case_match; monad_step); done.
Qed.

Lemma Upload_loadData_value env fs fs' :
  fs' !! Upload.dataFile = fs !! Upload.dataFile →
  value (Upload.loadData env Upload.dataFile fs')
  = value (Upload.loadData env Upload.dataFile fs).
Proof.
  intros H. unfold Upload.loadData, os.Open, bind. cbn [value].
  rewrite (lookupFile_frame fs fs' _ H).
  destruct (openFault env Upload.dataFile); [|destruct (lookupFile fs Upload.dataFile)];
    cbn [value files]; by repeat case_match.
Qed.

Lemma coverless_frame lib getenv fs fs' env :
  fs' !! Upload.dataFile = fs !! Upload.dataFile →
  coverless lib getenv fs env → coverless lib getenv fs' env.
Proof.
  intros H (Hx & Ht & song & dataMap & Hq & Hl & Hi).
  split; [done|]. split; [done|]. exists song, dataMap.
  by rewrite (Upload_getCurrentPlaying_value lib getenv env fs' fs),
             (Upload_loadData_value env fs fs').
Qed.

(** The cycle of a coverless tick, call by call *)
Lemma Upload_coverless_cycle lib getenv env botToken chatID fs :
  coverless lib getenv fs env →
  lookupFile fs "audio.mp3.jpg" = None → lookupFile fs "audio.mp3.webp" = None →
  ∃ e fs' before args after,
    Upload.processCurrentPlayingSong lib getenv env botToken chatID "true" fs
    = mkOut (Returned (Some (wrapError "failed to upload to Telegram: " e))) fs'
            (before ++ Exec "yt-dlp" args :: after)
    ∧ (∀ p, p ≠ Upload.audioFile → fs' !! p = fs !! p)
    ∧ Forall (fun ev => isDownload ev = false ∧ isCreate ev = false) before
    ∧ Forall (fun ev => isDownload ev = false ∧ isCreate ev = false) after.
Proof.
  intros (Hx & Ht & song & dataMap & Hq & Hl & Hi) Hj Hw.
  rewrite Upload_cycle. cbv zeta. rewrite Hq.
  rewrite bool_decide_eq_true_2 by done. rewrite Hl, Hi.
  set (artists := Upload.getArtists (Artists song)).
  destruct (Upload_download_spec env (Name song) artists fs) as (Hdv & Hde & _).
  pose proof (Upload_download_coverless env (Name song) artists fs Ht) as Hdf.
  rewrite Hdv, Hx, Hde.
  set (f1 := files (Upload.downloadFromYouTube env (Name song) artists fs)) in *.
  clearbody f1.
  rewrite Upload_getThumbnail_none
    by (unfold lookupFile in *; simpl in *; by rewrite Hdf).
  cbn [fst snd logged].
  destruct (Upload_sendAudio_without_thumbnail env botToken chatID Upload.audioFile
              (Name song) artists f1) as [e He].
  pose proof (fun p => Upload_sendAudio_frame env botToken chatID Upload.audioFile
                (Name song) artists EmptyString f1 p) as Hsf.
  pose proof (Upload_sendAudio_events env botToken chatID Upload.audioFile
                (Name song) artists EmptyString f1) as Hse.
  destruct (Upload_getCurrentPlaying_frame lib getenv env fs) as [_ Hqe].
  apply spotify_quiet in Hqe.
  set (evq := events (Upload.getCurrentPlaying lib getenv env fs)) in *.
  clearbody evq.
  set (s := Upload.sendAudio env botToken chatID Upload.audioFile (Name song)
              artists EmptyString f1) in *.
  clearbody s. rewrite He. cbn [value files events].
  exists e, (files s),
    (evq ++ [LogLine (Name song +:+ " - " +:+ artists);
             LogLine ("Downloading: " +:+ (Name song +:+ " - " +:+ artists))]),
    ["-x"; "--audio-format"; "mp3"; "--write-thumbnail"; "-o"; Upload.audioFile;
     "ytsearch1:" +:+ (Name song +:+ " " +:+ artists)],
    ([LogLine ("failed to get thumbnail: " +:+ "thumbnail not found");
      LogLine ("Uploading to Telegram: " +:+ (Name song +:+ " - " +:+ artists))]
     ++ events s).
  split; [|split; [|split]].
  - f_equal. rewrite <- !app_assoc. done.
  - intros p Hp. rewrite Hsf by auto. by apply Hdf.
  - apply Forall_app. split; [|by repeat constructor].
    eapply Forall_impl; [exact Hqe|]. by intros ev (? & _ & ?).
  - by repeat (constructor; [done|]).
Qed.
(** A song that yt-dlp delivers without a thumbnail, while no thumbnail
    file of an earlier cycle is on disk, is not recorded: the cycle ends with
    the upload error, data.json is as before and [os.Create] was not
    called. *)
Theorem Upload_coverless_song_not_recorded lib getenv env botToken chatID fs song
    dataMap :
  value (Upload.getCurrentPlaying lib getenv env fs) = Ok song →
  value (Upload.loadData env Upload.dataFile fs) = Ok dataMap →
  Upload.index dataMap (Name song +:+ " - " +:+ Upload.getArtists (Artists song))
  = false →
  exit (ytdlp env) = None → thumbnails (ytdlp env) = [] →
  lookupFile fs "audio.mp3.jpg" = None → lookupFile fs "audio.mp3.webp" = None →
  (∃ e, value (Upload.processCurrentPlayingSong lib getenv env botToken chatID
                 "true" fs)
        = Returned (Some (wrapError "failed to upload to Telegram: " e)))
  ∧ files (Upload.processCurrentPlayingSong lib getenv env botToken chatID "true" fs)
      !! Upload.dataFile = fs !! Upload.dataFile
  ∧ Forall (fun ev => isCreate ev = false)
      (events (Upload.processCurrentPlayingSong lib getenv env botToken chatID
                 "true" fs)).
Proof.
  intros Hq Hl Hi Hx Ht Hj Hw. rewrite Upload_cycle. cbv zeta. rewrite Hq.
  rewrite bool_decide_eq_true_2 by done. rewrite Hl, Hi.
  set (artists := Upload.getArtists (Artists song)).
  destruct (Upload_download_spec env (Name song) artists fs) as (Hdv & Hde & _).
  pose proof (Upload_download_coverless env (Name song) artists fs Ht) as Hdf.
  rewrite Hdv, Hx, Hde.
  set (f1 := files (Upload.downloadFromYouTube env (Name song) artists fs)) in *.
  clearbody f1.
  rewrite Upload_getThumbnail_none
    by (unfold lookupFile in *; simpl in *; by rewrite Hdf).
  cbn [fst snd logged].
  destruct (Upload_sendAudio_without_thumbnail env botToken chatID Upload.audioFile
              (Name song) artists f1) as [e He].
  pose proof (Upload_sendAudio_frame env botToken chatID Upload.audioFile
                (Name song) artists EmptyString f1 Upload.dataFile) as Hsf.
  pose proof (Upload_sendAudio_events env botToken chatID Upload.audioFile
                (Name song) artists EmptyString f1) as Hse.
  destruct (Upload_getCurrentPlaying_frame lib getenv env fs) as [_ Hqe].
  apply spotify_quiet in Hqe.
  set (evq := events (Upload.getCurrentPlaying lib getenv env fs)) in *.
  clearbody evq.
  set (s := Upload.sendAudio env botToken chatID Upload.audioFile (Name song)
              artists EmptyString f1) in *.
  clearbody s. rewrite He. cbn [value files events].
  split; [by eexists|]. split.
  - rewrite Hsf by auto. by apply Hdf.
  - assert (Forall (fun ev => isCreate ev = false) evq).
    { eapply Forall_impl; [exact Hqe|]. by intros ev (_ & _ & ?). }
    assert (Forall (fun ev => isCreate ev = false) (events s)).
    { eapply Forall_impl; [exact Hse|]. by intros ev (_ & ?). }
    simpl. forall_events.
Qed.

Lemma downloads_app l1 l2 : downloads (l1 ++ l2) = downloads l1 + downloads l2.
Proof. unfold downloads. by rewrite List.filter_app, length_app. Qed.

Lemma downloads_none l :
  Forall (fun ev => isDownload ev = false ∧ isCreate ev = false) l →
  downloads l = 0.
Proof.
  unfold downloads. induction 1 as [|ev l [Hd _] _ IH]; [done|].
  simpl. by rewrite Hd.
Qed.

(** While the song playing comes without a thumbnail, and no thumbnail
    file of an earlier cycle is on disk when the loop starts, every tick
    downloads it again: the loop goes on, the downloader runs once per tick
    and data.json stays as it was. *)
Theorem Upload_coverless_song_downloaded_every_tick lib getenv envs botToken chatID fs :
  lookupFile fs "audio.mp3.jpg" = None → lookupFile fs "audio.mp3.webp" = None →
  Forall (coverless lib getenv fs) envs →
  value (Upload.loop lib getenv envs botToken chatID "true" fs) = None
  ∧ downloads (events (Upload.loop lib getenv envs botToken chatID "true" fs))
    = length envs
  ∧ files (Upload.loop lib getenv envs botToken chatID "true" fs) !! Upload.dataFile
    = fs !! Upload.dataFile.
Proof.
  intros Hj Hw Hall. revert fs Hj Hw Hall.
  induction envs as [|env rest IH]; intros fs Hj Hw Hall; [done|].
  apply Forall_cons in Hall as [Henv Hrest].
  destruct (Upload_coverless_cycle lib getenv env botToken chatID fs Henv Hj Hw)
    as (e & fs' & before & args & after & Hc & Hf & Hb & Ha).
  cbn [Upload.loop]. rewrite bind_unfold, Hc. cbv beta iota.
  rewrite bind_unfold, Logf_unfold. cbv beta iota.
  destruct (IH fs') as (Hv & Hn & Hd).
  - unfold lookupFile in *. simpl in *. by rewrite Hf.
  - unfold lookupFile in *. simpl in *. by rewrite Hf.
  - eapply Forall_impl; [exact Hrest|]. intros env'. apply coverless_frame.
    by apply Hf.
  - destruct (Upload.loop lib getenv rest botToken chatID "true" fs')
      as [v f ev]. cbn [value files events] in *.
    split; [done|]. split; [|by rewrite Hd, Hf].
    rewrite !downloads_app. change (downloads (Exec "yt-dlp" args :: after))
      with (S (downloads after)).
    rewrite (downloads_none before), (downloads_none after) by done.
    change (downloads (LogLine ?x :: ev)) with (downloads ev).
    simpl. by rewrite Hn.
Qed.

(** *** Examples *)

Lemma Upload_known_song_skipped_witness :
  value (Upload.processCurrentPlayingSong toyLib environ
           (tick songA audioOnly accepted) "123:abc" "@chat" "true"
           {["data.json" := json.Encode (Some {["Song A - Artist X" := true]})]})
  = Returned None.
Proof.
  refine (proj1 (Upload_known_song_skipped toyLib environ
                   (tick songA audioOnly accepted) "123:abc" "@chat"
                   {["data.json" := json.Encode (Some {["Song A - Artist X" := true]})]}
                   (mkTrack "Song A" ["Artist X"])
                   (Some {["Song A - Artist X" := true]}) _ _ _));
    vm_compute; reflexivity.
Defined.

Lemma Upload_flag_off_witness :
  files (Upload.processCurrentPlayingSong toyLib environ
           (tick songA audioOnly accepted) "123:abc" "@chat" "false" ∅) = ∅.
Proof.
  refine (f_equal files
            (Upload_flag_off toyLib environ (tick songA audioOnly accepted)
               "123:abc" "@chat" "false" ∅ (mkTrack "Song A" ["Artist X"]) _ _)).
  - discriminate.
  - reflexivity.
Defined.

Lemma Upload_cleanup_witness :
  lookupFile (files (Upload.processCurrentPlayingSong toyLib environ
                       (tick songA audioAndCover accepted) "123:abc" "@chat"
                       "true" ∅))
             Upload.audioFile = None.
Proof.
  refine (proj1 (Upload_cleanup toyLib environ (tick songA audioAndCover accepted)
                   "123:abc" "@chat" "true" ∅
                   "https://api.telegram.org/bot123:abc/sendAudio"
                   [FormFile "audio" "audio.mp3" "mp3 bytes";
                    FormFile "thumbnail" "audio.mp3.jpg" "jpg bytes";
                    FormField "chat_id" "@chat"; FormField "title" "Song A";
                    FormField "performer" "Artist X"]
                   (mkResponse 200 "ok") _ _ _ _)).
  - vm_compute. repeat first [apply list_elem_of_here | apply list_elem_of_further].
  - reflexivity.
  - reflexivity.
  - reflexivity.
Defined.

Lemma Upload_coverless_song_not_recorded_witness :
  files (Upload.processCurrentPlayingSong toyLib environ
           (tick songA audioOnly accepted) "123:abc" "@chat" "true" ∅)
    !! Upload.dataFile = None.
Proof.
  refine (proj1 (proj2 (Upload_coverless_song_not_recorded toyLib environ
                   (tick songA audioOnly accepted) "123:abc" "@chat" ∅
                   (mkTrack "Song A" ["Artist X"]) (Some ∅) _ _ _ _ _ _ _)));
    reflexivity.
Defined.

Lemma Upload_coverless_song_downloaded_every_tick_witness :
  downloads (events (Upload.loop toyLib environ
                       [tick songA audioOnly accepted; tick songA audioOnly accepted]
                       "123:abc" "@chat" "true" ∅)) = 2.
Proof.
  refine (proj1 (proj2 (Upload_coverless_song_downloaded_every_tick toyLib environ
                   [tick songA audioOnly accepted; tick songA audioOnly accepted]
                   "123:abc" "@chat" ∅ _ _ _))); try reflexivity.
  repeat apply Forall_cons_2; try apply Forall_nil_2;
    (split; [reflexivity|]; split; [reflexivity|];
     exists (mkTrack "Song A" ["Artist X"]), (Some ∅); repeat split; reflexivity).
Defined.

(** ** UTF-8 *)

#[local] Open Scope N_scope.

Lemma byte_bound c : utf8.byte c < 256.
Proof. apply N_ascii_bounded. Qed.

Lemma byte_inv c : ascii_of_N (utf8.byte c) = c.
Proof. apply ascii_N_embedding. Qed.

Ltac bool_facts :=
  repeat match goal with
  | H : negb _ = true |- _ => apply negb_true_iff in H
  | H : negb _ = false |- _ => apply negb_false_iff in H
  | H : _ || _ = false |- _ => apply orb_false_iff in H as [? ?]
  | H : _ && _ = true |- _ => apply andb_true_iff in H as [? ?]
  | H : _ || _ = true |- _ => apply orb_true_iff in H as [?|?]
  | H : _ && _ = false |- _ => apply andb_false_iff in H as [?|?]
  | H : (_ <? _) = true |- _ => apply N.ltb_lt in H
  | H : (_ <? _) = false |- _ => apply N.ltb_ge in H
  | H : (_ <=? _) = true |- _ => apply N.leb_le in H
  | H : (_ <=? _) = false |- _ => apply N.leb_gt in H
  | H : (_ =? _) = true |- _ => apply N.eqb_eq in H
  | H : (_ =? _) = false |- _ => apply N.eqb_neq in H
  | H : (_ <=? _)%nat = true |- _ => apply Nat.leb_le in H
  | H : (_ <=? _)%nat = false |- _ => apply Nat.leb_gt in H
  end.

(** what the table [first] says of a leading byte it accepts *)
Lemma first_spec b0 sz lo hi :
  utf8.first b0 = Some (sz, lo, hi) →
  0x80 ≤ lo ∧ hi ≤ 0xBF
  ∧ (sz = 2%nat ∧ 0xC2 ≤ b0 < 0xE0 ∧ lo = 0x80
     ∨ sz = 3%nat ∧ 0xE0 ≤ b0 < 0xF0 ∧ (b0 = 0xE0 → lo = 0xA0)
       ∧ (b0 = 0xED → hi = 0x9F)
     ∨ sz = 4%nat ∧ 0xF0 ≤ b0 ≤ 0xF4 ∧ (b0 = 0xF0 → lo = 0x90)
       ∧ (b0 = 0xF4 → hi = 0x8F)).
Proof.
  unfold utf8.first. intros H.
  repeat case_match; simplify_eq; bool_facts; (split; [lia|]); (split; [lia|]);
    first [left; lia | right; left; lia | right; right; lia].
Qed.

Ltac bool_eval :=
  repeat match goal with
  | |- context [?a <? ?b] =>
      first [rewrite (proj2 (N.ltb_lt a b)) by lia
            | rewrite (proj2 (N.ltb_ge a b)) by lia]
  | |- context [?a <=? ?b] =>
      first [rewrite (proj2 (N.leb_le a b)) by lia
            | rewrite (proj2 (N.leb_gt a b)) by lia]
  | |- context [?a =? ?b] =>
      first [rewrite (proj2 (N.eqb_eq a b)) by lia
            | rewrite (proj2 (N.eqb_neq a b)) by lia]
  end.

Lemma join2 a b : b < 64 →
  (a * 64 + b) / 64 = a ∧ (a * 64 + b) mod 64 = b.
Proof.
  intros Hb. split.
  - symmetry. apply (N.div_unique _ 64 a b); lia.
  - symmetry. apply (N.mod_unique _ 64 a b); lia.
Qed.

Lemma join3 a b c : b < 64 → c < 64 →
  (a * 4096 + b * 64 + c) / 4096 = a
  ∧ ((a * 4096 + b * 64 + c) / 64) mod 64 = b
  ∧ (a * 4096 + b * 64 + c) mod 64 = c.
Proof.
  intros Hb Hc. split; [|split].
  - symmetry. apply (N.div_unique _ 4096 a (b * 64 + c)); lia.
  - replace (a * 4096 + b * 64 + c) with ((a * 64 + b) * 64 + c) by lia.
    rewrite (proj1 (join2 _ c Hc)). by apply join2.
  - replace (a * 4096 + b * 64 + c) with ((a * 64 + b) * 64 + c) by lia.
    by apply join2.
Qed.

Lemma join4 a b c d : b < 64 → c < 64 → d < 64 →
  (a * 262144 + b * 4096 + c * 64 + d) / 262144 = a
  ∧ ((a * 262144 + b * 4096 + c * 64 + d) / 4096) mod 64 = b
  ∧ ((a * 262144 + b * 4096 + c * 64 + d) / 64) mod 64 = c
  ∧ (a * 262144 + b * 4096 + c * 64 + d) mod 64 = d.
Proof.
  intros Hb Hc Hd.
  replace (a * 262144 + b * 4096 + c * 64 + d)
    with ((a * 64 + b) * 4096 + c * 64 + d) by lia.
  destruct (join3 (a * 64 + b) c d Hc Hd) as (H1 & H2 & H3).
  split; [|split; [|split]]; [| |done|done].
  - symmetry.
    apply (N.div_unique _ 262144 a (b * 4096 + c * 64 + d)); lia.
  - rewrite H1. by apply join2.
Qed.

(** The three ways [DecodeRune] reads a rune: an ASCII byte, an undecodable
    byte, or a sequence of two to four bytes that [EncodeRune] gives back. *)
Lemma DecodeRune_cases c0 p1 r size :
  utf8.DecodeRune (c0 :: p1) = (r, size) →
  (size = 1%nat ∧ r = utf8.byte c0 ∧ r < 0x80)
  ∨ (size = 1%nat ∧ r = utf8.RuneError)
  ∨ ((2 ≤ size ≤ length (c0 :: p1))%nat ∧ 0x80 ≤ r
     ∧ utf8.EncodeRune r = take size (c0 :: p1)
     ∧ Forall (fun c => 0x80 ≤ utf8.byte c) (take size (c0 :: p1))
     ∧ ∀ rest, utf8.DecodeRune (take size (c0 :: p1) ++ rest) = (r, size)).
Proof.
  unfold utf8.DecodeRune, utf8.RuneSelf.
  pose proof (byte_bound c0) as B0.
  destruct (utf8.byte c0 <? 128) eqn:H0.
  { intros [= <- <-]. left. bool_facts. done. }
  destruct (utf8.first (utf8.byte c0)) as [[[sz lo] hi]|] eqn:Hf;
    [|intros [= <- <-]; right; left; done].
  destruct p1 as [|c1 p2]; [intros [= <- <-]; right; left; done|].
  pose proof (byte_bound c1) as B1.
  destruct ((utf8.byte c1 <? lo) || (hi <? utf8.byte c1)) eqn:H1;
    [intros [= <- <-]; right; left; done|].
  pose proof (first_spec _ _ _ _ Hf) as (Hlo & Hhi & Hsz).
  pose proof (eq_sym H0) as K0. pose proof (eq_sym H1) as K1. bool_facts.
  destruct (sz <=? 2)%nat eqn:Hs2.
  { intros [= <- <-]. right; right. pose proof (eq_sym Hs2) as Ks2. bool_facts.
    destruct Hsz as [(-> & Hb & ->)|[(-> & _)|(-> & _)]]; [|lia..].
    destruct (join2 (utf8.byte c0 - 192) (utf8.byte c1 - 128)) as [Hd Hm]; [lia|].
    split; [simpl; lia|]. split; [lia|]. split; [|split].
    - unfold utf8.EncodeRune, utf8.MaxRune. bool_eval. rewrite Hd, Hm. simpl take.
      f_equal; [|f_equal]; rewrite <- byte_inv; f_equal; lia.
    - simpl. repeat constructor; lia.
    - intros rest. simpl. unfold utf8.RuneSelf. by rewrite <- K0, Hf, <- K1, <- Ks2. }
  pose proof (eq_sym Hs2) as Ks2.
  destruct p2 as [|c2 p3]; [intros [= <- <-]; right; left; done|].
  pose proof (byte_bound c2) as B2.
  destruct (negb (utf8.cont (utf8.byte c2))) eqn:Hc2;
    [intros [= <- <-]; right; left; done|].
  pose proof (eq_sym Hc2) as K2. unfold utf8.cont in Hc2. bool_facts.
  destruct (sz <=? 3)%nat eqn:Hs3.
  { intros [= <- <-]. right; right. pose proof (eq_sym Hs3) as Ks3. bool_facts.
    destruct Hsz as [(-> & _)|[(-> & Hb & Hl & Hh)|(-> & _)]]; [lia| |lia].
    destruct (join3 (utf8.byte c0 - 224) (utf8.byte c1 - 128) (utf8.byte c2 - 128))
      as (Hd1 & Hd2 & Hm); [lia..|].
    assert (utf8.byte c0 = 224 → 160 ≤ utf8.byte c1) by (intros ?; lia).
    assert (utf8.byte c0 = 237 → utf8.byte c1 ≤ 159) by (intros ?; lia).
    split; [simpl; lia|]. split; [lia|]. split; [|split].
    - unfold utf8.EncodeRune, utf8.MaxRune.
      assert (2048 ≤ (utf8.byte c0 - 224) * 4096 + (utf8.byte c1 - 128) * 64
                       + (utf8.byte c2 - 128)) by lia.
      assert ((utf8.byte c0 - 224) * 4096 + (utf8.byte c1 - 128) * 64
                       + (utf8.byte c2 - 128) ≤ 65535) by lia.
      assert ((utf8.byte c0 - 224) * 4096 + (utf8.byte c1 - 128) * 64
                       + (utf8.byte c2 - 128) < 55296
              ∨ 57343 < (utf8.byte c0 - 224) * 4096 + (utf8.byte c1 - 128) * 64
                       + (utf8.byte c2 - 128)) as Hsur by lia.
      set (r := (utf8.byte c0 - 224) * 4096 + (utf8.byte c1 - 128) * 64
                       + (utf8.byte c2 - 128)) in *.
      replace (r <=? 127) with false by (symmetry; apply N.leb_gt; lia).
      replace (r <=? 2047) with false by (symmetry; apply N.leb_gt; lia).
      replace (1114111 <? r) with false by (symmetry; apply N.ltb_ge; lia).
      replace ((55296 <=? r) && (r <=? 57343)) with false.
      2:{ symmetry. apply andb_false_iff.
          destruct Hsur; [left; apply N.leb_gt|right; apply N.leb_gt]; lia. }
      replace (r <=? 65535) with true by (symmetry; apply N.leb_le; lia).
      simpl orb. cbv iota. rewrite Hd1, Hd2, Hm. simpl take.
      f_equal; [|f_equal; [|f_equal]]; rewrite <- byte_inv; f_equal; lia.
    - simpl. repeat constructor; lia.
    - intros rest. simpl. unfold utf8.RuneSelf.
      by rewrite <- K0, Hf, <- K1, <- Ks2, <- K2, <- Ks3. }
  pose proof (eq_sym Hs3) as Ks3.
  destruct p3 as [|c3 p4]; [intros [= <- <-]; right; left; done|].
  pose proof (byte_bound c3) as B3.
  destruct (negb (utf8.cont (utf8.byte c3))) eqn:Hc3;
    [intros [= <- <-]; right; left; done|].
  pose proof (eq_sym Hc3) as K3. unfold utf8.cont in Hc3. bool_facts.
  intros [= <- <-]. right; right.
  destruct Hsz as [(-> & _)|[(-> & _)|(-> & Hb & Hl & Hh)]]; [done..|].
  destruct (join4 (utf8.byte c0 - 240) (utf8.byte c1 - 128) (utf8.byte c2 - 128)
              (utf8.byte c3 - 128)) as (Hd1 & Hd2 & Hd3 & Hm); [lia..|].
  assert (utf8.byte c0 = 240 → 144 ≤ utf8.byte c1) by (intros ?; lia).
  assert (utf8.byte c0 = 244 → utf8.byte c1 ≤ 143) by (intros ?; lia).
  split; [simpl; lia|]. split; [lia|]. split; [|split].
  - unfold utf8.EncodeRune, utf8.MaxRune.
    assert (65536 ≤ (utf8.byte c0 - 240) * 262144 + (utf8.byte c1 - 128) * 4096
                     + (utf8.byte c2 - 128) * 64 + (utf8.byte c3 - 128)) by lia.
    assert ((utf8.byte c0 - 240) * 262144 + (utf8.byte c1 - 128) * 4096
                     + (utf8.byte c2 - 128) * 64 + (utf8.byte c3 - 128) ≤ 1114111)
      by lia.
    set (r := (utf8.byte c0 - 240) * 262144 + (utf8.byte c1 - 128) * 4096
                     + (utf8.byte c2 - 128) * 64 + (utf8.byte c3 - 128)) in *.
    replace (r <=? 127) with false by (symmetry; apply N.leb_gt; lia).
    replace (r <=? 2047) with false by (symmetry; apply N.leb_gt; lia).
    replace (1114111 <? r) with false by (symmetry; apply N.ltb_ge; lia).
    replace (r <=? 57343) with false by (symmetry; apply N.leb_gt; lia).
    replace (r <=? 65535) with false by (symmetry; apply N.leb_gt; lia).
    rewrite andb_false_r. simpl orb. cbv iota. rewrite Hd1, Hd2, Hd3, Hm. simpl take.
    f_equal; [|f_equal; [|f_equal; [|f_equal]]]; rewrite <- byte_inv; f_equal; lia.
  - simpl. repeat constructor; lia.
  - intros rest. simpl. unfold utf8.RuneSelf.
    by rewrite <- K0, Hf, <- K1, <- Ks2, <- K2, <- Ks3, <- K3.
Qed.


Lemma runesFrom_skip k p : utf8.runesFrom k p = utf8.runesFrom 0 (drop k p).
Proof.
  revert k. induction p as [|c p IH]; intros [|k]; try done.
  cbn [utf8.runesFrom drop]. apply IH.
Qed.

Lemma runes_cons c0 p1 r size :
  utf8.DecodeRune (c0 :: p1) = (r, size) →
  (1 ≤ size ≤ length (c0 :: p1))%nat
  ∧ utf8.runes (c0 :: p1)
    = (r, take size (c0 :: p1)) :: utf8.runes (drop size (c0 :: p1)).
Proof.
  intros H.
  assert (Hs : (1 ≤ size ≤ length (c0 :: p1))%nat).
  { destruct (DecodeRune_cases _ _ _ _ H) as [(-> & _)|[(-> & _)|(Hs & _)]];
      simpl in *; lia. }
  split; [done|]. unfold utf8.runes. cbn [utf8.runesFrom]. rewrite H.
  rewrite runesFrom_skip. destruct size as [|k]; [lia|].
  by rewrite Nat.sub_succ, Nat.sub_0_r.
Qed.

Lemma unquoteFrom_skip k s : json.unquoteFrom k s = json.unquoteFrom 0 (drop k s).
Proof.
  revert k. induction s as [|c s IH]; intros [|k]; try done.
  cbn [json.unquoteFrom drop]. apply IH.
Qed.

Lemma quoteBody_cons c0 p1 r size :
  utf8.DecodeRune (c0 :: p1) = (r, size) →
  json.quoteBody (c0 :: p1)
  = json.quoteRune (r, take size (c0 :: p1))
    ++ json.quoteBody (drop size (c0 :: p1)).
Proof.
  intros H. unfold json.quoteBody.
  by rewrite (proj2 (runes_cons _ _ _ _ H)).
Qed.

(** *** One rune through the encoder, the scanner and the decoder *)

Lemma unquote_ascii c rest :
  utf8.byte c < 0x80 →
  json.unquoteFrom 0 (json.quoteRune (utf8.byte c, [c]) ++ rest)
  = (c ::.) <$> json.unquoteFrom 0 rest.
Proof.
  intros H.
  destruct c as [[] [] [] [] [] [] [] []]; first [reflexivity | by vm_compute in H].
Qed.

Lemma scan_ascii en m raw c rest :
  utf8.byte c < 0x80 →
  json.scan en (json.sInKey m raw) (json.quoteRune (utf8.byte c, [c]) ++ rest)
  = json.scan en (json.sInKey m (rev (json.quoteRune (utf8.byte c, [c])) ++ raw)) rest.
Proof.
  intros H.
  destruct c as [[] [] [] [] [] [] [] []]; first [reflexivity | by vm_compute in H].
Qed.

Lemma high_not c0 c :
  0x80 ≤ utf8.byte c0 → utf8.byte c < 0x80 → Ascii.eqb c0 c = false.
Proof. intros H0 H. apply Ascii.eqb_neq. intros ->. lia. Qed.

Lemma scan_high en m raw l rest :
  Forall (fun c => 0x80 ≤ utf8.byte c) l →
  json.scan en (json.sInKey m raw) (l ++ rest)
  = json.scan en (json.sInKey m (rev l ++ raw)) rest.
Proof.
  intros H. revert raw. induction H as [|c l Hc _ IH]; intros raw; [done|].
  cbn [app json.scan].
  rewrite (high_not c json.quote), (high_not c json.backslash)
    by first [done | by vm_compute].
  replace (utf8.byte c <? 32) with false by (symmetry; apply N.ltb_ge; lia).
  rewrite IH. simpl rev. by rewrite <- app_assoc.
Qed.

Section rune.

Variables (r : N) (src : list ascii).
Hypothesis Hr : 0x80 ≤ r.
Hypothesis Hsrc : utf8.EncodeRune r = src.
Hypothesis Hhigh : Forall (fun c => 0x80 ≤ utf8.byte c) src.

Lemma quoteRune_high :
  json.quoteRune (r, src)
  = if utf8.invalid (r, src)
    then [json.backslash; "u"; "f"; "f"; "f"; "d"]%char
    else if (r =? 0x2028) || (r =? 0x2029)
         then [json.backslash; "u"; "2"; "0"; "2"; json.hex (r mod 16)]%char
         else src.
Proof.
  unfold json.quoteRune, utf8.RuneSelf.
  by replace (r <? 128) with false by (symmetry; apply N.ltb_ge; lia).
Qed.

Lemma scan_rune_high en m raw rest :
  json.scan en (json.sInKey m raw) (json.quoteRune (r, src) ++ rest)
  = json.scan en (json.sInKey m (rev (json.quoteRune (r, src)) ++ raw)) rest.
Proof.
  rewrite quoteRune_high. destruct (utf8.invalid (r, src)); [reflexivity|].
  destruct (r =? 0x2028) eqn:H1; [apply N.eqb_eq in H1; by subst r|].
  destruct (r =? 0x2029) eqn:H2; [apply N.eqb_eq in H2; by subst r|].
  by apply scan_high.
Qed.

Hypothesis Hvalid : utf8.invalid (r, src) = false.
Hypothesis Hdec : ∀ rest, utf8.DecodeRune (src ++ rest) = (r, length src).

Lemma unquote_rune_high rest :
  json.unquoteFrom 0 (json.quoteRune (r, src) ++ rest)
  = (src ++.) <$> json.unquoteFrom 0 rest.
Proof.
  rewrite quoteRune_high, Hvalid.
  destruct (r =? 0x2028) eqn:H1.
  { apply N.eqb_eq in H1. rewrite <- Hsrc. by subst r. }
  destruct (r =? 0x2029) eqn:H2.
  { apply N.eqb_eq in H2. rewrite <- Hsrc. by subst r. }
  cbv [orb]. cbv iota.
  destruct src as [|c0 src'] eqn:Hs.
  { specialize (Hdec []). simpl in Hdec. by injection Hdec as <-. }
  apply Forall_cons in Hhigh as [Hc0 _].
  change ((c0 :: src') ++ rest) with (c0 :: (src' ++ rest)).
  cbn [json.unquoteFrom].
  rewrite (high_not c0 json.quote), (high_not c0 json.backslash)
    by first [done | by vm_compute].
  unfold utf8.RuneSelf.
  replace (utf8.byte c0 <? 32) with false by (symmetry; apply N.ltb_ge; lia).
  replace (utf8.byte c0 <? 128) with false by (symmetry; apply N.ltb_ge; lia).
  cbv [orb]. cbv iota.
  change (c0 :: src' ++ rest) with ((c0 :: src') ++ rest). rewrite Hdec.
  rewrite unquoteFrom_skip. cbn [length]. rewrite Nat.sub_succ, Nat.sub_0_r.
  rewrite drop_app_length. by rewrite Hsrc.
Qed.

End rune.

(** *** A whole key *)

Lemma scan_quoteBody en m raw p rest :
  json.scan en (json.sInKey m raw) (json.quoteBody p ++ rest)
  = json.scan en (json.sInKey m (rev (json.quoteBody p) ++ raw)) rest.
Proof.
  remember (length p) as n eqn:Hn. revert p Hn raw.
  induction n as [n IH] using lt_wf_ind. intros p Hn raw.
  destruct p as [|c0 p1]; [done|].
  destruct (utf8.DecodeRune (c0 :: p1)) as [r size] eqn:Hd.
  destruct (runes_cons _ _ _ _ Hd) as [Hsize _].
  rewrite (quoteBody_cons _ _ _ _ Hd), <- app_assoc.
  assert (Hstep : ∀ raw' rest',
    json.scan en (json.sInKey m raw')
      (json.quoteRune (r, take size (c0 :: p1)) ++ rest')
    = json.scan en (json.sInKey m
        (rev (json.quoteRune (r, take size (c0 :: p1))) ++ raw')) rest').
  { intros raw' rest'.
    destruct (DecodeRune_cases _ _ _ _ Hd)
      as [(-> & -> & Hlt)|[(-> & ->)|(_ & Hr & Henc & Hhigh & _)]].
    - by apply scan_ascii.
    - reflexivity.
    - by apply scan_rune_high. }
  rewrite Hstep.
  rewrite (IH (length (drop size (c0 :: p1)))); [|rewrite length_drop; simpl in *; lia|done].
  by rewrite rev_app_distr, <- app_assoc.
Qed.

Lemma unquote_quoteBody p :
  forallb (fun ch => negb (utf8.invalid ch)) (utf8.runes p) = true →
  json.unquoteFrom 0 (json.quoteBody p) = Some p.
Proof.
  remember (length p) as n eqn:Hn. revert p Hn.
  induction n as [n IH] using lt_wf_ind. intros p Hn Hv.
  destruct p as [|c0 p1]; [done|].
  destruct (utf8.DecodeRune (c0 :: p1)) as [r size] eqn:Hd.
  destruct (runes_cons _ _ _ _ Hd) as [Hsize Hrunes].
  rewrite Hrunes in Hv. cbn [forallb] in Hv.
  apply andb_true_iff in Hv as [Hv1 Hv2]. apply negb_true_iff in Hv1.
  rewrite (quoteBody_cons _ _ _ _ Hd).
  assert (Hstep : ∀ rest,
    json.unquoteFrom 0 (json.quoteRune (r, take size (c0 :: p1)) ++ rest)
    = (take size (c0 :: p1) ++.) <$> json.unquoteFrom 0 rest).
  { intros rest.
    destruct (DecodeRune_cases _ _ _ _ Hd)
      as [(-> & -> & Hlt)|[(-> & ->)|(Hs2 & Hr & Henc & Hhigh & Hdec)]].
    - by apply unquote_ascii.
    - done.
    - apply unquote_rune_high; try done.
      intros rest'. rewrite Hdec. f_equal. rewrite length_take. lia. }
  rewrite Hstep.
  rewrite (IH (length (drop size (c0 :: p1)))); [|rewrite length_drop; simpl in *; lia|done..].
  cbn [fmap option_fmap option_map]. by rewrite take_drop.
Qed.

Lemma bytes_ofBytes l : Str.bytes (Str.ofBytes l) = l.
Proof. apply list_ascii_of_string_of_list_ascii. Qed.

Lemma ofBytes_bytes s : Str.ofBytes (Str.bytes s) = s.
Proof. apply string_of_list_ascii_of_string. Qed.

(** The scanner reads an encoded key back when the key is valid UTF-8. *)
Lemma scan_key en first m k rest :
  utf8.ValidString k = true →
  json.scan en (json.sBeginKey first m) (json.appendString k ++ rest)
  = json.scan en (json.sColon m k) rest.
Proof.
  intros Hv. unfold json.appendString.
  change ((json.quote :: ?l) ++ rest) with (json.quote :: (l ++ rest)).
  cbn [json.scan]. change (json.isSpace json.quote) with false.
  change (Ascii.eqb json.quote json.quote) with true. cbv iota.
  rewrite <- app_assoc, scan_quoteBody. cbn [app json.scan].
  change (Ascii.eqb json.quote json.quote) with true. cbv iota.
  rewrite app_nil_r, rev_involutive. unfold json.unquote.
  rewrite unquote_quoteBody by done. cbn [fmap option_fmap option_map].
  by rewrite ofBytes_bytes.
Qed.

Lemma scan_member en first m kv rest :
  utf8.ValidString kv.1 = true →
  json.scan en (json.sBeginKey first m) (json.encodeMember kv ++ rest)
  = json.scan en (json.sEndValue (<[kv.1 := kv.2]> m)) rest.
Proof.
  intros Hv. unfold json.encodeMember. rewrite <- app_assoc.
  rewrite scan_key by done. destruct kv as [k []]; reflexivity.
Qed.

Lemma scan_members en first m kv kvs rest :
  Forall (fun kv => utf8.ValidString kv.1 = true) (kv :: kvs) →
  json.scan en (json.sBeginKey first m)
    (json.encodeMembers (kv :: kvs) ++ "}"%char :: rest)
  = json.DecOk (Some (foldl (fun m kv => <[kv.1 := kv.2]> m) m (kv :: kvs))).
Proof.
  revert first m kv. induction kvs as [|kv' kvs IH]; intros first m kv Hv.
  - apply Forall_cons in Hv as [Hv _]. cbn [json.encodeMembers].
    by rewrite scan_member.
  - apply Forall_cons in Hv as [Hv Hrest].
    change (json.encodeMembers (kv :: kv' :: kvs))
      with (json.encodeMember kv ++ ","%char :: json.encodeMembers (kv' :: kvs)).
    rewrite <- app_assoc, scan_member by done.
    change ((","%char :: ?l) ++ ?r) with (","%char :: (l ++ r)).
    cbn [json.scan]. change (json.isSpace ",") with false.
    change (Ascii.eqb "," ",") with true. cbv iota.
    by rewrite IH.
Qed.

Lemma foldl_insert (kvs : list (string * bool)) (m0 : gmap string bool) :
  foldl (fun m kv => <[kv.1 := kv.2]> m) m0 kvs = list_to_map (rev kvs) ∪ m0.
Proof.
  revert m0. induction kvs as [|[k v] kvs IH]; intros m0.
  - simpl. by rewrite (left_id_L ∅ (∪)).
  - cbn [foldl rev]. rewrite IH, list_to_map_app. cbn [list_to_map foldr fst snd].
    rewrite <- (assoc_L (∪)). f_equal.
    by rewrite insert_union_singleton_l, insert_empty.
Qed.

Lemma sortedMembers_map m :
  foldl (fun m kv => <[kv.1 := kv.2]> m) ∅ (json.sortedMembers m) = m.
Proof.
  rewrite foldl_insert, (right_id_L ∅ (∪)).
  rewrite <- (list_to_map_to_list m) at 2.
  apply list_to_map_proper.
  - unfold json.sortedMembers. rewrite <- Permutation.Permutation_rev, merge_sort_Permutation.
    apply NoDup_fst_map_to_list.
  - unfold json.sortedMembers. by rewrite <- Permutation.Permutation_rev, merge_sort_Permutation.
Qed.

(** What the encoder writes for a map whose keys are valid UTF-8, the
    decoder reads back as the same map; and [null], written for the nil map,
    as the nil map. *)
Lemma Decode_Encode (v : option (gmap string bool)) :
  (∀ m k, v = Some m → is_Some (m !! k) → utf8.ValidString k = true) →
  json.Decode (json.Encode v) = json.DecOk v.
Proof.
  intros Hv. destruct v as [m|]; [|reflexivity].
  unfold json.Decode, json.DecodeFrom, json.Encode. rewrite bytes_ofBytes.
  cbn [json.scan]. change (json.isSpace "{") with false.
  change (Ascii.eqb "{" "{") with true. cbv iota.
  assert (Hk : Forall (fun kv => utf8.ValidString kv.1 = true) (json.sortedMembers m)).
  { apply Forall_forall. intros [k b] Hin. apply (Hv m k eq_refl).
    exists b. apply elem_of_map_to_list.
    unfold json.sortedMembers in Hin. by rewrite merge_sort_Permutation in Hin. }
  pose proof (sortedMembers_map m) as Hm.
  destruct (json.sortedMembers m) as [|kv kvs].
  - simpl in Hm. by subst m.
  - rewrite scan_members by done. by rewrite Hm.
Qed.



(** *** The end of the input and what follows a value *)

Lemma scan_EOF st l :
  json.scan None st l = json.DecEOF
  ↔ st = json.sTop ∧ forallb json.isSpace l = true.
Proof.
  revert st. induction l as [|c l IH]; intros st.
  - simpl. destruct st; (split; [intros H; by try discriminate H | by intros [[=] _]]).
  - split.
    + intros H. cbn [json.scan] in H. cbn [forallb].
      destruct st; repeat case_match; try discriminate;
        apply IH in H as [? ?]; try discriminate. by simplify_eq/=.
    + intros [-> H]. cbn [forallb] in H. apply andb_true_iff in H as [Hc H].
      cbn [json.scan]. rewrite Hc. by apply IH.
Qed.

(** the decoder of a reader that does not fail has no other error than its
    own *)
Lemma scan_error st l e :
  json.scan None st l = json.DecErr e → e = jsonError.
Proof.
  revert st. induction l as [|c l IH]; intros st.
  - simpl. destruct st; congruence.
  - cbn [json.scan]. destruct st; repeat case_match; try congruence; apply IH.
Qed.

Lemma scan_trailing en st l l' v :
  json.scan en st l = json.DecOk v → json.scan en st (l ++ l') = json.DecOk v.
Proof.
  revert st. induction l as [|c l IH]; intros st.
  - cbn [json.scan app]. destruct l'; [done|].
    destruct en as [[]|]; destruct st; try discriminate; done.
  - cbn [json.scan app]. destruct st; repeat case_match; try discriminate;
      try done; apply IH.
Qed.

(** Where the scanner, given [l] and anything after it, goes on in a state
    that expects more, it has no value by the end of a part of [l]: input
    that stops there is an error. *)
Lemma scan_cut st st' l p k :
  (∀ rest, json.scan None st (l ++ rest) = json.scan None st' rest) →
  st' ≠ json.sTop → st' ≠ json.sTopNullEnd →
  l = p ++ k →
  (∃ c p', p = c :: p' ∧ json.isSpace c = false) →
  json.scan None st p = json.DecErr jsonError.
Proof.
  intros Hreach Hs1 Hs2 -> (c & p' & -> & Hc).
  destruct (json.scan None st (c :: p')) as [v| |e] eqn:Hp.
  - apply (scan_trailing None st _ (k ++ []) v) in Hp.
    rewrite app_assoc, Hreach in Hp. simpl in Hp. by destruct st'.
  - apply scan_EOF in Hp as [_ Hp]. simpl in Hp. by rewrite Hc in Hp.
  - by rewrite (scan_error _ _ _ Hp).
Qed.

Lemma scan_members_open en first m kv kvs rest :
  Forall (fun kv => utf8.ValidString kv.1 = true) (kv :: kvs) →
  json.scan en (json.sBeginKey first m) (json.encodeMembers (kv :: kvs) ++ rest)
  = json.scan en
      (json.sEndValue (foldl (fun m kv => <[kv.1 := kv.2]> m) m (kv :: kvs))) rest.
Proof.
  revert first m kv. induction kvs as [|kv' kvs IH]; intros first m kv Hv.
  - apply Forall_cons in Hv as [Hv _]. cbn [json.encodeMembers].
    by rewrite scan_member.
  - apply Forall_cons in Hv as [Hv Hrest].
    change (json.encodeMembers (kv :: kv' :: kvs))
      with (json.encodeMember kv ++ ","%char :: json.encodeMembers (kv' :: kvs)).
    rewrite <- app_assoc, scan_member by done.
    change ((","%char :: ?l) ++ ?r) with (","%char :: (l ++ r)).
    cbn [json.scan]. change (json.isSpace ",") with false.
    change (Ascii.eqb "," ",") with true. cbv iota.
    by rewrite IH.
Qed.

Lemma length_ofBytes l : String.length (Str.ofBytes l) = length l.
Proof. induction l as [|c l IH]; [done|]. simpl. by rewrite IH. Qed.

(** What the encoder writes for a map with valid keys, cut anywhere before
    the closing brace and not empty, does not decode. *)
Lemma Decode_truncated m n :
  (∀ k, is_Some (m !! k) → utf8.ValidString k = true) →
  (0 < n)%nat → (n + 2 ≤ String.length (json.Encode (Some m)))%nat →
  json.Decode (Str.prefix n (json.Encode (Some m))) = json.DecErr jsonError.
Proof.
  intros Hv Hn Hlen. unfold json.Decode, json.DecodeFrom, Str.prefix, json.Encode in *.
  rewrite bytes_ofBytes. rewrite bytes_ofBytes.
  set (body := json.encodeMembers (json.sortedMembers m)) in *.
  rewrite length_ofBytes in Hlen. cbn [length] in Hlen.
  rewrite length_app in Hlen. cbn [length] in Hlen.
  assert (Hk : Forall (fun kv => utf8.ValidString kv.1 = true) (json.sortedMembers m)).
  { apply Forall_forall. intros [k b] Hin. apply (Hv k).
    exists b. apply elem_of_map_to_list.
    unfold json.sortedMembers in Hin. by rewrite merge_sort_Permutation in Hin. }
  assert (Hreach : ∃ st', st' ≠ json.sTop ∧ st' ≠ json.sTopNullEnd
            ∧ ∀ rest, json.scan None json.sTop (("{"%char :: body) ++ rest)
                      = json.scan None st' rest).
  { subst body. destruct (json.sortedMembers m) as [|kv kvs].
    - exists (json.sBeginKey true ∅). by repeat split.
    - eexists. split; [|split]; [| |intros rest; cbn [app json.scan];
        change (json.isSpace "{") with false;
        change (Ascii.eqb "{" "{") with true; cbv iota;
        by rewrite scan_members_open]; done. }
  destruct Hreach as (st' & Hs1 & Hs2 & Hreach).
  apply (scan_cut json.sTop st' ("{"%char :: body)
           (take n ("{"%char :: body ++ ["}"%char; "010"%char]))
           (drop n ("{"%char :: body))); try done.
  - rewrite <- (take_drop n ("{"%char :: body)) at 1. f_equal.
    change ("{"%char :: body ++ ["}"%char; "010"%char])
      with (("{"%char :: body) ++ ["}"%char; "010"%char]).
    rewrite take_app_le; [done|]. simpl. lia.
  - destruct n as [|n']; [lia|]. simpl. by eexists _, _.
Qed.

Lemma bytes_append s t : Str.bytes (s +:+ t) = Str.bytes s ++ Str.bytes t.
Proof. induction s as [|c s IH]; [done|]. simpl. by rewrite <- IH. Qed.

(** *** The history file *)

Lemma History_save_ok env filename h fs :
  value (History.saveTrackHistory env filename h fs) = None →
  filename ≠ EmptyString
  ∧ files (History.saveTrackHistory env filename h fs)
    = <[filename := json.Encode h]> (<[filename := EmptyString]> fs).
Proof.
  unfold History.saveTrackHistory, os.Create, os.Write. monad_step.
  repeat (case_match; monad_step); simplify_eq/=; try done.
Qed.

Lemma History_load_content env filename fs content :
  openFault env filename = None → readFault env filename = None →
  lookupFile fs filename = Some content →
  History.loadTrackHistory env filename fs
  = mkOut (match json.Decode content with
           | json.DecOk history => Ok history
           | json.DecEOF => Ok (Some ∅)
           | json.DecErr e => Err (wrapError "error decoding JSON: " e)
           end) fs [].
Proof.
  intros Ho Hr Hl. unfold History.loadTrackHistory, os.Open, readContent.
  rewrite bind_unfold. rewrite Ho, Hl, Hr. cbv beta iota.
  by destruct (json.Decode content).
Qed.

Lemma lookupFile_insert (fs : Files) name c :
  name ≠ EmptyString → lookupFile (<[name := c]> fs) name = Some c.
Proof. intros H. unfold lookupFile. rewrite decide_False by done. apply lookup_insert_eq. Qed.

(** A history written by [saveTrackHistory] is read back unchanged by
    [loadTrackHistory] when its keys are valid UTF-8 and neither opening
    nor reading the file fails. *)
Theorem History_save_load_round_trip env env' filename h fs :
  (∀ m k, h = Some m → is_Some (m !! k) → utf8.ValidString k = true) →
  value (History.saveTrackHistory env filename h fs) = None →
  openFault env' filename = None →
  readFault env' filename = None →
  value (History.loadTrackHistory env' filename
           (files (History.saveTrackHistory env filename h fs))) = Ok h.
Proof.
  intros Hv Hs Ho Hr. destruct (History_save_ok _ _ _ _ Hs) as [Hne ->].
  rewrite (History_load_content env' filename _ (json.Encode h))
    by (done || by apply lookupFile_insert).
  cbn [value]. by rewrite Decode_Encode.
Qed.

(** A key that is one byte above 0x7F, which is not valid UTF-8, comes back
    as U+FFFD. *)
Lemma Decode_Encode_high_byte c b :
  0x80 ≤ utf8.byte c →
  json.Decode (json.Encode (Some {[String c EmptyString := b]}))
  = json.DecOk (Some {[replacementChar := b]}).
Proof.
  intros H. unfold json.Decode, json.DecodeFrom, json.Encode, json.sortedMembers.
  rewrite map_to_list_singleton, bytes_ofBytes.
  destruct b;
    (destruct c as [[] [] [] [] [] [] [] []];
     first [by vm_compute in H | vm_compute; reflexivity]).
Qed.

(** The round trip changes a history with a key that is not valid UTF-8:
    a key of one byte above 0x7F is read back, where opening and reading the
    file do not fail, as U+FFFD. *)
Theorem History_round_trip_replaces_invalid_key env env' filename c b fs :
  0x80 ≤ utf8.byte c →
  value (History.saveTrackHistory env filename
           (Some {[String c EmptyString := b]}) fs) = None →
  openFault env' filename = None →
  readFault env' filename = None →
  value (History.loadTrackHistory env' filename
           (files (History.saveTrackHistory env filename
                     (Some {[String c EmptyString := b]}) fs)))
  = Ok (Some {[replacementChar := b]})
  ∧ ({[replacementChar := b]} : gmap string bool) ≠ {[String c EmptyString := b]}.
Proof.
  intros Hc Hs Ho Hr. destruct (History_save_ok _ _ _ _ Hs) as [Hne ->]. split.
  - rewrite (History_load_content env' filename _
               (json.Encode (Some {[String c EmptyString := b]})))
      by (done || by apply lookupFile_insert).
    cbn [value]. by rewrite Decode_Encode_high_byte.
  - intros Heq. apply (f_equal (fun m : gmap string bool => m !! replacementChar)) in Heq.
    rewrite lookup_singleton_eq, lookup_singleton_ne in Heq; done.
Qed.

(** A history file that is missing, or that holds nothing but white space
    and is read without failure, gives the empty history; the files stay as
    they are and nothing is logged. *)
Theorem History_load_missing_or_blank env filename fs :
  openFault env filename = None →
  (lookupFile fs filename = None
   ∨ ∃ content, lookupFile fs filename = Some content ∧ blank content = true
                ∧ readFault env filename = None) →
  History.loadTrackHistory env filename fs = mkOut (Ok (Some ∅)) fs [].
Proof.
  intros Ho [Hl|(content & Hl & Hb & Hr)].
  - unfold History.loadTrackHistory, os.Open. rewrite bind_unfold, Ho, Hl. done.
  - rewrite (History_load_content env filename fs content) by done.
    unfold json.Decode, json.DecodeFrom.
    by rewrite (proj2 (scan_EOF json.sTop _)).
Qed.

(** A history file cut short is an error: when the file holds the
    beginning of what [saveTrackHistory] writes for a map with valid UTF-8
    keys, at least one byte of it and not yet the closing brace,
    [loadTrackHistory] returns the error of the decoder. *)
Theorem History_load_truncated env filename fs m n :
  (∀ k, is_Some (m !! k) → utf8.ValidString k = true) →
  openFault env filename = None → readFault env filename = None →
  lookupFile fs filename = Some (Str.prefix n (json.Encode (Some m))) →
  (0 < n)%nat → (n + 2 ≤ String.length (json.Encode (Some m)))%nat →
  value (History.loadTrackHistory env filename fs)
  = Err (wrapError "error decoding JSON: " jsonError).
Proof.
  intros Hv Ho Hr Hl Hn Hlen.
  rewrite (History_load_content env filename fs _ Ho Hr Hl).
  cbn [value]. by rewrite Decode_truncated.
Qed.

(** What follows the first value in the history file is not read. *)
Theorem History_load_ignores_trailing env filename fs fs' content more h :
  openFault env filename = None →
  readFault env filename = None →
  lookupFile fs filename = Some content →
  lookupFile fs' filename = Some (content +:+ more) →
  json.Decode content = json.DecOk h →
  value (History.loadTrackHistory env filename fs) = Ok h
  ∧ value (History.loadTrackHistory env filename fs') = Ok h.
Proof.
  intros Ho Hr Hl Hl' Hd.
  rewrite (History_load_content env filename fs content),
          (History_load_content env filename fs' (content +:+ more)) by done.
  cbn [value]. unfold json.Decode, json.DecodeFrom in *. rewrite bytes_append.
  by rewrite (scan_trailing _ _ _ _ _ Hd), Hd.
Qed.

(** *** data.json of the upload-flag variant *)

Lemma Upload_save_ok env filename data fs :
  value (Upload.saveData env filename data fs) = None →
  filename ≠ EmptyString
  ∧ files (Upload.saveData env filename data fs)
    = <[filename := json.Encode data]> (<[filename := EmptyString]> fs).
Proof.
  unfold Upload.saveData, os.Create, os.Write. monad_step.
  repeat (case_match; monad_step); simplify_eq/=; try done.
Qed.

(** [saveData] followed by [loadData] gives the map back when its keys are
    valid UTF-8 and neither opening nor reading the file fails. *)
Theorem Upload_save_load_round_trip env env' filename data fs :
  (∀ m k, data = Some m → is_Some (m !! k) → utf8.ValidString k = true) →
  value (Upload.saveData env filename data fs) = None →
  openFault env' filename = None →
  readFault env' filename = None →
  value (Upload.loadData env' filename
           (files (Upload.saveData env filename data fs))) = Ok data.
Proof.
  intros Hv Hs Ho Hr. destruct (Upload_save_ok _ _ _ _ Hs) as [Hne ->].
  unfold Upload.loadData, os.Open, readContent. rewrite bind_unfold, Ho, Hr.
  rewrite lookupFile_insert by done. cbv beta iota.
  by rewrite Decode_Encode.
Qed.

#[local] Close Scope N_scope.

(** ** Start-up and the loop of the history variant *)

Lemma History_loadTrackHistory_frame env filename fs :
  files (History.loadTrackHistory env filename fs) = fs
  ∧ events (History.loadTrackHistory env filename fs) = [].
Proof.
  unfold History.loadTrackHistory, os.Open. monad_step.
  repeat (case_match; monad_step); done.
Qed.




(** [run] does not start the loop when a setting is missing: it returns an
    error, and no request was sent, no line logged and no file touched. *)
Theorem History_run_requires_settings lib dotenv getenv start envs fs name :
  name ∈ settings → getenv name = EmptyString →
  ∃ e, History.run lib dotenv getenv start envs fs = mkOut (Err e) fs [].
Proof.
  intros Hin Hn. unfold History.run.
  destruct dotenv as [e|]; [by eexists|].
  unfold History.newSpotifyClient, History.newTelegramClient. cbv zeta.
  unfold settings in Hin. repeat (rewrite elem_of_cons in Hin).
  destruct Hin as [->|[->|[->|[->|[->|Hin]]]]];
    [..|by apply elem_of_nil in Hin]; rewrite Hn;
    repeat (case_bool_decide; cbn [orb]); try done; by eexists.
Qed.

(** A [run] that returns an error did so during start-up, before anything
    was requested, logged or written. *)
Theorem History_run_error_is_startup lib dotenv getenv start envs fs e :
  value (History.run lib dotenv getenv start envs fs) = Err e →
  History.run lib dotenv getenv start envs fs = mkOut (Err e) fs [].
Proof.
  unfold History.run.
  destruct dotenv as [e0|]; [by intros [= <-]|].
  destruct (History.newSpotifyClient getenv) as [sp|e1]; [|by intros [= <-]].
  destruct (History.newTelegramClient getenv) as [tg|e2]; [|by intros [= <-]].
  rewrite bind_unfold.
  destruct (History_loadTrackHistory_frame start History.dataFileName fs) as [Hf He].
  destruct (History.loadTrackHistory start History.dataFileName fs) as [h f ev].
  cbn [value files events] in *. subst f ev.
  destruct h as [h|e3]; [|by intros [= <-]].
  rewrite bind_unfold.
  destruct (History.loop lib envs sp tg h fs) as [v f ev]. done.
Qed.

(** ** The printing variant *)






(** *** Examples *)

Lemma History_save_load_round_trip_witness :
  value (History.loadTrackHistory (tick nothing audioOnly accepted) "data.json"
           (files (History.saveTrackHistory (tick nothing audioOnly accepted)
                     "data.json" (Some {["Song A - Artist X" := true]}) ∅)))
  = Ok (Some {["Song A - Artist X" := true]}).
Proof.
  refine (History_save_load_round_trip (tick nothing audioOnly accepted)
            (tick nothing audioOnly accepted) "data.json"
            (Some {["Song A - Artist X" := true]}) ∅ _ _ _ _).
  - intros m k [= <-] [b Hb]. apply lookup_singleton_Some in Hb as [<- _].
    reflexivity.
  - reflexivity.
  - reflexivity.
  - reflexivity.
Defined.

Lemma History_round_trip_replaces_invalid_key_witness :
  value (History.loadTrackHistory (tick nothing audioOnly accepted) "data.json"
           (files (History.saveTrackHistory (tick nothing audioOnly accepted)
                     "data.json" (Some {[String "255" EmptyString := true]}) ∅)))
  = Ok (Some {[replacementChar := true]}).
Proof.
  refine (proj1 (History_round_trip_replaces_invalid_key
                   (tick nothing audioOnly accepted)
                   (tick nothing audioOnly accepted) "data.json" "255"%char true ∅
                   _ _ _ _)).
  - discriminate.
  - reflexivity.
  - reflexivity.
  - reflexivity.
Defined.

Lemma History_load_missing_or_blank_witness :
  History.loadTrackHistory (tick nothing audioOnly accepted) "data.json"
    {["data.json" := String " " (String "010" EmptyString)]}
  = mkOut (Ok (Some ∅)) {["data.json" := String " " (String "010" EmptyString)]} [].
Proof.
  refine (History_load_missing_or_blank (tick nothing audioOnly accepted)
            "data.json" {["data.json" := String " " (String "010" EmptyString)]}
            _ _).
  - reflexivity.
  - right. exists (String " " (String "010" EmptyString)).
    split; [reflexivity|]. split; reflexivity.
Defined.

Lemma History_load_truncated_witness :
  value (History.loadTrackHistory (tick nothing audioOnly accepted) "data.json"
           {["data.json"
             := Str.prefix 15 (json.Encode (Some {["Song A - Artist X" := true]}))]})
  = Err (wrapError "error decoding JSON: " jsonError).
Proof.
  refine (History_load_truncated (tick nothing audioOnly accepted) "data.json"
            {["data.json"
              := Str.prefix 15 (json.Encode (Some {["Song A - Artist X" := true]}))]}
            {["Song A - Artist X" := true]} 15 _ _ _ _ _ _).
  - intros k [b Hb]. apply lookup_singleton_Some in Hb as [<- _]. reflexivity.
  - reflexivity.
  - reflexivity.
  - reflexivity.
  - lia.
  - vm_compute. lia.
Defined.

Lemma History_load_ignores_trailing_witness :
  value (History.loadTrackHistory (tick nothing audioOnly accepted) "data.json"
           {["data.json" := json.Encode (Some ∅) +:+ "} and more"]})
  = Ok (Some ∅).
Proof.
  refine (proj2 (History_load_ignores_trailing (tick nothing audioOnly accepted)
                   "data.json" {["data.json" := json.Encode (Some ∅)]}
                   {["data.json" := json.Encode (Some ∅) +:+ "} and more"]}
                   (json.Encode (Some ∅)) "} and more" (Some ∅) _ _ _ _ _));
    reflexivity.
Defined.

Lemma Upload_save_load_round_trip_witness :
  value (Upload.loadData (tick nothing audioOnly accepted) "data.json"
           (files (Upload.saveData (tick nothing audioOnly accepted) "data.json"
                     (Some {["Song A - Artist X" := true]}) ∅)))
  = Ok (Some {["Song A - Artist X" := true]}).
Proof.
  refine (Upload_save_load_round_trip (tick nothing audioOnly accepted)
            (tick nothing audioOnly accepted) "data.json"
            (Some {["Song A - Artist X" := true]}) ∅ _ _ _ _).
  - intros m k [= <-] [b Hb]. apply lookup_singleton_Some in Hb as [<- _].
    reflexivity.
  - reflexivity.
  - reflexivity.
  - reflexivity.
Defined.



Lemma History_run_requires_settings_witness :
  ∃ e, History.run toyLib None
         (fun name => if bool_decide (name = "CHAT_ID") then EmptyString else "set")
         (tick nothing audioOnly accepted) [tick songA audioOnly accepted] ∅
       = mkOut (Err e) ∅ [].
Proof.
  refine (History_run_requires_settings toyLib None
            (fun name => if bool_decide (name = "CHAT_ID") then EmptyString else "set")
            (tick nothing audioOnly accepted) [tick songA audioOnly accepted] ∅
            "CHAT_ID" _ _).
  - unfold settings. repeat first [apply list_elem_of_here | apply list_elem_of_further].
  - reflexivity.
Defined.

Lemma History_run_error_is_startup_witness :
  History.run toyLib (Some (errorString "open .env: no such file or directory"))
    environ (tick nothing audioOnly accepted) [tick songA audioOnly accepted] ∅
  = mkOut (Err (wrapError "error loading .env file: "
                  (errorString "open .env: no such file or directory"))) ∅ [].
Proof.
  refine (History_run_error_is_startup toyLib
            (Some (errorString "open .env: no such file or directory"))
            environ (tick nothing audioOnly accepted)
            [tick songA audioOnly accepted] ∅ _ _).
  reflexivity.
Defined.
